(** * Expressify examples: middleware dispatch, request parsing, static files,
      rate limiting and session lookup

    A shallow embedding of the Python sources

      - [examples/03-middleware/simple_middleware.py]
      - [examples/03-middleware/middleware_utils.py]
      - [examples/09-sessions-cookies/app.py]
      - [examples/07-error-handling/app.py] (the catch-all handler)

    Python [str] and [bytes] values are byte strings ([string]); a [dict] that
    is only looked up is a [gmap], a [dict] whose iteration order is observed
    (the response headers) is an association list.  Middleware bodies are
    programs of a small instruction tree ([Chain.Prog]) whose operations are the
    calls the sources make on [res] and on [next]. *)

From Stdlib Require Import ZArith String Ascii List Bool Lia DecimalString Sorting.Sorted.
From stdpp Require Import base option list gmap strings.
Import ListNotations.

Local Open Scope string_scope.
Local Open Scope Z_scope.

(* ===================================================================== *)
(** ** Python string operations used by the sources *)
(* ===================================================================== *)

Module Str.

(** [s.startswith(p)] *)
Definition startswith (s p : string) : bool := String.prefix p s.

(** [s[n:]] for [n >= 0] *)
Fixpoint slice_from (n : nat) (s : string) : string :=
  match n, s with
  | O, _ => s
  | S _, EmptyString => EmptyString
  | S n', String _ s' => slice_from n' s'
  end.

(** [s[:n]] for [n >= 0] *)
Fixpoint slice_to (n : nat) (s : string) : string :=
  match n, s with
  | O, _ => EmptyString
  | S _, EmptyString => EmptyString
  | S n', String c s' => String c (slice_to n' s')
  end.

(** [s.endswith(p)] *)
Definition endswith (s p : string) : bool :=
  (String.length p <=? String.length s)%nat &&
  String.eqb (slice_from (String.length s - String.length p) s) p.

(** [s.split(sep)] for a one-character separator: never the empty list. *)
Fixpoint split (sep : ascii) (s : string) : list string :=
  match s with
  | EmptyString => [EmptyString]
  | String c s' =>
      if Ascii.eqb c sep then EmptyString :: split sep s'
      else match split sep s' with
           | x :: xs => String c x :: xs
           | [] => [String c EmptyString]
           end
  end.

(** [s.split(sep, 1)]: the text before the first separator and, when there
    is a separator, the text after it. *)
Fixpoint split1 (sep : ascii) (s : string) : string * option string :=
  match s with
  | EmptyString => (EmptyString, None)
  | String c s' =>
      if Ascii.eqb c sep then (EmptyString, Some s')
      else let '(a, b) := split1 sep s' in (String c a, b)
  end.

(** [sep.join(parts)] *)
Definition join (sep : string) (parts : list string) : string :=
  String.concat sep parts.

Definition map_chars (f : ascii -> ascii) : string -> string :=
  fix go s := match s with
              | EmptyString => EmptyString
              | String c s' => String (f c) (go s')
              end.

(** [s.lower()] on the ASCII letters (header field names are ASCII tokens). *)
Definition lower_char (c : ascii) : ascii :=
  let n := nat_of_ascii c in
  if ((65 <=? n) && (n <=? 90))%nat then ascii_of_nat (n + 32) else c.

Definition lower : string -> string := map_chars lower_char.

(** [s.replace(a, b)] for single characters *)
Definition replace_char (a b : ascii) : string -> string :=
  map_chars (fun c => if Ascii.eqb c a then b else c).

(** [s.rfind(c)]: index of the last occurrence, [-1] when there is none. *)
Fixpoint rfind_from (c : ascii) (s : string) (i : Z) (last : Z) : Z :=
  match s with
  | EmptyString => last
  | String d s' => rfind_from c s' (i + 1) (if Ascii.eqb d c then i else last)
  end.

Definition rfind (c : ascii) (s : string) : Z := rfind_from c s 0 (-1).

(** [needle in s] *)
Fixpoint contains (needle s : string) : bool :=
  String.prefix needle s
  || match s with
     | EmptyString => false
     | String _ s' => contains needle s'
     end.

Fixpoint all_chars (p : ascii -> bool) (s : string) : bool :=
  match s with
  | EmptyString => true
  | String c s' => p c && all_chars p s'
  end.

(** The truth value of an optional [str]: [None] and the empty text are
    false. *)
Definition is_set (value : option string) : bool :=
  match value with
  | Some text => negb (String.eqb text "")
  | None => false
  end.

(** [str(n)] for an [int] *)
Definition of_Z (n : Z) : string := NilZero.string_of_int (Z.to_int n).

End Str.

(* ===================================================================== *)
(** ** [posixpath]: join, normpath, abspath, splitext *)
(* ===================================================================== *)

Module PosixPath.

Definition sep : ascii := "/"%char.

(** [os.path.join(a, b)] *)
Definition join (a b : string) : string :=
  if Str.startswith b "/" then b
  else if String.eqb a "" || Str.endswith a "/" then a ++ b
  else a ++ "/" ++ b.

(** The loop of [normpath] over the components. *)
Fixpoint norm_comps (initial_slashes : bool) (comps new_comps : list string)
  : list string :=
  match comps with
  | [] => new_comps
  | comp :: rest =>
      if String.eqb comp "" || String.eqb comp "." then
        norm_comps initial_slashes rest new_comps
      else if negb (String.eqb comp "..")
              || (negb initial_slashes && bool_decide (new_comps = []))
              || match last new_comps with
                 | Some l => String.eqb l ".."
                 | None => false
                 end
      then norm_comps initial_slashes rest (new_comps ++ [comp])
      else norm_comps initial_slashes rest (removelast new_comps)
  end.

(** [os.path.normpath(path)] *)
Definition normpath (path : string) : string :=
  if String.eqb path "" then "."
  else
    let initial_slashes : nat :=
      if Str.startswith path "/" then
        if Str.startswith path "//" && negb (Str.startswith path "///")
        then 2%nat else 1%nat
      else 0%nat in
    let comps := norm_comps (negb (Nat.eqb initial_slashes 0))
                   (Str.split sep path) [] in
    let p := Str.join "/" comps in
    let p := match initial_slashes with
             | O => p
             | 1%nat => "/" ++ p
             | _ => "//" ++ p
             end in
    if String.eqb p "" then "." else p.

(** [os.path.abspath(path)] in a process whose working directory is [cwd] *)
Definition abspath (cwd path : string) : string :=
  normpath (if Str.startswith path "/" then path else join cwd path).

(** [os.path.splitext(p)] *)
Definition splitext (p : string) : string * string :=
  let sepIndex := Str.rfind "/" p in
  let dotIndex := Str.rfind "." p in
  if dotIndex >? sepIndex then
    let stem := Str.slice_to (Z.to_nat (dotIndex - (sepIndex + 1)))
                  (Str.slice_from (Z.to_nat (sepIndex + 1)) p) in
    if Str.all_chars (fun c => Ascii.eqb c ".") stem then (p, "")
    else (Str.slice_to (Z.to_nat dotIndex) p, Str.slice_from (Z.to_nat dotIndex) p)
  else (p, "").

End PosixPath.

(* ===================================================================== *)
(** ** [urllib.parse]: unquote, parse_qsl, parse_qs *)
(* ===================================================================== *)

Module UrlParse.

Definition hex_val (c : ascii) : option nat :=
  let n := nat_of_ascii c in
  if ((48 <=? n) && (n <=? 57))%nat then Some (n - 48)%nat
  else if ((65 <=? n) && (n <=? 70))%nat then Some (n - 55)%nat
  else if ((97 <=? n) && (n <=? 102))%nat then Some (n - 87)%nat
  else None.

(** [unquote]: every [%XY] with two hexadecimal digits becomes the byte
    [0xXY]; any other [%] stays.  Python then decodes the bytes as UTF-8
    with [errors='replace']; on byte strings that is the identity whenever
    the escapes spell valid UTF-8. *)
Fixpoint unquote (s : string) : string :=
  match s with
  | EmptyString => EmptyString
  | String c s1 =>
      if Ascii.eqb c "%" then
        match s1 with
        | String a (String b rest) =>
            match hex_val a, hex_val b with
            | Some x, Some y => String (ascii_of_nat (16 * x + y)) (unquote rest)
            | _, _ => String c (unquote s1)
            end
        | _ => String c (unquote s1)
        end
      else String c (unquote s1)
  end.

(** One field [name_value] of the query string, as the loop body of
    [parse_qsl] treats it with [keep_blank_values=False] and
    [strict_parsing=False]. *)
Definition parse_field (name_value : string) : option (string * string) :=
  if String.eqb name_value "" then None
  else match Str.split1 "=" name_value with
       | (_, None) => None
       | (n, Some v) =>
           if String.eqb v "" then None
           else Some (unquote (Str.replace_char "+" " " n),
                      unquote (Str.replace_char "+" " " v))
       end.

(** [parse_qsl(qs)] *)
Definition parse_qsl (qs : string) : list (string * string) :=
  omap parse_field (if String.eqb qs "" then [] else Str.split "&" qs).

(** [parse_qs(qs)]: every name is bound to the list of its values in the
    order of the query string.  Such a list is created with one element and
    only grows, so it is kept as its first element and the rest. *)
Definition add_value (acc : gmap string (string * list string))
    (nv : string * string) : gmap string (string * list string) :=
  match acc !! nv.1 with
  | Some (v0, vs) => <[nv.1 := (v0, (vs ++ [nv.2])%list)]> acc
  | None => <[nv.1 := (nv.2, [])]> acc
  end.

Definition parse_qs (qs : string) : gmap string (string * list string) :=
  foldl add_value ∅ (parse_qsl qs).

(** [{k: v[0] for k, v in parse_qs(qs).items()}] *)
Definition first_values (qs : string) : gmap string string :=
  fst <$> parse_qs qs.

End UrlParse.

(* ===================================================================== *)
(** ** Values shared by the modules: JSON data, exceptions, programs *)
(* ===================================================================== *)

(** Data handed to [json.dumps] or produced by [json.loads].  [JMap] is a
    [dict] from [str] to [str] whose order is not tracked. *)
#[local] Unset Elimination Schemes.
Inductive json : Type :=
| JNull
| JBool (b : bool)
| JInt (n : Z)
| JStr (s : string)
| JList (xs : list json)
| JDict (kvs : list (string * json))
| JMap (m : gmap string string).
#[local] Set Elimination Schemes.

(** Python truth value of such data. *)
Definition truthy (j : json) : bool :=
  match j with
  | JNull => false
  | JBool b => b
  | JInt n => negb (n =? 0)
  | JStr s => negb (String.eqb s "")
  | JList xs => negb (bool_decide (xs = []))
  | JDict kvs => match kvs with [] => false | _ => true end
  | JMap m => negb (bool_decide (m = ∅))
  end.

(** A raised exception: [type(e).__name__], [str(e)], the attribute
    [status_code] when the exception has one, and its formatted traceback. *)
Record exn : Type := Exception {
  exn_type : string;
  exn_msg : string;
  exn_status_code : option Z;
  exn_traceback : string
}.

Module Chain.

(** What a middleware returns: [None] or the response object. *)
Inductive retval : Type := RNone | RRes.

(** The argument of [res.send]: a [str], a [bytes], the [str] that
    [json.dumps] makes of some data, or any other object. *)
Inductive content : Type :=
| Text (s : string)
| Bytes (b : string)
| JsonText (d : json)
| Obj.

(** A printed line; the values the sources format with [repr] stay
    symbolic, and the elapsed time of the logger is left out. *)
Inductive logmsg : Type :=
| Line (s : string)
| HeadersLine (h : gmap string string)
| BodyLine (b : json)
| ResponseLine (status : Z).

(** The body of a middleware [def middleware(req, res, next)]: the calls it
    makes on [res], on [next] and on the clock, in order. [Ret] is
    [return]; [Try body handler] is [try: body  except Exception as e:
    handler e], where [body] ends in a [return] whenever it does not
    raise. *)
Inductive Prog : Type :=
| Ret (v : retval)
| Raise (e : exn)
| Log (m : logmsg) (k : Prog)
| Status (code : Z) (k : Prog)
| SetHeader (name value : string) (k : Prog)
| Send (c : content) (k : Prog)
| Json (d : json) (k : Prog)
| ReadStatus (k : Z -> Prog)
| Now (k : string -> Prog)
| Next (k : retval -> Prog)
| Try (body : Prog) (handler : exn -> Prog).

(** Dispatch events: [Enter i] is a call of [execute_middleware(i)],
    [CallNext i] is the element at position [i] calling its [next]. *)
Inductive event : Type :=
| Enter (i : nat)
| CallNext (i : nat)
| HandleError (e : exn).

Inductive outcome : Type :=
| Val (v : retval)
| Exn (e : exn).

(** [no_next p]: the program text of [p] has no call of [next]. *)
Fixpoint no_next (p : Prog) : Prop :=
  match p with
  | Ret _ | Raise _ => True
  | Log _ k | Status _ k | SetHeader _ _ k | Send _ k | Json _ k => no_next k
  | ReadStatus k => forall s, no_next (k s)
  | Now k => forall s, no_next (k s)
  | Next _ => False
  | Try body handler => no_next body /\ forall e, no_next (handler e)
  end.

End Chain.

(** The file system as the middlewares see it: the working directory and the
    regular files, keyed by absolute normalised path (no symbolic links, so
    the kernel's resolution of [..] is the lexical one). *)
Inductive file_entry : Type :=
| Readable (data : string)
| Unreadable.

Record FS : Type := {
  cwd : string;
  files : gmap string file_entry
}.

(** [os.path.exists(p) and os.path.isfile(p)] *)
Definition isfile (fs : FS) (p : string) : bool :=
  bool_decide (is_Some (files fs !! PosixPath.abspath (cwd fs) p)).

(** [open(p, 'rb').read()] *)
Definition read_file (fs : FS) (p : string) : exn + string :=
  match files fs !! PosixPath.abspath (cwd fs) p with
  | Some (Readable data) => inr data
  | Some Unreadable =>
      inl (Exception "PermissionError" ("[Errno 13] Permission denied: '" ++ p ++ "'") None "")
  | None =>
      inl (Exception "FileNotFoundError" ("[Errno 2] No such file or directory: '" ++ p ++ "'") None "")
  end.

(* ===================================================================== *)
(** ** [simple_middleware.py] *)
(* ===================================================================== *)

(** The library functions [Request.__init__] calls on the request body and
    that are not modelled: [int(text)], [bytes.decode('utf-8')] and
    [json.loads]; [None] is a raised [ValueError] or [UnicodeDecodeError]. *)
Class PyLib : Type := {
  py_int : string -> option Z;
  utf8_decode : string -> option string;
  json_loads : string -> option json
}.

Module SimpleMiddleware.
Import Chain.

Definition PUBLIC_DIR : string := "public".

(** What [BaseHTTPRequestHandler] has parsed when [do_GET] is called:
    [command], [path], [headers.items()] and the bytes waiting in [rfile]. *)
Record HandlerIn : Type := {
  command : string;
  hpath : string;
  hheaders : list (string * string);
  rfile : string
}.

Module Request.
Record t : Type := {
  method : string;
  path : string;
  headers : gmap string string;
  query : gmap string string;
  body : json;
  body_raw : string
}.
End Request.

(** [{k.lower(): v for k, v in handler.headers.items()}] *)
Definition lower_keys (items : list (string * string)) : gmap string string :=
  foldl (fun d kv => <[Str.lower kv.1 := kv.2]> d) ∅ items.

(** The query of [Request.__init__]. *)
Definition parse_query (handler_path : string) : gmap string string :=
  match Str.split1 "?" handler_path with
  | (_, Some query_string) => UrlParse.first_values query_string
  | (_, None) => ∅
  end.

Section RequestInit.
Context {lib : PyLib}.

(** The body part of [Request.__init__]: [(body, body_raw)]. *)
Definition read_body (headers : gmap string string) (rfile : string)
  : exn + (json * string) :=
  match match headers !! "content-length" with
        | None => Some 0
        | Some text => py_int text
        end with
  | None => inl (Exception "ValueError" "invalid literal for int() with base 10" None "")
  | Some content_length =>
      if content_length >? 0 then
        match utf8_decode (Str.slice_to (Z.to_nat content_length) rfile) with
        | None => inl (Exception "UnicodeDecodeError" "'utf-8' codec can't decode" None "")
        | Some body_data =>
            let content_type := default "" (headers !! "content-type") in
            if Str.contains "application/json" content_type then
              inr (default (JDict []) (json_loads body_data), body_data)
            else if Str.contains "application/x-www-form-urlencoded" content_type then
              inr (JMap (UrlParse.first_values body_data), body_data)
            else inr (JDict [], body_data)
        end
      else inr (JDict [], "")
  end.

(** [Request(handler)] *)
Definition Request_init (handler : HandlerIn) : exn + Request.t :=
  let headers := lower_keys (hheaders handler) in
  match read_body headers (rfile handler) with
  | inl e => inl e
  | inr (body, body_raw) =>
      inr {| Request.method := command handler;
             Request.path := (Str.split1 "?" (hpath handler)).1;
             Request.headers := headers;
             Request.query := parse_query (hpath handler);
             Request.body := body;
             Request.body_raw := body_raw |}
  end.
End RequestInit.

Module Response.
(** [headers] is a [dict] that [send] iterates: insertion order kept. *)
Record t : Type := {
  status_code : Z;
  headers : list (string * string)
}.
End Response.

(** [d[k] = v] on an insertion-ordered [dict]. *)
Fixpoint dict_set (k v : string) (d : list (string * string)) : list (string * string) :=
  match d with
  | [] => [(k, v)]
  | (k', v') :: d' => if String.eqb k' k then (k', v) :: d' else (k', v') :: dict_set k v d'
  end.

Fixpoint dict_get (k : string) (d : list (string * string)) : option string :=
  match d with
  | [] => None
  | (k', v') :: d' => if String.eqb k' k then Some v' else dict_get k d'
  end.

(** [Response(handler)] *)
Definition Response_init : Response.t :=
  {| Response.status_code := 200; Response.headers := [("Content-Type", "text/html")] |}.

(** What reaches the client connection.  [send_response code] stands for
    the status line with the [Server] and [Date] headers the library puts
    behind it; header values are taken to be latin-1 text, which is what
    [send_header] can encode. *)
Inductive wire_event : Type :=
| send_response (code : Z)
| send_header (name value : string)
| end_headers
| wfile_write (c : content).

(** The state one dispatch works on: the [Response] object, the connection
    ([connected = false]: the client is gone and flushing raises), the lines
    the application code prints (the access-log line the library prints with
    each status line is left out), and the text [datetime.now().isoformat()]
    returns. *)
Record World : Type := {
  res : Response.t;
  connected : bool;
  wire : list wire_event;
  stdout : list logmsg;
  now_iso : string
}.

Definition with_res (r : Response.t) (w : World) : World :=
  {| res := r; connected := connected w; wire := wire w;
     stdout := stdout w; now_iso := now_iso w |}.

Definition with_wire (evs : list wire_event) (w : World) : World :=
  {| res := res w; connected := connected w; wire := evs;
     stdout := stdout w; now_iso := now_iso w |}.

(** [log(message)] *)
Definition log (m : logmsg) (w : World) : World :=
  {| res := res w; connected := connected w; wire := wire w;
     stdout := (stdout w ++ [m])%list; now_iso := now_iso w |}.

Definition connection_error : exn :=
  Exception "BrokenPipeError" "[Errno 32] Broken pipe" None "".

(** [Response.status] *)
Definition Response_status (code : Z) (w : World) : World :=
  with_res {| Response.status_code := code;
              Response.headers := Response.headers (res w) |} w.

(** [Response.set_header] *)
Definition Response_set_header (name value : string) (w : World) : World :=
  with_res {| Response.status_code := Response.status_code (res w);
              Response.headers := dict_set name value (Response.headers (res w)) |} w.

(** The bytes [Response.send] writes for [content]: nothing for an object
    that is neither [str] nor [bytes]. *)
Definition body_events (c : content) : list wire_event :=
  match c with
  | Obj => []
  | _ => [wfile_write c]
  end.

(** [Response.send]: status line, every header, end of headers, body. The
    status line and headers are buffered until [end_headers] flushes them,
    which raises on a closed connection. *)
Definition Response_send (c : content) (w : World) : outcome * World :=
  if connected w then
    (Val RRes,
     with_wire (wire w
                ++ [send_response (Response.status_code (res w))]
                ++ map (fun nv => send_header nv.1 nv.2) (Response.headers (res w))
                ++ [end_headers]
                ++ body_events c)%list w)
  else (Exn connection_error, w).

(** [Response.json] *)
Definition Response_json (data : json) (w : World) : outcome * World :=
  Response_send (JsonText data) (Response_set_header "Content-Type" "application/json" w).

(** [Response.redirect] *)
Definition Response_redirect (url : string) (w : World) : outcome * World :=
  Response_send (Text "") (Response_set_header "Location" url (Response_status 302 w)).

Definition result : Type := outcome * World * list event.

(** Running the body of the chain element at position [i]: [next] is the
    continuation [lambda: execute_middleware(index + 1)]. *)
Fixpoint run (i : nat) (p : Prog) (next : World -> result) (w : World) : result :=
  match p with
  | Ret v => (Val v, w, [])
  | Raise e => (Exn e, w, [])
  | Log m k => run i k next (log m w)
  | Status code k => run i k next (Response_status code w)
  | SetHeader name value k => run i k next (Response_set_header name value w)
  | Send c k =>
      match Response_send c w with
      | (Val _, w') => run i k next w'
      | (Exn e, w') => (Exn e, w', [])
      end
  | Json d k =>
      match Response_json d w with
      | (Val _, w') => run i k next w'
      | (Exn e, w') => (Exn e, w', [])
      end
  | ReadStatus k => run i (k (Response.status_code (res w))) next w
  | Now k => run i (k (now_iso w)) next w
  | Next k =>
      match next w with
      | (Val v, w', evs) =>
          let '(o, w'', evs') := run i (k v) next w' in
          (o, w'', (CallNext i :: evs ++ evs')%list)
      | (Exn e, w', evs) => (Exn e, w', CallNext i :: evs)
      end
  | Try body handler =>
      match run i body next w with
      | (Val v, w', evs) => (Val v, w', evs)
      | (Exn e, w', evs) =>
          let '(o, w'', evs') := run i (handler e) next w' in
          (o, w'', (evs ++ evs')%list)
      end
  end.

Definition middleware : Type := Request.t -> Prog.

Definition dq : string := String (ascii_of_nat 34) EmptyString.

(** The page [routes_middleware] sends for [/about]. *)
Definition about_page : string :=
  "
<!DOCTYPE html>
<html>
<head>
    <title>About</title>
    <style>
        body { font-family: Arial, sans-serif; margin: 40px; line-height: 1.6; }
        h1 { color: #0066cc; }
    </style>
</head>
<body>
    <h1>About Page</h1>
    <p>This is the about page of our middleware demo.</p>
    <p><a href=" ++ dq ++ "/" ++ dq ++ ">Back to Home</a></p>
</body>
</html>
".

(** [logger_middleware] *)
Definition logger_middleware : middleware := fun req =>
  Log (Line ("Request: " ++ Request.method req ++ " " ++ Request.path req))
  (Log (HeadersLine (Request.headers req))
  ((if truthy (Request.body req) then Log (BodyLine (Request.body req)) else id)
  (Next (fun result =>
   ReadStatus (fun status_code =>
   Log (ResponseLine status_code)
   (Ret result)))))).

(** [auth_middleware] *)
Definition auth_middleware : middleware := fun req =>
  if Str.startswith (Request.path req) "/protected" then
    let api_key := Request.headers req !! "x-api-key" in
    if negb (Str.is_set api_key) then
      Log (Line "Auth failed: No API key provided")
      (Status 401
      (Json (JDict [("error", JStr "Authentication required");
                    ("message", JStr "Missing API key. Please provide X-API-Key header.")])
      (Ret RRes)))
    else if negb (bool_decide (api_key = Some "abc123")) then
      Log (Line ("Auth failed: Invalid API key: " ++ default "" api_key))
      (Status 403
      (Json (JDict [("error", JStr "Access denied");
                    ("message", JStr "Invalid API key")])
      (Ret RRes)))
    else
      Log (Line "Auth successful") (Next Ret)
  else Next Ret.

(** The content type [static_files_middleware] picks for a file. *)
Definition content_type_of (file_path : string) : string :=
  if Str.endswith file_path ".html" then "text/html"
  else if Str.endswith file_path ".css" then "text/css"
  else if Str.endswith file_path ".js" then "application/javascript"
  else if Str.endswith file_path ".json" then "application/json"
  else if Str.endswith file_path ".png" then "image/png"
  else if Str.endswith file_path ".jpg" || Str.endswith file_path ".jpeg" then "image/jpeg"
  else "text/plain".

(** [routes_middleware] *)
Definition routes_middleware : middleware := fun req =>
  if String.eqb (Request.method req) "GET" then
    if String.eqb (Request.path req) "/about" then
      Send (Text about_page) (Ret RRes)
    else if String.eqb (Request.path req) "/api" then
      Now (fun ts =>
      Json (JDict [("message", JStr "API endpoint"); ("timestamp", JStr ts)])
      (Ret RRes))
    else if String.eqb (Request.path req) "/protected" then
      Now (fun ts =>
      Json (JDict [("message", JStr "You have accessed a protected endpoint");
                   ("timestamp", JStr ts)])
      (Ret RRes))
    else Next Ret
  else if String.eqb (Request.method req) "POST" then
    if String.eqb (Request.path req) "/echo" then
      Now (fun ts =>
      Json (JDict [("echo", Request.body req);
                   ("headers", JMap (Request.headers req));
                   ("timestamp", JStr ts)])
      (Ret RRes))
    else Next Ret
  else Next Ret.

Section WithFiles.
Variable fs : FS.

(** The file [static_files_middleware] looks for, when it looks for one. *)
Definition static_file_path (req : Request.t) : option string :=
  if String.eqb (Request.path req) "/" then
    Some (PosixPath.join PUBLIC_DIR "index.html")
  else if Str.startswith (Request.path req) "/public/" then
    Some (PosixPath.join (cwd fs) (Str.slice_from 1 (Request.path req)))
  else None.

(** [static_files_middleware] *)
Definition static_files_middleware : middleware := fun req =>
  if String.eqb (Request.method req) "GET" then
    match static_file_path req with
    | None => Next Ret
    | Some file_path =>
        Log (Line ("Looking for file: " ++ file_path))
        (if isfile fs file_path then
           let content_type := content_type_of file_path in
           Try (match read_file fs file_path with
                | inl e => Raise e
                | inr data =>
                    Log (Line ("Serving file: " ++ file_path))
                    (Status 200
                    (SetHeader "Content-Type" content_type
                    (Send (Bytes data)
                    (Ret RRes))))
                end)
               (fun e => Log (Line ("Error reading file: " ++ exn_msg e))
                         (Next Ret))
         else Next Ret)
    end
  else Next Ret.

(** The list [middleware_chain] of [process_request]. *)
Definition middleware_chain : list middleware :=
  [logger_middleware; auth_middleware; static_files_middleware; routes_middleware].

End WithFiles.

(** The body sent at the end of the chain. *)
Definition not_found_body (req : Request.t) : json :=
  JDict [("error", JStr "Not Found");
         ("message", JStr ("No route found for " ++ Request.method req
                           ++ " " ++ Request.path req))].

(** [execute_middleware], on the elements from position [index] on:
    [rest] is [middleware_chain[index:]]. *)
Fixpoint execute_from (req : Request.t) (rest : list middleware) (index : nat)
    (w : World) : result :=
  match rest with
  | m :: rest' =>
      let '(o, w', evs) := run index (m req) (execute_from req rest' (S index)) w in
      (o, w', Enter index :: evs)
  | [] =>
      match Response_json (not_found_body req) (Response_status 404 w) with
      | (Val _, w') => (Val RRes, w', [Enter index])
      | (Exn e, w') => (Exn e, w', [Enter index])
      end
  end.

(** [execute_middleware(index)] for the chain [middleware_chain]. *)
Definition execute_middleware (req : Request.t) (middleware_chain : list middleware)
    (index : nat) (w : World) : result :=
  execute_from req (drop index middleware_chain) index w.

(** [MiddlewareHandler.handle_error] *)
Definition handle_error (e : exn) (w : World) : outcome * World :=
  let w := log (Line ("Error handling request: " ++ exn_msg e)) w in
  let w := log (Line (exn_traceback e)) w in
  let attempt : outcome * World :=
    if connected w then
      (Val RNone,
       with_wire (wire w ++ [send_response 500;
                             send_header "Content-Type" "application/json";
                             end_headers;
                             wfile_write (JsonText (JDict [("error", JStr "Internal Server Error");
                                                           ("message", JStr (exn_msg e))]))])%list w)
    else (Exn connection_error, w) in
  match attempt with
  | (Val v, w') => (Val RNone, w')
  | (Exn _, w') => (Val RNone, log (Line "Error sending error response") w')
  end.

Section Dispatch.
Context {lib : PyLib}.
Variable chain : list middleware.

(** [MiddlewareHandler.process_request], for the chain [chain]. *)
Definition process_request (handler : HandlerIn) (w : World) : result :=
  let w := log (Line "Processing request") w in
  match Request_init handler with
  | inl e => (Exn e, w, [])
  | inr req =>
      let w := with_res Response_init w in
      let w := log (Line "Executing middleware chain") w in
      match execute_middleware req chain 0 w with
      | (Val _, w', evs) =>
          (Val RNone, log (Line "Middleware chain execution completed") w', evs)
      | (Exn e, w', evs) => (Exn e, w', evs)
      end
  end.

(** [do_GET], [do_POST], [do_PUT], [do_DELETE]: they differ in the name
    they print. *)
Definition do_method (name : string) (handler : HandlerIn) (w : World) : result :=
  let w := log (Line ("Handling " ++ name ++ " request for " ++ hpath handler)) w in
  match process_request handler w with
  | (Val v, w', evs) => (Val RNone, w', evs)
  | (Exn e, w', evs) =>
      let '(o, w'') := handle_error e w' in
      (o, w'', (evs ++ [HandleError e])%list)
  end.
End Dispatch.

Definition do_GET {lib : PyLib} (fs : FS) : HandlerIn -> World -> result :=
  do_method (middleware_chain fs) "GET".
Definition do_POST {lib : PyLib} (fs : FS) : HandlerIn -> World -> result :=
  do_method (middleware_chain fs) "POST".

End SimpleMiddleware.

(* ===================================================================== *)
(** ** [middleware_utils.py] *)
(* ===================================================================== *)

Module MiddlewareUtils.
Import Chain.

(** The request object of the framework, as far as these middlewares use
    it: [get_header(name)] is [None] for a header the request lacks. *)
Record Request : Type := {
  method : string;
  path : string;
  get_header : string -> option string;
  remote_addr : string
}.

Definition CONTENT_TYPES : gmap string string :=
  list_to_map [(".html", "text/html");
               (".css", "text/css");
               (".js", "application/javascript");
               (".json", "application/json");
               (".png", "image/png");
               (".jpg", "image/jpeg");
               (".jpeg", "image/jpeg");
               (".gif", "image/gif");
               (".svg", "image/svg+xml");
               (".ico", "image/x-icon");
               (".txt", "text/plain")].

(** [get_content_type] of [static_files] *)
Definition get_content_type (file_path : string) : string :=
  let ext := (PosixPath.splitext file_path).2 in
  default "application/octet-stream" (CONTENT_TYPES !! Str.lower ext).

(** The middleware [static_files(directory, cache_control)] returns. *)
Definition static_files (fs : FS) (directory : string) (cache_control : option string)
  : Request -> Prog := fun req =>
  if negb (String.eqb (method req) "GET") then Next Ret
  else
    let path := (Str.split1 "?" (path req)).1 in
    if Str.startswith path "/static/" then
      let file_path := PosixPath.join directory (Str.slice_from 8 path) in
      let norm_path := PosixPath.normpath file_path in
      if negb (Str.startswith norm_path (PosixPath.abspath (cwd fs) directory)) then
        Status 403
        (Json (JDict [("error", JStr "Forbidden"); ("message", JStr "Access denied")])
        (Ret RRes))
      else if negb (isfile fs file_path) then Next Ret
      else
        Try (SetHeader "Content-Type" (get_content_type file_path)
             ((if Str.is_set cache_control
               then SetHeader "Cache-Control" (default "" cache_control) else id)
             (match read_file fs file_path with
              | inl e => Raise e
              | inr data => Send (Bytes data) (Ret RRes)
              end)))
            (fun e =>
             Status 500
             (Json (JDict [("error", JStr "Internal Server Error");
                           ("message", JStr (exn_msg e))])
             (Ret RRes)))
    else Next Ret.

Section RateLimiter.
Variables max_requests window_seconds : Z.

(** The body sent with status 429. *)
Definition too_many_requests : json :=
  JDict [("error", JStr "Too Many Requests");
         ("message", JStr ("Rate limit of " ++ Str.of_Z max_requests
                           ++ " requests per " ++ Str.of_Z window_seconds
                           ++ " seconds exceeded"))].

(** [req.get_header("x-forwarded-for") or req.remote_addr] *)
Definition client_ip_of (req : Request) : string :=
  if Str.is_set (get_header req "x-forwarded-for")
  then default "" (get_header req "x-forwarded-for")
  else remote_addr req.

(** The middleware [rate_limiter(max_requests, window_seconds)] returns,
    called when [time.time()] reads [now]: the dictionary [clients] of the
    closure after the call, and what the call does on [res] and [next].
    Time stamps are integers (clock ticks). *)
Definition rate_limiter (clients : gmap string (list Z)) (now : Z) (req : Request)
  : gmap string (list Z) * Prog :=
  let client_ip := client_ip_of req in
  let clients :=
    if bool_decide (is_Some (clients !! client_ip)) then clients
    else <[client_ip := []]> clients in
  let clients :=
    <[client_ip := filter (fun t => now - t < window_seconds)
                     (default [] (clients !! client_ip))]> clients in
  if bool_decide (Z.of_nat (length (default [] (clients !! client_ip))) >= max_requests) then
    (clients, Status 429 (Json too_many_requests (Ret RRes)))
  else
    let clients :=
      <[client_ip := (default [] (clients !! client_ip) ++ [now])%list]> clients in
    let remaining :=
      max_requests - Z.of_nat (length (default [] (clients !! client_ip))) in
    (clients,
     SetHeader "X-RateLimit-Limit" (Str.of_Z max_requests)
     (SetHeader "X-RateLimit-Remaining" (Str.of_Z remaining)
     (SetHeader "X-RateLimit-Reset" (Str.of_Z (now + window_seconds))
     (Next Ret)))).

(** A sequence of calls of one middleware instance, oldest first: the
    dictionary after the last call and what each call did. *)
Fixpoint serve (clients : gmap string (list Z)) (calls : list (Z * Request))
  : gmap string (list Z) * list Prog :=
  match calls with
  | [] => (clients, [])
  | (now, req) :: calls' =>
      let '(clients', p) := rate_limiter clients now req in
      let '(clients'', ps) := serve clients' calls' in
      (clients'', p :: ps)
  end.

End RateLimiter.

(** The middleware [error_handler(include_stack_trace)] returns. *)
Definition error_handler {R : Type} (include_stack_trace : bool) : R -> Prog := fun _ =>
  Try (Next Ret)
      (fun e =>
       let status_code := default 500 (exn_status_code e) in
       let error_response :=
         ([("error", JStr (exn_type e)); ("message", JStr (exn_msg e))]
          ++ (if include_stack_trace then [("stack", JStr (exn_traceback e))] else []))%list in
       Log (Line ("Error: " ++ exn_msg e))
       (Status status_code
       (Json (JDict error_response)
       (Ret RRes)))).

End MiddlewareUtils.

(* ===================================================================== *)
(** ** [09-sessions-cookies/app.py] *)
(* ===================================================================== *)

Module Sessions.
Import Chain.

(** An entry of [sessions.json]; the two dates are points of time. *)
Record Session : Type := {
  id : string;
  user_id : string;
  created_at : Z;
  expires_at : Z
}.

(** An entry of [users.json]. *)
Record User : Type := {
  uid : string;
  username : string;
  password : string;
  name : string;
  email : string;
  ucreated_at : string
}.

(** A user without the [password] key. *)
Record PublicUser : Type := {
  pid : string;
  pusername : string;
  pname : string;
  pemail : string;
  pcreated_at : string
}.

(** [get_session(session_id)] when [datetime.now()] reads [now] and
    [sessions.json] holds [sessions]: the result and the file afterwards. *)
Definition get_session (now : Z) (sessions : list Session) (session_id : option string)
  : option Session * list Session :=
  if negb (Str.is_set session_id) then (None, sessions)
  else
    match List.find (fun s => bool_decide (Some (id s) = session_id)) sessions with
    | None => (None, sessions)
    | Some session =>
        if bool_decide (now > expires_at session) then
          (None, filter (fun s => Some (id s) <> session_id) sessions)
        else (Some session, sessions)
    end.

(** [get_user_by_id(user_id)] *)
Definition get_user_by_id (users : list User) (user_id : string) : option PublicUser :=
  match List.find (fun u => bool_decide (uid u = user_id)) users with
  | Some user =>
      Some {| pid := uid user; pusername := username user; pname := name user;
              pemail := email user; pcreated_at := ucreated_at user |}
  | None => None
  end.

(** The request object, as far as [session_middleware] uses it. *)
Record Request : Type := {
  cookies : gmap string string;
  session : option Session;
  user : option PublicUser
}.

(** [session_middleware]: the sessions file and the request afterwards, and
    the call of [next]. *)
Definition session_middleware (now : Z) (users : list User) (sessions : list Session)
    (req : Request) : list Session * Request * Prog :=
  let session_id := cookies req !! "session_id" in
  let '(found, sessions') := get_session now sessions session_id in
  let user :=
    match found with
    | Some s => get_user_by_id users (user_id s)
    | None => None
    end in
  (sessions',
   {| cookies := cookies req; session := found; user := user |},
   Next (fun _ => Ret RNone)).

End Sessions.

(* ===================================================================== *)
(** ** [07-error-handling/app.py] *)
(* ===================================================================== *)

Module ErrorHandling.
Import Chain.

(** The catch-all route [not_found] of the error handling example. *)
Definition not_found (req_path : string) : Prog :=
  Status 404
  (Json (JDict [("error", JStr "Not Found");
                ("message", JStr ("The requested path '" ++ req_path ++ "' does not exist"));
                ("handled_by", JStr "Custom 404 handler")])
  (Ret RNone)).

End ErrorHandling.

(* ===================================================================== *)
(** ** Vocabulary of the statements and sample inputs *)
(* ===================================================================== *)

#[global] Instance exn_eq_dec : EqDecision exn.
Proof. solve_decision. Defined.

#[global] Instance event_eq_dec : EqDecision Chain.event.
Proof. solve_decision. Defined.

Module Vocabulary.
Import Chain SimpleMiddleware.

(** How often the event [e] occurs in [evs]. *)
Definition times (e : event) (evs : list event) : nat :=
  length (filter (fun x => x = e) evs).

(** [e] is an event of the chain from position [k] on. *)
Definition ev_from (k : nat) (e : event) : Prop :=
  match e with
  | Enter j | CallNext j => (k <= j)%nat
  | HandleError _ => False
  end.

(** The shape of the events of [execute_middleware(k)]. *)
Record dispatch_trace (k : nat) (evs : list event) : Prop := {
  dt_from : Forall (ev_from k) evs;
  dt_gate : forall j, (k <= j)%nat -> times (Enter (S j)) evs = times (CallNext j) evs;
  dt_once : times (Enter k) evs = 1%nat;
  dt_entered : forall j, In (CallNext j) evs -> In (Enter j) evs
}.

(** The shape of the events of the body of the element at position [k]. *)
Record element_trace (k : nat) (evs : list event) : Prop := {
  et_from : Forall (fun e => e = CallNext k \/ ev_from (S k) e) evs;
  et_gate : forall j, (k <= j)%nat -> times (Enter (S j)) evs = times (CallNext j) evs;
  et_entered : forall j, (S k <= j)%nat -> In (CallNext j) evs -> In (Enter j) evs
}.

(** The value of the last item whose lower-cased name is [name]. *)
Definition last_value (name : string) (items : list (string * string)) : option string :=
  snd <$> last (filter (fun kv => Str.lower kv.1 = name) items).

(** A connection on which nothing was sent yet, with a fresh response. *)
Definition fresh_world : World :=
  {| res := Response_init; connected := true; wire := []; stdout := [];
     now_iso := "2024-05-01T12:00:00" |}.

(** A connection the client has closed. *)
Definition closed_world : World :=
  {| res := Response_init; connected := false; wire := []; stdout := [];
     now_iso := "2024-05-01T12:00:00" |}.

(** A request without body. *)
Definition plain_request (method path : string) (headers : list (string * string))
  : Request.t :=
  {| Request.method := method;
     Request.path := path;
     Request.headers := lower_keys headers;
     Request.query := ∅;
     Request.body := JDict [];
     Request.body_raw := "" |}.

(** [path] is the directory [root] or lies below it. *)
Definition inside (root path : string) : Prop :=
  path = root \/ Str.startswith path (root ++ "/") = true.

(** A continuation that does nothing. *)
Definition stop : World -> result := fun w => (Val RNone, w, []).

(** A file system with one file next to the served directories. *)
Definition leaky_fs : FS :=
  {| cwd := "/srv/app";
     files := <["/srv/www-private/key.txt" := Readable "TOP SECRET"]>
              (<["/srv/app/secrets.txt" := Readable "DB_PASSWORD=hunter2"]>
               (<["/srv/app/public/index.html" := Readable "<h1>home</h1>"]>
                (<["/srv/www/index.html" := Readable "<h1>hi</h1>"]> ∅))) |}.

Definition traversal_request : MiddlewareUtils.Request :=
  {| MiddlewareUtils.method := "GET";
     MiddlewareUtils.path := "/static/../www-private/key.txt";
     MiddlewareUtils.get_header := fun _ => None;
     MiddlewareUtils.remote_addr := "10.0.0.9" |}.

(** The three ways a request has no session: no cookie, a cookie whose
    identifier no stored session has, a cookie whose session has expired. *)
Inductive no_session (now : Z) (sessions : list Sessions.Session)
  : option string -> Prop :=
| absent_cookie : no_session now sessions None
| unknown_identifier (sid : string) :
    (forall s, In s sessions -> Sessions.id s <> sid) ->
    no_session now sessions (Some sid)
| expired_identifier (sid : string) (s : Sessions.Session) :
    List.find (fun s => bool_decide (Some (Sessions.id s) = Some sid)) sessions = Some s ->
    now > Sessions.expires_at s ->
    no_session now sessions (Some sid).

(** A sessions file whose only session expired at time 50, and a request
    carrying its identifier. *)
Definition expired_store : list Sessions.Session :=
  [ {| Sessions.id := "s1"; Sessions.user_id := "1";
       Sessions.created_at := 0; Sessions.expires_at := 50 |} ].

Definition cookie_request : Sessions.Request :=
  {| Sessions.cookies := {[ "session_id" := "s1" ]};
     Sessions.session := None; Sessions.user := None |}.

(** [HandleError] events. *)
Definition is_handle_error (ev : event) : bool :=
  match ev with
  | HandleError _ => true
  | _ => false
  end.

(** The response [handle_error] writes for the exception [e]. *)
Definition error_500 (e : exn) : list wire_event :=
  [send_response 500;
   send_header "Content-Type" "application/json";
   end_headers;
   wfile_write (JsonText (JDict [("error", JStr "Internal Server Error");
                                 ("message", JStr (exn_msg e))]))].

(** A change of the response state: [res.status(code)] or
    [res.set_header(name, value)]. *)
Inductive mutation : Type :=
| SetStatus (code : Z)
| SetField (name value : string).

Definition mutate (m : mutation) (k : Prog) : Prog :=
  match m with
  | SetStatus code => Status code k
  | SetField name value => SetHeader name value k
  end.

Definition apply_mutation (w : World) (m : mutation) : World :=
  match m with
  | SetStatus code => Response_status code w
  | SetField name value => Response_set_header name value w
  end.

(** A middleware that calls [next] once and changes the response state when
    [next] has returned, as in
    [def after(req, res, next): result = next(); res.set_header(name, value); return result]. *)
Definition mutate_after_next (changes : list mutation) : middleware := fun _ =>
  Next (fun result => foldr mutate (Ret result) changes).

(** A route that divides by zero. *)
Definition division_by_zero : exn :=
  Exception "ZeroDivisionError" "division by zero" None "Traceback (most recent call last)".

Definition failing_route : middleware := fun _ => Raise division_by_zero.

(** Library functions for requests without body: decimal [int], and no
    text is JSON. *)
Definition plain_lib : PyLib :=
  {| py_int := fun text =>
       if String.eqb text "" then None
       else option_map Z.of_int (NilEmpty.int_of_string text);
     utf8_decode := Some;
     json_loads := fun _ => None |}.

Definition get_handler (path : string) (headers : list (string * string)) : HandlerIn :=
  {| command := "GET"; hpath := path; hheaders := headers; rfile := "" |}.

(** What a dispatch can observe of the state: everything but the printed
    lines. *)
Definition visible (w : World) : Response.t * bool * list wire_event * string :=
  (res w, connected w, wire w, now_iso w).

(** The body [p] hands the request on: it ends as [next] ends, called on a
    state that differs from [w] in printed lines only. *)
Definition passes_to (i : nat) (p : Prog) (next : World -> result) (w : World) : Prop :=
  exists w_in,
    visible w_in = visible w
    /\ (run i p next w).1.1 = (next w_in).1.1
    /\ visible (run i p next w).1.2 = visible (next w_in).1.2
    /\ forall ev, In ev (next w_in).2 -> In ev (run i p next w).2.


(** The straight-line program [p] ends in a call of [next]. *)
Fixpoint reaches_next (p : Prog) : bool :=
  match p with
  | Next _ => true
  | Log _ k | Status _ k | SetHeader _ _ k | Send _ k | Json _ k => reaches_next k
  | _ => false
  end.

(** The time stamps of the calls of client [ip] that a rate limiter
    starting with the dictionary [clients] handed to [next], oldest
    first. *)
Fixpoint admitted (max_requests window_seconds : Z) (ip : string)
    (clients : gmap string (list Z)) (calls : list (Z * MiddlewareUtils.Request))
  : list Z :=
  match calls with
  | [] => []
  | (now, req) :: calls' =>
      let '(clients', p) :=
        MiddlewareUtils.rate_limiter max_requests window_seconds clients now req in
      ((if reaches_next p
           && bool_decide (MiddlewareUtils.client_ip_of req = ip)
        then [now] else [])
       ++ admitted max_requests window_seconds ip clients' calls')%list
  end.

(** What holds of the dictionary of a rate limiter when the clock reads at
    most [T] and [adm ip] are the admitted time stamps of each client. *)
Definition limiter_inv (max_requests window_seconds : Z)
    (clients : gmap string (list Z)) (adm : string -> list Z) (T : Z) : Prop :=
  forall ip,
    (forall t, In t (adm ip) -> t <= T)
    /\ match clients !! ip with
       | None => adm ip = []
       | Some record =>
           Z.of_nat (length record) <= max_requests
           /\ exists T', T' <= T
                /\ record = filter (fun t => T' - t < window_seconds) (adm ip)
       end.

(** The programs of the two branches of the rate limiter. *)
Definition limiter_pass (max_requests window_seconds now : Z) (count : nat) : Prog :=
  SetHeader "X-RateLimit-Limit" (Str.of_Z max_requests)
  (SetHeader "X-RateLimit-Remaining" (Str.of_Z (max_requests - (Z.of_nat count + 1)))
  (SetHeader "X-RateLimit-Reset" (Str.of_Z (now + window_seconds))
  (Next Ret))).

Definition limiter_reject (max_requests window_seconds : Z) : Prog :=
  Status 429
  (Json (MiddlewareUtils.too_many_requests max_requests window_seconds)
  (Ret RRes)).

Definition client (addr : string) : MiddlewareUtils.Request :=
  {| MiddlewareUtils.method := "GET";
     MiddlewareUtils.path := "/api/status";
     MiddlewareUtils.get_header := fun _ => None;
     MiddlewareUtils.remote_addr := addr |}.

(** Three calls, two of them of the client [10.0.0.1]. *)
Definition sample_calls : list (Z * MiddlewareUtils.Request) :=
  [(0, client "10.0.0.1"); (3, client "10.0.0.1"); (5, client "10.0.0.2")].



(** A field of a query string (the fields are separated by [&]): it counts
    when it has an [=] with at least one character behind the first one; its
    name is the decoded text before the first [=], its value the decoded text
    behind it. *)
Definition field_counts (field : string) : bool :=
  Str.is_set (Str.split1 "=" field).2.

Definition field_name (field : string) : string :=
  UrlParse.unquote (Str.replace_char "+" " " (Str.split1 "=" field).1).

Definition field_value (field : string) : string :=
  UrlParse.unquote (Str.replace_char "+" " " (default "" (Str.split1 "=" field).2)).

End Vocabulary.
Import Vocabulary.

(* ===================================================================== *)
(** ** [middleware_utils.py]: the other middleware factories *)
(* ===================================================================== *)

Module MoreUtils.
Import Chain.

(** The request object with the attributes these middlewares read or set:
    [body] and [json] may be missing ([hasattr]), [user] is set by [auth]. *)
Record Req : Type := {
  base : MiddlewareUtils.Request;
  body : option string;
  query : gmap string string;
  parsed_json : option json;
  user : option json
}.

Definition set_json (j : json) (req : Req) : Req :=
  {| base := base req; body := body req; query := query req;
     parsed_json := Some j; user := user req |}.

Definition set_user (u : json) (req : Req) : Req :=
  {| base := base req; body := body req; query := query req;
     parsed_json := parsed_json req; user := Some u |}.

(** The middleware [cors(origin, methods, headers, credentials)] returns;
    [None] for [methods] or [headers] is the default argument. *)
Definition cors (origin : string) (methods headers : option (list string))
    (credentials : bool) : Req -> Prog := fun req =>
  let methods := default ["GET"; "POST"; "PUT"; "DELETE"; "OPTIONS"] methods in
  let headers := default ["Content-Type"; "Authorization"] headers in
  SetHeader "Access-Control-Allow-Origin" origin
  (SetHeader "Access-Control-Allow-Methods" (Str.join ", " methods)
  (SetHeader "Access-Control-Allow-Headers" (Str.join ", " headers)
  ((if credentials then SetHeader "Access-Control-Allow-Credentials" "true" else id)
  (if String.eqb (MiddlewareUtils.method (base req)) "OPTIONS" then
     Status 204 (Send (Text "") (Ret RRes))
   else Next Ret)))).

Section JsonParser.
(** [json.loads]: the parsed value, or the exception it raises. *)
Variable loads : string -> exn + json.

(** The middleware [json_parser()] returns: the request afterwards and the
    calls on [res] and [next]. *)
Definition json_parser (req : Req) : Req * Prog :=
  let content_type := default "" (MiddlewareUtils.get_header (base req) "content-type") in
  if Str.contains "application/json" content_type && Str.is_set (body req) then
    match loads (default "" (body req)) with
    | inr j => (set_json j req, Next Ret)
    | inl e =>
        if String.eqb (exn_type e) "JSONDecodeError" then
          (req, Status 400
                (Json (JDict [("error", JStr "Invalid JSON"); ("message", JStr (exn_msg e))])
                (Ret RRes)))
        else (req, Raise e)
    end
  else (req, Next Ret).
End JsonParser.

Definition unauthorized (message : string) : Prog :=
  Status 401
  (Json (JDict [("error", JStr "Unauthorized"); ("message", JStr message)])
  (Ret RRes)).

(** The middleware [auth(strategy, secret, header_name)] returns;
    [secret = None] is the default argument. *)
Definition auth (strategy : string) (secret : option string) (header_name : string)
    (req : Req) : Req * Prog :=
  let auth_header := MiddlewareUtils.get_header (base req) header_name in
  if negb (Str.is_set auth_header) then
    (req, unauthorized ("Missing " ++ header_name ++ " header"))
  else
    let auth_header := default "" auth_header in
    if String.eqb strategy "bearer" then
      if negb (Str.startswith auth_header "Bearer ") then
        (req, unauthorized "Invalid authorization format")
      else
        let token := Str.slice_from 7 auth_header in
        if negb (bool_decide (Some token = secret)) then
          (req, unauthorized "Invalid token")
        else (set_user (JDict [("authenticated", JBool true)]) req, Next Ret)
    else if String.eqb strategy "api-key" then
      if negb (bool_decide (Some auth_header = secret)) then
        (req, unauthorized "Invalid API key")
      else (set_user (JDict [("authenticated", JBool true)]) req, Next Ret)
    else (req, Next Ret).

(** The middleware [security_headers()] returns. *)
Definition security_headers : Req -> Prog := fun _ =>
  SetHeader "X-Content-Type-Options" "nosniff"
  (SetHeader "X-Frame-Options" "DENY"
  (SetHeader "X-XSS-Protection" "1; mode=block"
  (SetHeader "Strict-Transport-Security" "max-age=31536000; includeSubDomains"
  (SetHeader "Content-Security-Policy" "default-src 'self'"
  (SetHeader "Referrer-Policy" "strict-origin-when-cross-origin"
  (Next Ret)))))).

(** The rules of one name in a validation schema: the value under the key
    ["required"], when the key is there. *)
Record rules : Type := { required : option json }.

(** ["required" in rules and rules["required"]] *)
Definition is_required (r : rules) : bool :=
  match required r with
  | Some v => truthy v
  | None => false
  end.

(** A validation schema: each of the keys ["headers"], ["query"], ["body"]
    may be missing; the names are in the order of the dictionary. *)
Record schema : Type := {
  s_headers : option (list (string * rules));
  s_query : option (list (string * rules));
  s_body : option (list (string * rules))
}.

(** [field in j] for a parsed JSON value: key of a dictionary, element of a
    list, part of a text; [TypeError] for the values that are not
    containers. *)
Definition py_in (field : string) (j : json) : exn + bool :=
  match j with
  | JDict kvs => inr (bool_decide (field ∈ kvs.*1))
  | JMap m => inr (bool_decide (is_Some (m !! field)))
  | JList xs =>
      inr (existsb (fun x => match x with
                             | JStr s => String.eqb s field
                             | _ => false
                             end) xs)
  | JStr s => inr (Str.contains field s)
  | JInt _ => inl (Exception "TypeError" "argument of type 'int' is not iterable" None "")
  | JBool _ => inl (Exception "TypeError" "argument of type 'bool' is not iterable" None "")
  | JNull => inl (Exception "TypeError" "argument of type 'NoneType' is not iterable" None "")
  end.

(** The errors of the loop over [schema["headers"]] (or [schema["query"]]),
    where [lookup] is [req.get_header] (or [req.query.get]). *)
Definition missing (what : string) (lookup : string -> option string)
    (names : list (string * rules)) : list string :=
  omap (fun nr : string * rules =>
          if is_required nr.2 && negb (Str.is_set (lookup nr.1))
          then Some (what ++ nr.1) else None) names.

(** The loop over [schema["body"]]. *)
Fixpoint missing_fields (j : json) (fields : list (string * rules)) : exn + list string :=
  match fields with
  | [] => inr []
  | (field, r) :: fields' =>
      if is_required r then
        match py_in field j with
        | inl e => inl e
        | inr present =>
            match missing_fields j fields' with
            | inl e => inl e
            | inr errors =>
                inr ((if present then []
                      else [("Missing required field in body: " ++ field)%string])
                     ++ errors)%list
            end
        end
      else missing_fields j fields'
  end.

(** The list [errors] of [validate_request(schema)] at the end of its
    loops, or the exception a loop raises. *)
Definition validation_errors (sch : schema) (req : Req) : exn + list string :=
  let header_errors :=
    missing "Missing required header: " (MiddlewareUtils.get_header (base req))
      (default [] (s_headers sch)) in
  let query_errors :=
    missing "Missing required query parameter: " (fun param => query req !! param)
      (default [] (s_query sch)) in
  match match s_body sch, parsed_json req with
        | Some fields, Some j => missing_fields j fields
        | _, _ => inr []
        end with
  | inl e => inl e
  | inr body_errors => inr (header_errors ++ query_errors ++ body_errors)%list
  end.

(** The middleware [validate_request(schema)] returns. *)
Definition validate_request (sch : schema) : Req -> Prog := fun req =>
  match validation_errors sch req with
  | inl e => Raise e
  | inr [] => Next Ret
  | inr errors =>
      Status 400
      (Json (JDict [("error", JStr "Validation Error");
                    ("message", JStr "Request validation failed");
                    ("details", JList (map JStr errors))])
      (Ret RRes))
  end.

End MoreUtils.

(* ===================================================================== *)
(** ** [09-sessions-cookies/app.py]: sessions, login, registration *)
(* ===================================================================== *)

Module SessionApp.
Import Sessions.

(** [timedelta(hours=24)], in microseconds, the unit of the points of
    time. *)
Definition hours_24 : Z := 24 * 3600 * 1000000.

(** [create_session(user_id)]: [session_id] is the text of the fresh
    [uuid.uuid4()], [now] and [now'] are the two readings of
    [datetime.now()]; the result and the sessions file afterwards. *)
Definition create_session (now now' : Z) (session_id : string)
    (sessions : list Session) (uid : string) : string * list Session :=
  let sessions := filter (fun s => user_id s <> uid) sessions in
  (session_id,
   (sessions ++ [ {| id := session_id; user_id := uid;
                     created_at := now'; expires_at := now + hours_24 |} ])%list).

(** What a handler does on [res]; [http_only] is [None] when the call
    leaves the argument out. *)
Inductive action : Type :=
| SetCookie (name value : string) (http_only : option bool) (max_age : Z)
| Redirect (url : string).

(** [auth_required]: the redirect, or [None] for the call of [next]. *)
Definition auth_required (req_user : option PublicUser) (req_path : string)
  : option action :=
  match req_user with
  | None => Some (Redirect ("/login?redirect=" ++ req_path))
  | Some _ => None
  end.

Section WithHash.
(** [hashlib.sha256(text.encode()).hexdigest()] *)
Variable sha256_hex : string -> string.

(** [get_user_by_credentials(username, password)] *)
Definition get_user_by_credentials (users : list User) (name pass : string)
  : option PublicUser :=
  let hashed_password := sha256_hex pass in
  match List.find (fun u => bool_decide (username u = name)
                            && bool_decide (password u = hashed_password)) users with
  | Some u =>
      Some {| pid := uid u; pusername := username u; pname := Sessions.name u;
              pemail := email u; pcreated_at := ucreated_at u |}
  | None => None
  end.

(** [handle_login]: the sessions file afterwards and the calls on [res]. *)
Definition handle_login (now now' : Z) (session_id : string) (users : list User)
    (sessions : list Session) (body : gmap string string)
  : list Session * list action :=
  let name := default "" (body !! "username") in
  let pass := default "" (body !! "password") in
  let redirect_url := default "/" (body !! "redirect") in
  match get_user_by_credentials users name pass with
  | None =>
      (sessions,
       [Redirect ("/login?error=Invalid+username+or+password&redirect=" ++ redirect_url)])
  | Some u =>
      let '(sid, sessions') := create_session now now' session_id sessions (pid u) in
      (sessions', [SetCookie "session_id" sid (Some true) (60 * 60 * 24); Redirect redirect_url])
  end.

(** [str.strip] and the text of [datetime.now().isoformat()]. *)
Variable strip : string -> string.

(** [handle_register]: the users file and the sessions file afterwards and
    the calls on [res]. *)
Definition handle_register (now now' : Z) (now_text : string) (session_id : string)
    (users : list User) (sessions : list Session) (body : gmap string string)
  : list User * list Session * list action :=
  let uname := strip (default "" (body !! "username")) in
  let pass := default "" (body !! "password") in
  let full_name := strip (default "" (body !! "name")) in
  let mail := strip (default "" (body !! "email")) in
  if String.eqb uname "" || String.eqb pass "" || String.eqb full_name ""
     || String.eqb mail "" then
    (users, sessions, [Redirect "/register?error=All+fields+are+required"])
  else if existsb (fun u => bool_decide (username u = uname)) users then
    (users, sessions, [Redirect "/register?error=Username+already+exists"])
  else
    let new_user :=
      {| uid := Str.of_Z (Z.of_nat (length users) + 1);
         username := uname;
         password := sha256_hex pass;
         Sessions.name := full_name;
         email := mail;
         ucreated_at := now_text |} in
    let users := (users ++ [new_user])%list in
    let '(sid, sessions') := create_session now now' session_id sessions (uid new_user) in
    (users, sessions',
     [SetCookie "session_id" sid (Some true) (60 * 60 * 24); Redirect "/profile"]).
End WithHash.

(** [logout] *)
Definition logout : list action :=
  [SetCookie "session_id" "" None 0; Redirect "/"].

End SessionApp.

(* ===================================================================== *)
(** ** [07-error-handling/app.py]: the error handling middleware *)
(* ===================================================================== *)

Module ErrorApp.
Import Chain.

(** [error_handler_middleware] *)
Definition error_handler_middleware (req_path : string) : Prog :=
  Try (Next (fun _ => Ret RNone))
      (fun e =>
       Log (Line ("[ERROR] " ++ exn_msg e))
       (Status 500
       (Json (JDict [("error", JStr "Internal Server Error");
                     ("message", JStr (exn_msg e));
                     ("path", JStr req_path);
                     ("handled_by", JStr "Global error handler middleware")])
       (Ret RNone)))).

End ErrorApp.

(* ===================================================================== *)
(** ** Further vocabulary of the statements *)
(* ===================================================================== *)

Module Vocabulary2.
Import Chain SimpleMiddleware.

(** The names of the headers of a response object. *)
Definition header_names (w : World) : list string :=
  (Response.headers (res w)).*1.

(** One whole response on the connection. *)
Definition render (r : Z * list (string * string) * content) : list wire_event :=
  (send_response r.1.1
   :: map (fun nv => send_header nv.1 nv.2) r.1.2
   ++ [end_headers] ++ body_events r.2)%list.

(** The headers [cors] sets before it looks at the method. *)
Definition cors_changes (origin : string) (methods headers : option (list string))
    (credentials : bool) : list mutation :=
  ([SetField "Access-Control-Allow-Origin" origin;
    SetField "Access-Control-Allow-Methods"
      (Str.join ", " (default ["GET"; "POST"; "PUT"; "DELETE"; "OPTIONS"] methods));
    SetField "Access-Control-Allow-Headers"
      (Str.join ", " (default ["Content-Type"; "Authorization"] headers))]
   ++ if credentials then [SetField "Access-Control-Allow-Credentials" "true"] else [])%list.

(** The headers [security_headers] sets. *)
Definition security_changes : list mutation :=
  [SetField "X-Content-Type-Options" "nosniff";
   SetField "X-Frame-Options" "DENY";
   SetField "X-XSS-Protection" "1; mode=block";
   SetField "Strict-Transport-Security" "max-age=31536000; includeSubDomains";
   SetField "Content-Security-Policy" "default-src 'self'";
   SetField "Referrer-Policy" "strict-origin-when-cross-origin"].

(** The header a list of changes leaves under [name], when it sets one. *)
Definition last_set (name : string) (changes : list mutation) : option string :=
  foldl (fun acc m => match m with
                      | SetField n v => if String.eqb n name then Some v else acc
                      | SetStatus _ => acc
                      end) None changes.

(** A request of the framework with the given method, path and headers. *)
Definition utils_request (method path : string) (headers : gmap string string)
  : MoreUtils.Req :=
  {| MoreUtils.base :=
       {| MiddlewareUtils.method := method;
          MiddlewareUtils.path := path;
          MiddlewareUtils.get_header := fun name => headers !! name;
          MiddlewareUtils.remote_addr := "10.0.0.7" |};
     MoreUtils.body := None;
     MoreUtils.query := ∅;
     MoreUtils.parsed_json := None;
     MoreUtils.user := None |}.

(** [s] does not begin with a slash. *)
Abbreviation relative s := (Str.startswith s "/" = false).

(** The session [create_session] appends. *)
Definition new_session (now now' : Z) (session_id uid : string) : Sessions.Session :=
  {| Sessions.id := session_id; Sessions.user_id := uid;
     Sessions.created_at := now';
     Sessions.expires_at := now + SessionApp.hours_24 |}.

(** A user as [get_user_by_id] and [get_user_by_credentials] return it. *)
Definition public_of (u : Sessions.User) : Sessions.PublicUser :=
  {| Sessions.pid := Sessions.uid u; Sessions.pusername := Sessions.username u;
     Sessions.pname := Sessions.name u; Sessions.pemail := Sessions.email u;
     Sessions.pcreated_at := Sessions.ucreated_at u |}.

(** The two users the application writes into a new [users.json], with
    [digest] for the hash of their password. *)
Definition sample_users (digest : string) : list Sessions.User :=
  [ {| Sessions.uid := "1"; Sessions.username := "admin"; Sessions.password := digest;
       Sessions.name := "Admin User"; Sessions.email := "admin@example.com";
       Sessions.ucreated_at := "2024-05-01T12:00:00" |};
    {| Sessions.uid := "2"; Sessions.username := "user"; Sessions.password := digest;
       Sessions.name := "Regular User"; Sessions.email := "user@example.com";
       Sessions.ucreated_at := "2024-05-01T12:00:00" |} ].

(** A login form. *)
Definition login_form (name pass : string) : gmap string string :=
  {[ "username" := name; "password" := pass ]}.

End Vocabulary2.
Import Vocabulary2.
(* ===================================================================== *)
(** ** Request parsing: query string and headers *)
(* ===================================================================== *)

Section QueryFacts.
Import UrlParse.

Lemma add_values_lookup (pairs : list (string * string))
    (acc : gmap string (string * list string)) (k : string) :
  fst <$> (foldl add_value acc pairs !! k)
  = match acc !! k with
    | Some entry => Some entry.1
    | None => snd <$> List.find (fun nv => bool_decide (nv.1 = k)) pairs
    end.
Proof.
  revert acc. induction pairs as [|[n v] pairs IH]; intros acc; simpl.
  - destruct (acc !! k) as [[v0 vs]|]; reflexivity.
  - rewrite IH. unfold add_value; simpl.
    destruct (decide (n = k)) as [->|Hne].
    + rewrite bool_decide_eq_true_2 by reflexivity.
      destruct (acc !! k) as [[v0 vs]|] eqn:Hk; rewrite lookup_insert_eq; reflexivity.
    + rewrite bool_decide_eq_false_2 by assumption.
      destruct (acc !! n) as [[v0 vs]|]; rewrite lookup_insert_ne by assumption;
        reflexivity.
Qed.

Lemma first_values_lookup (qs k : string) :
  first_values qs !! k
  = snd <$> List.find (fun nv => bool_decide (nv.1 = k)) (parse_qsl qs).
Proof.
  unfold first_values, parse_qs. rewrite lookup_fmap, add_values_lookup.
  rewrite lookup_empty. reflexivity.
Qed.

Lemma find_first_occurrence (l1 l2 : list (string * string)) (k v : string) :
  k ∉ l1.*1 ->
  List.find (fun nv => bool_decide (nv.1 = k)) (l1 ++ (k, v) :: l2) = Some (k, v).
Proof.
  induction l1 as [|[n x] l1 IH]; simpl; intros Hk.
  - rewrite bool_decide_eq_true_2; reflexivity.
  - rewrite bool_decide_eq_false_2.
    + apply IH. intros Hin. apply Hk. right. exact Hin.
    + intros ->. apply Hk. left.
Qed.
Lemma parse_field_counts (field : string) :
  parse_field field
  = if field_counts field then Some (field_name field, field_value field) else None.
Proof.
  unfold parse_field, field_counts, field_name, field_value.
  destruct (String.eqb_spec field "") as [->|_]; [reflexivity|].
  destruct (Str.split1 "=" field) as [n [v|]]; simpl; [|reflexivity].
  destruct (String.eqb v ""); reflexivity.
Qed.

Lemma find_counting_field (fields : list string) (k : string) :
  snd <$> List.find (fun nv => bool_decide (nv.1 = k)) (omap parse_field fields)
  = field_value
      <$> List.find (fun field => field_counts field && bool_decide (field_name field = k))
            fields.
Proof.
  induction fields as [|field fields IH]; [reflexivity|].
  cbn [omap list_omap List.find]. rewrite parse_field_counts.
  destruct (field_counts field); simpl; [|exact IH].
  destruct (bool_decide (field_name field = k)); [reflexivity | exact IH].
Qed.
End QueryFacts.

(** C8 (as the code has it): [Request.query] binds a key to the value of
    the FIRST field of the query string that counts and has that key as its
    name, and binds no key that no such field names.  A field counts when it
    has an [=] with at least one character behind it: a field with a blank
    value or without [=] is passed over.  Whatever follows the first such
    field, further fields of the same key included, does not change the
    binding. *)
Theorem query_binds_first_nonblank_value (handler_path before qs k : string) :
  Str.split1 "?" handler_path = (before, Some qs) ->
  SimpleMiddleware.parse_query handler_path !! k
  = field_value
      <$> List.find (fun field => field_counts field && bool_decide (field_name field = k))
            (Str.split "&" qs).
Proof.
  intros Hsplit. unfold SimpleMiddleware.parse_query.
  rewrite Hsplit, first_values_lookup. unfold UrlParse.parse_qsl.
  destruct (String.eqb_spec qs "") as [->|_]; [reflexivity|].
  apply find_counting_field.
Qed.

Lemma query_binds_first_nonblank_value_witness :
  SimpleMiddleware.parse_query "/search?a=&a=2&b=x&a=3" !! "a"
  = field_value
      <$> List.find (fun field => field_counts field && bool_decide (field_name field = "a"))
            (Str.split "&" "a=&a=2&b=x&a=3")
  /\ field_value
       <$> List.find (fun field => field_counts field && bool_decide (field_name field = "a"))
             (Str.split "&" "a=&a=2&b=x&a=3")
     = Some "2".
Proof.
  split.
  - apply (query_binds_first_nonblank_value "/search?a=&a=2&b=x&a=3" "/search"
             "a=&a=2&b=x&a=3" "a").
    reflexivity.
  - vm_compute. reflexivity.
Defined.

(** C8, the sentence of the specification does not hold: with [a=1&a=2] the key [a] is bound to
    ["1"], not to the last value ["2"]. *)
Lemma query_last_value_counterexample :
  SimpleMiddleware.parse_query "/search?a=1&a=2" !! "a" = Some "1"
  /\ SimpleMiddleware.parse_query "/search?a=1&a=2" !! "a" <> Some "2".
Proof.
  assert (H : SimpleMiddleware.parse_query "/search?a=1&a=2" !! "a" = Some "1").
  { unfold SimpleMiddleware.parse_query. simpl Str.split1. cbv iota beta.
    rewrite first_values_lookup. reflexivity. }
  split; [exact H | rewrite H; discriminate].
Qed.

Section HeaderFacts.
Import SimpleMiddleware.

Lemma lower_char_idem (c : ascii) : Str.lower_char (Str.lower_char c) = Str.lower_char c.
Proof. destruct c as [[] [] [] [] [] [] [] []]; reflexivity. Qed.

Lemma lower_idem (s : string) : Str.lower (Str.lower s) = Str.lower s.
Proof.
  induction s as [|c s IH]; [reflexivity|].
  unfold Str.lower in *. simpl. rewrite lower_char_idem. f_equal. exact IH.
Qed.

Lemma lower_keys_fold (items : list (string * string)) (d : gmap string string)
    (name : string) :
  foldl (fun d kv => <[Str.lower kv.1 := kv.2]> d) d items !! name
  = match last_value name items with
    | Some v => Some v
    | None => d !! name
    end.
Proof.
  revert d. induction items as [|[k v] items IH]; intros d; [reflexivity|].
  simpl. rewrite IH. unfold last_value.
  destruct (decide (Str.lower k = name)) as [Heq|Hne].
  - rewrite (filter_cons_True _ (k, v)) by exact Heq.
    destruct (filter _ items) as [|kv rest] eqn:Hf.
    + simpl. rewrite Heq, lookup_insert_eq. reflexivity.
    + rewrite (last_cons (k, v)). destruct (last (kv :: rest)) eqn:Hl; [reflexivity|].
      apply last_None in Hl. discriminate.
  - rewrite (filter_cons_False _ (k, v)) by exact Hne.
    destruct (snd <$> last (filter _ items)); [reflexivity|].
    rewrite lookup_insert_ne by assumption. reflexivity.
Qed.

Lemma lower_keys_lookup (items : list (string * string)) (name : string) :
  lower_keys items !! name = last_value name items.
Proof.
  unfold lower_keys. rewrite lower_keys_fold, lookup_empty.
  destruct (last_value name items); reflexivity.
Qed.

Lemma last_value_lowered (items : list (string * string)) (name : string) (v : string) :
  last_value name items = Some v -> Str.lower name = name.
Proof.
  unfold last_value. intros H.
  destruct (last (filter _ items)) as [[k x]|] eqn:Hl; [|discriminate].
  apply last_Some_elem_of in Hl. apply list_elem_of_filter in Hl as [Hk _].
  simpl in Hk. rewrite <- Hk. apply lower_idem.
Qed.
End HeaderFacts.

(** C9 (as the code has it): [Request.headers] is a plain dictionary whose
    keys were lower-cased when the request was built.  Whatever casing the
    client used on the wire, a lookup by the lower-cased name finds the value
    of the last header of that name; a lookup by a name that is not in lower
    case finds nothing. *)
Theorem headers_lookup_lowercase_only (items : list (string * string)) (name : string) :
  SimpleMiddleware.lower_keys items !! Str.lower name
  = snd <$> last (filter (fun kv => Str.lower kv.1 = Str.lower name) items)
  /\ (Str.lower name <> name -> SimpleMiddleware.lower_keys items !! name = None).
Proof.
  split.
  - apply lower_keys_lookup.
  - intros Hne. rewrite lower_keys_lookup.
    destruct (last_value name items) as [v|] eqn:Hv; [|reflexivity].
    apply last_value_lowered in Hv. contradiction.
Qed.

Lemma headers_lookup_lowercase_only_witness :
  SimpleMiddleware.lower_keys [("X-API-Key", "abc123")] !! "X-Api-Key" = None.
Proof.
  apply (headers_lookup_lowercase_only [("X-API-Key", "abc123")] "X-Api-Key").
  vm_compute. discriminate.
Defined.

(** C9, the sentence of the specification does not hold: ["X-API-Key"] and ["x-api-key"] differ
    only in letter case, and on the headers of a request that carried
    [X-API-Key: abc123] the first finds nothing while the second finds the
    value. *)
Lemma headers_case_counterexample :
  Str.lower "X-API-Key" = Str.lower "x-api-key"
  /\ SimpleMiddleware.lower_keys [("X-API-Key", "abc123")] !! "x-api-key" = Some "abc123"
  /\ SimpleMiddleware.lower_keys [("X-API-Key", "abc123")] !! "X-API-Key" = None.
Proof.
  split; [reflexivity|]. split.
  - rewrite lower_keys_lookup. reflexivity.
  - rewrite lower_keys_lookup. reflexivity.
Qed.

(* ===================================================================== *)
(** ** The response object *)
(* ===================================================================== *)

Section ResponseFacts.
Import Chain SimpleMiddleware.

Lemma dict_get_set (k v : string) (d : list (string * string)) :
  dict_get k (dict_set k v d) = Some v.
Proof.
  induction d as [|[k' v'] d IH]; simpl.
  - rewrite String.eqb_refl. reflexivity.
  - destruct (String.eqb k' k) eqn:E; simpl; rewrite E; [reflexivity | exact IH].
Qed.

Lemma send_connected (c : content) (w : World) :
  connected w = true ->
  exists w1, Response_send c w = (Val RRes, w1)
             /\ res w1 = res w /\ connected w1 = true
             /\ wire w1 = (wire w
                           ++ [send_response (Response.status_code (res w))]
                           ++ map (fun nv => send_header nv.1 nv.2) (Response.headers (res w))
                           ++ [end_headers] ++ body_events c)%list.
Proof.
  intros Hc. unfold Response_send. rewrite Hc. eexists. split; [reflexivity|].
  simpl. repeat split; try reflexivity. exact Hc.
Qed.
End ResponseFacts.

(** C5 (as the code has it): [Response] keeps no record of having been sent.
    After [send] has flushed the response, [status] and [set_header] still
    succeed: no exception is raised, the fields of the response object take
    the new values, and what was written to the connection stays as it
    was. *)
Theorem mutation_after_send_succeeds (i : nat)
    (next : SimpleMiddleware.World -> SimpleMiddleware.result)
    (w : SimpleMiddleware.World) (c : Chain.content) (code : Z) (name value : string) :
  SimpleMiddleware.connected w = true ->
  exists w1 w2,
    SimpleMiddleware.Response_send c w = (Chain.Val Chain.RRes, w1)
    /\ SimpleMiddleware.run i
         (Chain.Send c (Chain.Status code (Chain.SetHeader name value (Chain.Ret Chain.RRes))))
         next w
       = (Chain.Val Chain.RRes, w2, [])
    /\ SimpleMiddleware.wire w2 = SimpleMiddleware.wire w1
    /\ SimpleMiddleware.Response.status_code (SimpleMiddleware.res w2) = code
    /\ SimpleMiddleware.dict_get name
         (SimpleMiddleware.Response.headers (SimpleMiddleware.res w2)) = Some value.
Proof.
  intros Hc. destruct (send_connected c w Hc) as (w1 & Hsend & _).
  exists w1, (SimpleMiddleware.Response_set_header name value
                (SimpleMiddleware.Response_status code w1)).
  split; [exact Hsend|]. split.
  - simpl. rewrite Hsend. reflexivity.
  - split; [reflexivity|]. split; [reflexivity|]. simpl. apply dict_get_set.
Qed.

Lemma mutation_after_send_succeeds_witness :
  exists w1 w2,
    SimpleMiddleware.Response_send (Chain.Text "done") fresh_world = (Chain.Val Chain.RRes, w1)
    /\ SimpleMiddleware.run 0
         (Chain.Send (Chain.Text "done")
            (Chain.Status 500 (Chain.SetHeader "X-Late" "1" (Chain.Ret Chain.RRes))))
         stop fresh_world
       = (Chain.Val Chain.RRes, w2, [])
    /\ SimpleMiddleware.wire w2 = SimpleMiddleware.wire w1
    /\ SimpleMiddleware.Response.status_code (SimpleMiddleware.res w2) = 500
    /\ SimpleMiddleware.dict_get "X-Late"
         (SimpleMiddleware.Response.headers (SimpleMiddleware.res w2)) = Some "1".
Proof.
  apply (mutation_after_send_succeeds 0 stop fresh_world (Chain.Text "done") 500 "X-Late" "1").
  reflexivity.
Defined.

(** C5, the sentence of the specification does not hold: a middleware that sends and then sets
    the status and a header returns normally; nothing is raised, so no
    [AlreadySentError] either. *)
Lemma mutation_after_send_counterexample :
  (SimpleMiddleware.run 0
     (Chain.Send (Chain.Text "done")
        (Chain.Status 500 (Chain.SetHeader "X-Late" "1" (Chain.Ret Chain.RRes))))
     stop fresh_world).1.1 = Chain.Val Chain.RRes
  /\ forall e,
      (SimpleMiddleware.run 0
         (Chain.Send (Chain.Text "done")
            (Chain.Status 500 (Chain.SetHeader "X-Late" "1" (Chain.Ret Chain.RRes))))
         stop fresh_world).1.1 <> Chain.Exn e.
Proof. split; [reflexivity | intros e; discriminate]. Qed.

(* ===================================================================== *)
(** ** Session lookup *)
(* ===================================================================== *)

Section SessionFacts.
Import Sessions.

Lemma get_session_none (now : Z) (sessions : list Session) (cookie : option string) :
  no_session now sessions cookie ->
  (get_session now sessions cookie).1 = None.
Proof.
  intros H. unfold get_session.
  destruct H as [|sid Hunknown|sid s Hfind Hexp].
  - reflexivity.
  - destruct (Str.is_set (Some sid)); [|reflexivity]. simpl.
    destruct (List.find _ sessions) as [s|] eqn:Hf; [|reflexivity].
    apply List.find_some in Hf as [Hin Hid].
    apply bool_decide_eq_true_1 in Hid. injection Hid as Hid.
    exfalso. exact (Hunknown s Hin Hid).
  - destruct (Str.is_set (Some sid)); [|reflexivity]. simpl.
    rewrite Hfind. rewrite bool_decide_eq_true_2 by exact Hexp. reflexivity.
Qed.
End SessionFacts.

(** C7: a request without session cookie, one whose cookie names no stored
    session and one whose cookie names an expired session leave
    [session_middleware] in the same way: [req.session] and [req.user] are
    both [None], the rest of the request is untouched and [next] is called.
    The function is total, so none of the three raises. *)
Theorem no_session_cases_alike (now : Z) (users : list Sessions.User)
    (sessions : list Sessions.Session) (req : Sessions.Request) :
  no_session now sessions (Sessions.cookies req !! "session_id") ->
  (Sessions.session_middleware now users sessions req).1.2
  = {| Sessions.cookies := Sessions.cookies req;
       Sessions.session := None;
       Sessions.user := None |}
  /\ (Sessions.session_middleware now users sessions req).2
     = Chain.Next (fun _ => Chain.Ret Chain.RNone).
Proof.
  intros H. apply (get_session_none now) in H.
  unfold Sessions.session_middleware.
  destruct (Sessions.get_session now sessions (Sessions.cookies req !! "session_id"))
    as [found sessions'].
  simpl in *. subst found. split; reflexivity.
Qed.

Lemma no_session_cases_alike_witness :
  (Sessions.session_middleware 100 [] expired_store cookie_request).1.2
  = {| Sessions.cookies := Sessions.cookies cookie_request;
       Sessions.session := None;
       Sessions.user := None |}
  /\ (Sessions.session_middleware 100 [] expired_store cookie_request).2
     = Chain.Next (fun _ => Chain.Ret Chain.RNone).
Proof.
  apply (no_session_cases_alike 100 [] expired_store cookie_request).
  apply (expired_identifier 100 expired_store "s1"
           {| Sessions.id := "s1"; Sessions.user_id := "1";
              Sessions.created_at := 0; Sessions.expires_at := 50 |}).
  - reflexivity.
  - simpl. lia.
Defined.

(** What the expired case does besides: the expired session leaves the
    file; the two other cases leave the file as it is. *)
Lemma get_session_store (now : Z) (sessions : list Sessions.Session)
    (cookie : option string) :
  no_session now sessions cookie ->
  (Sessions.get_session now sessions cookie).2 = sessions
  \/ (Sessions.get_session now sessions cookie).2
     = filter (fun s => Some (Sessions.id s) <> cookie) sessions.
Proof.
  intros H. unfold Sessions.get_session.
  destruct (Str.is_set cookie); [|left; reflexivity]. simpl.
  destruct (List.find _ sessions) as [s|]; [|left; reflexivity].
  destruct (bool_decide (now > Sessions.expires_at s)); [right|left]; reflexivity.
Qed.

(* ===================================================================== *)
(** ** Static files *)
(* ===================================================================== *)

(** C1, at a request the check lets through: the directory is [/srv/www],
    the request path [/static/../www-private/key.txt] resolves to
    [/srv/www-private/key.txt], which is outside [/srv/www] but starts with
    the same characters; [static_files] answers 200 with the file.  And
    [static_files_middleware], which has no check, serves
    [/srv/app/secrets.txt] from outside [/srv/app/public] for the request
    path [/public/../secrets.txt]. *)
Theorem static_files_serve_outside_root :
  (~ inside (PosixPath.abspath (cwd leaky_fs) "/srv/www")
       (PosixPath.normpath (PosixPath.join "/srv/www" "../www-private/key.txt"))
   /\ (SimpleMiddleware.run 0
         (MiddlewareUtils.static_files leaky_fs "/srv/www" None traversal_request)
         stop fresh_world).1
      = (Chain.Val Chain.RRes,
         SimpleMiddleware.with_wire
           [SimpleMiddleware.send_response 200;
            SimpleMiddleware.send_header "Content-Type" "text/plain";
            SimpleMiddleware.end_headers;
            SimpleMiddleware.wfile_write (Chain.Bytes "TOP SECRET")]
           (SimpleMiddleware.Response_set_header "Content-Type" "text/plain" fresh_world)))
  /\ (~ inside (PosixPath.abspath (cwd leaky_fs) SimpleMiddleware.PUBLIC_DIR)
        (PosixPath.abspath (cwd leaky_fs) (PosixPath.join (cwd leaky_fs) "public/../secrets.txt"))
      /\ SimpleMiddleware.wire
           (SimpleMiddleware.run 2
              (SimpleMiddleware.static_files_middleware leaky_fs
                 (plain_request "GET" "/public/../secrets.txt" []))
              stop fresh_world).1.2
         = [SimpleMiddleware.send_response 200;
            SimpleMiddleware.send_header "Content-Type" "text/plain";
            SimpleMiddleware.end_headers;
            SimpleMiddleware.wfile_write (Chain.Bytes "DB_PASSWORD=hunter2")]).
Proof.
  split; split.
  - intros [H|H]; vm_compute in H; discriminate.
  - vm_compute. reflexivity.
  - intros [H|H]; vm_compute in H; discriminate.
  - vm_compute. reflexivity.
Qed.

(** What the check of [static_files] does reject: a normalised path that
    does not start with the text of the absolute directory. *)
Lemma static_files_forbidden (fs : FS) (directory : string) (cache_control : option string)
    (req : MiddlewareUtils.Request) :
  MiddlewareUtils.method req = "GET" ->
  Str.startswith (Str.split1 "?" (MiddlewareUtils.path req)).1 "/static/" = true ->
  Str.startswith
    (PosixPath.normpath
       (PosixPath.join directory
          (Str.slice_from 8 (Str.split1 "?" (MiddlewareUtils.path req)).1)))
    (PosixPath.abspath (cwd fs) directory) = false ->
  MiddlewareUtils.static_files fs directory cache_control req
  = Chain.Status 403
      (Chain.Json (JDict [("error", JStr "Forbidden"); ("message", JStr "Access denied")])
         (Chain.Ret Chain.RRes)).
Proof.
  intros Hm Hs Hn. unfold MiddlewareUtils.static_files.
  rewrite Hm, Hs, Hn. reflexivity.
Qed.

(** With a relative directory, as in [static_files("public")], the
    normalised path is relative and the directory it is compared with is
    absolute: every request below [/static/] is refused. *)
Example static_files_relative_directory :
  MiddlewareUtils.static_files leaky_fs "public" None
    {| MiddlewareUtils.method := "GET";
       MiddlewareUtils.path := "/static/index.html";
       MiddlewareUtils.get_header := fun _ => None;
       MiddlewareUtils.remote_addr := "10.0.0.9" |}
  = Chain.Status 403
      (Chain.Json (JDict [("error", JStr "Forbidden"); ("message", JStr "Access denied")])
         (Chain.Ret Chain.RRes)).
Proof. vm_compute. reflexivity. Qed.

(* ===================================================================== *)
(** ** The continuation protocol of [execute_middleware] *)
(* ===================================================================== *)

Section TraceFacts.
Import Chain SimpleMiddleware.
Local Open Scope nat_scope.

Lemma times_cons (e x : event) (evs : list event) :
  times e (x :: evs) = (if decide (x = e) then 1 else 0) + times e evs.
Proof.
  unfold times. destruct (decide (x = e)) as [H|H].
  - rewrite filter_cons_True by exact H. reflexivity.
  - rewrite filter_cons_False by exact H. reflexivity.
Qed.

Lemma times_app (e : event) (a b : list event) :
  times e (a ++ b) = times e a + times e b.
Proof. unfold times. rewrite filter_app, length_app. reflexivity. Qed.

Lemma times_absent (e : event) (evs : list event) :
  times e evs = 0 <-> ~ In e evs.
Proof.
  induction evs as [|x evs IH]; simpl.
  - split; [intros _ [] | reflexivity].
  - rewrite times_cons. destruct (decide (x = e)) as [->|Hne].
    + split; [discriminate | intros H; exfalso; apply H; left; reflexivity].
    + simpl. rewrite IH. split.
      * intros H [Hx|Hin]; [contradiction | exact (H Hin)].
      * intros H Hin. apply H. right. exact Hin.
Qed.

Lemma element_trace_nil (k : nat) : element_trace k [].
Proof. split; [constructor | reflexivity | intros j _ []]. Qed.

Lemma element_trace_app (k : nat) (a b : list event) :
  element_trace k a -> element_trace k b -> element_trace k (a ++ b).
Proof.
  intros [Fa Ga Ea] [Fb Gb Eb]. split.
  - apply Forall_app. split; assumption.
  - intros j Hj. rewrite !times_app, Ga, Gb by exact Hj. reflexivity.
  - intros j Hj Hin. apply in_app_or in Hin. apply in_or_app.
    destruct Hin as [Hin|Hin]; [left; apply Ea | right; apply Eb]; assumption.
Qed.

Lemma from_excludes_call (k : nat) (evs : list event) :
  Forall (ev_from (S k)) evs -> ~ In (CallNext k) evs.
Proof.
  intros HF Hin. rewrite Forall_forall in HF.
  apply list_elem_of_In in Hin. specialize (HF _ Hin). simpl in HF. lia.
Qed.

Lemma from_excludes_enter (k : nat) (evs : list event) :
  Forall (fun e => e = CallNext k \/ ev_from (S k) e) evs -> ~ In (Enter k) evs.
Proof.
  intros HF Hin. rewrite Forall_forall in HF.
  apply list_elem_of_In in Hin. destruct (HF _ Hin) as [H|H]; [discriminate|].
  simpl in H. lia.
Qed.

Lemma element_trace_call (k : nat) (evs : list event) :
  dispatch_trace (S k) evs -> element_trace k (CallNext k :: evs).
Proof.
  intros [F G O E]. split.
  - constructor; [left; reflexivity|].
    eapply Forall_impl; [exact F|]. intros e He. right. exact He.
  - intros j Hj. rewrite !times_cons.
    destruct (decide (CallNext k = Enter (S j))) as [?|_]; [discriminate|].
    destruct (decide (CallNext k = CallNext j)) as [Heq|Hne].
    + injection Heq as <-. rewrite O.
      apply from_excludes_call, times_absent in F. rewrite F. reflexivity.
    + simpl. apply G. destruct (decide (k = j)) as [->|]; [contradiction | lia].
  - intros j Hj [Heq|Hin].
    + injection Heq as <-. lia.
    + right. apply E. exact Hin.
Qed.

Lemma dispatch_trace_enter (k : nat) (evs : list event) :
  element_trace k evs -> dispatch_trace k (Enter k :: evs).
Proof.
  intros [F G E]. split.
  - constructor; [simpl; lia|].
    eapply Forall_impl; [exact F|]. intros e [->|He]; simpl; [lia|].
    destruct e; simpl in *; lia.
  - intros j Hj. rewrite !times_cons.
    destruct (decide (Enter k = Enter (S j))) as [Heq|_]; [injection Heq; lia|].
    destruct (decide (Enter k = CallNext j)) as [?|_]; [discriminate|].
    simpl. apply G. exact Hj.
  - rewrite times_cons. destruct (decide (Enter k = Enter k)) as [_|H]; [|contradiction].
    apply from_excludes_enter, times_absent in F. rewrite F. reflexivity.
  - intros j [Heq|Hin]; [discriminate|].
    destruct (decide (j = k)) as [->|Hne]; [left; reflexivity|].
    right. rewrite Forall_forall in F.
    pose proof (F _ (proj2 (list_elem_of_In _ _) Hin)) as [Hc|Hc].
    + injection Hc as ->. contradiction.
    + simpl in Hc. apply E; [lia | exact Hin].
Qed.

Lemma run_trace (k : nat) (p : Prog) (next : World -> result) (w : World) :
  (forall w, dispatch_trace (S k) (next w).2) ->
  element_trace k (run k p next w).2.
Proof.
  intros Hnext. revert w.
  induction p as [v|e|m p IH|code p IH|name value p IH|c p IH|d p IH|f IH|f IH|f IH
                 |body IHb handler IHh]; intros w; simpl.
  - apply element_trace_nil.
  - apply element_trace_nil.
  - apply IH.
  - apply IH.
  - apply IH.
  - destruct (Response_send c w) as [[v|e] w']; [apply IH | apply element_trace_nil].
  - destruct (Response_json d w) as [[v|e] w']; [apply IH | apply element_trace_nil].
  - apply IH.
  - apply IH.
  - pose proof (Hnext w) as Hn. destruct (next w) as [[[v|e] w'] evs]; simpl in Hn.
    + specialize (IH v w'). destruct (run k (f v) next w') as [[o w''] evs']. simpl in *.
      apply (element_trace_app k (CallNext k :: evs) evs'); [|exact IH].
      apply element_trace_call. exact Hn.
    + simpl. apply element_trace_call. exact Hn.
  - specialize (IHb w). destruct (run k body next w) as [[[v|e] w'] evs]; simpl in *.
    + exact IHb.
    + specialize (IHh e w'). destruct (run k (handler e) next w') as [[o w''] evs'].
      simpl in *. apply element_trace_app; assumption.
Qed.

Lemma execute_from_trace (req : Request.t) (rest : list middleware) (k : nat) (w : World) :
  dispatch_trace k (execute_from req rest k w).2.
Proof.
  revert k w. induction rest as [|m rest IH]; intros k w; simpl.
  - destruct (Response_json _ _) as [[v|e] w']; simpl;
      apply dispatch_trace_enter, element_trace_nil.
  - pose proof (run_trace k (m req) (execute_from req rest (S k)) w (IH (S k))) as Hr.
    destruct (run k (m req) _ w) as [[o w'] evs]. simpl in *.
    apply dispatch_trace_enter. exact Hr.
Qed.








End TraceFacts.




Section MutationFacts.
Import Chain SimpleMiddleware.

Lemma run_mutations (i : nat) (changes : list mutation) (v : retval)
    (next : World -> result) (w : World) :
  run i (foldr mutate (Ret v) changes) next w = (Val v, foldl apply_mutation w changes, []).
Proof.
  revert w. induction changes as [|[code|name value] changes IH]; intros w; simpl.
  - reflexivity.
  - apply IH.
  - apply IH.
Qed.

Lemma wire_mutations (changes : list mutation) (w : World) :
  wire (foldl apply_mutation w changes) = wire w.
Proof.
  revert w. induction changes as [|[code|name value] changes IH]; intros w; simpl.
  - reflexivity.
  - rewrite IH. reflexivity.
  - rewrite IH. reflexivity.
Qed.
End MutationFacts.

(** C6 (as the code has it): [next] returns only when the elements behind
    have run, and what a middleware then changes of the response state (the
    status, a header) lands on the response object; but [send] writes status
    and headers when it is called, so the output on the connection is the one
    the elements behind produced, without the later changes. *)
Theorem mutation_after_next_not_sent (req : SimpleMiddleware.Request.t)
    (rest : list SimpleMiddleware.middleware) (idx : nat) (w : SimpleMiddleware.World)
    (changes : list mutation)
    (o : Chain.outcome) (w1 : SimpleMiddleware.World) (evs : list Chain.event) :
  SimpleMiddleware.execute_from req rest (S idx) w = (o, w1, evs) ->
  exists w2,
    SimpleMiddleware.execute_from req (mutate_after_next changes :: rest) idx w
    = (o, w2, Chain.Enter idx :: Chain.CallNext idx :: evs)
    /\ w2 = match o with
            | Chain.Val _ => foldl apply_mutation w1 changes
            | Chain.Exn _ => w1
            end
    /\ SimpleMiddleware.wire w2 = SimpleMiddleware.wire w1.
Proof.
  intros Hrest. simpl. rewrite Hrest. destruct o as [v|e]; simpl.
  - rewrite run_mutations, app_nil_r. eexists. split; [reflexivity|].
    split; [reflexivity | apply wire_mutations].
  - eexists. repeat split.
Qed.

Lemma mutation_after_next_not_sent_witness :
  exists w2,
    SimpleMiddleware.execute_from (plain_request "GET" "/about" [])
      [mutate_after_next [SetField "X-After" "1"]; SimpleMiddleware.routes_middleware]
      0 fresh_world
    = (Chain.Val Chain.RRes, w2, [Chain.Enter 0; Chain.CallNext 0; Chain.Enter 1])
    /\ w2 = foldl apply_mutation
              (SimpleMiddleware.with_wire
                 [SimpleMiddleware.send_response 200;
                  SimpleMiddleware.send_header "Content-Type" "text/html";
                  SimpleMiddleware.end_headers;
                  SimpleMiddleware.wfile_write (Chain.Text SimpleMiddleware.about_page)]
                 fresh_world)
              [SetField "X-After" "1"]
    /\ SimpleMiddleware.wire w2
       = SimpleMiddleware.wire
           (SimpleMiddleware.with_wire
              [SimpleMiddleware.send_response 200;
               SimpleMiddleware.send_header "Content-Type" "text/html";
               SimpleMiddleware.end_headers;
               SimpleMiddleware.wfile_write (Chain.Text SimpleMiddleware.about_page)]
              fresh_world).
Proof.
  apply (mutation_after_next_not_sent (plain_request "GET" "/about" [])
           [SimpleMiddleware.routes_middleware] 0 fresh_world [SetField "X-After" "1"]
           (Chain.Val Chain.RRes)).
  reflexivity.
Defined.

(** C6, the sentence of the specification does not hold: the middleware calls [next] exactly
    once and then sets [X-After]; the header is on the response object, and
    the response the client got for [GET /about] does not have it. *)
Lemma mutation_after_next_counterexample :
  times (Chain.CallNext 0)
    (SimpleMiddleware.execute_middleware (plain_request "GET" "/about" [])
       [mutate_after_next [SetField "X-After" "1"]; SimpleMiddleware.routes_middleware]
       0 fresh_world).2 = 1%nat
  /\ SimpleMiddleware.dict_get "X-After"
       (SimpleMiddleware.Response.headers
          (SimpleMiddleware.res
             (SimpleMiddleware.execute_middleware (plain_request "GET" "/about" [])
                [mutate_after_next [SetField "X-After" "1"];
                 SimpleMiddleware.routes_middleware]
                0 fresh_world).1.2)) = Some "1"
  /\ SimpleMiddleware.wire
       (SimpleMiddleware.execute_middleware (plain_request "GET" "/about" [])
          [mutate_after_next [SetField "X-After" "1"]; SimpleMiddleware.routes_middleware]
          0 fresh_world).1.2
     = [SimpleMiddleware.send_response 200;
        SimpleMiddleware.send_header "Content-Type" "text/html";
        SimpleMiddleware.end_headers;
        SimpleMiddleware.wfile_write (Chain.Text SimpleMiddleware.about_page)]
  /\ ~ In (SimpleMiddleware.send_header "X-After" "1")
         (SimpleMiddleware.wire
            (SimpleMiddleware.execute_middleware (plain_request "GET" "/about" [])
               [mutate_after_next [SetField "X-After" "1"];
                SimpleMiddleware.routes_middleware]
               0 fresh_world).1.2).
Proof.
  repeat split; try (vm_compute; reflexivity).
  vm_compute. intros [H|[H|[H|[H|[]]]]]; discriminate.
Qed.

(* ===================================================================== *)
(** ** The dispatch boundary *)
(* ===================================================================== *)

Section BoundaryFacts.
Import Chain SimpleMiddleware.
Context {lib : PyLib}.

Lemma handle_error_returns (e : exn) (w : World) :
  exists w', handle_error e w = (Val RNone, w')
    /\ (connected w = true -> wire w' = (wire w ++ error_500 e)%list).
Proof.
  unfold handle_error. simpl. destruct (connected w); simpl.
  - eexists. split; [reflexivity|]. intros _. reflexivity.
  - eexists. split; [reflexivity|]. intros H. discriminate.
Qed.

Lemma no_handle_error_from (k : nat) (evs : list event) :
  Forall (ev_from k) evs -> List.filter is_handle_error evs = [].
Proof.
  induction 1 as [|ev evs Hev _ IH]; [reflexivity|].
  simpl. destruct ev; simpl in *; try exact IH. contradiction.
Qed.

Lemma process_request_events (chain : list middleware) (handler : HandlerIn) (w : World) :
  List.filter is_handle_error (process_request chain handler w).2 = [].
Proof.
  unfold process_request. destruct (Request_init handler) as [e|req]; [reflexivity|].
  unfold execute_middleware. rewrite drop_0.
  match goal with |- context [execute_from req chain 0 ?w0] =>
    pose proof (dt_from _ _ (execute_from_trace req chain 0%nat w0)) as Hfrom;
    destruct (execute_from req chain 0 w0) as [[[v|e] w'] evs]
  end; simpl in *; apply (no_handle_error_from 0%nat); exact Hfrom.
Qed.
End BoundaryFacts.

(** C2: whatever the chain is and whatever its elements do, [do_GET] and its
    siblings return normally: no exception leaves the handler.  An exception
    that comes out of [process_request] is handed to [handle_error] once, and
    on an open connection the generic 500 response is written; when
    [process_request] returns, [handle_error] is not called. *)
Theorem exceptions_stop_at_dispatch {lib : PyLib}
    (chain : list SimpleMiddleware.middleware) (name : string)
    (handler : SimpleMiddleware.HandlerIn) (w : SimpleMiddleware.World) :
  exists w' evs,
    SimpleMiddleware.do_method chain name handler w = (Chain.Val Chain.RNone, w', evs)
    /\ match SimpleMiddleware.process_request chain handler
               (SimpleMiddleware.log
                  (Chain.Line ("Handling " ++ name ++ " request for "
                               ++ SimpleMiddleware.hpath handler)) w) with
       | (Chain.Exn e, w1, _) =>
           List.filter is_handle_error evs = [Chain.HandleError e]
           /\ (SimpleMiddleware.connected w1 = true ->
               SimpleMiddleware.wire w' = (SimpleMiddleware.wire w1 ++ error_500 e)%list)
       | (Chain.Val _, w1, _) =>
           List.filter is_handle_error evs = [] /\ w' = w1
       end.
Proof.
  unfold SimpleMiddleware.do_method.
  pose proof (process_request_events chain handler
                (SimpleMiddleware.log
                   (Chain.Line ("Handling " ++ name ++ " request for "
                                ++ SimpleMiddleware.hpath handler)) w)) as Hev.
  destruct (SimpleMiddleware.process_request chain handler _) as [[[v|e] w1] evs1];
    simpl in Hev.
  - exists w1, evs1. split; [reflexivity|]. split; [exact Hev | reflexivity].
  - destruct (handle_error_returns e w1) as (w' & Hh & Hwire). rewrite Hh.
    exists w', (evs1 ++ [Chain.HandleError e])%list. split; [reflexivity|]. split.
    + rewrite List.filter_app, Hev. reflexivity.
    + exact Hwire.
Qed.

(** A route that divides by zero behind the logger and the authentication:
    the client gets the 500 response; on a closed connection nothing is
    written and the handler still returns. *)
Example failing_route_handled :
  let r := SimpleMiddleware.do_method (lib := plain_lib)
             [SimpleMiddleware.logger_middleware; SimpleMiddleware.auth_middleware;
              failing_route]
             "GET" (get_handler "/api" []) fresh_world in
  let r' := SimpleMiddleware.do_method (lib := plain_lib)
              [SimpleMiddleware.logger_middleware; SimpleMiddleware.auth_middleware;
               failing_route]
              "GET" (get_handler "/api" []) closed_world in
  r.1.1 = Chain.Val Chain.RNone
  /\ SimpleMiddleware.wire r.1.2 = error_500 division_by_zero
  /\ r.2 = [Chain.Enter 0; Chain.CallNext 0; Chain.Enter 1; Chain.CallNext 1;
            Chain.Enter 2; Chain.HandleError division_by_zero]
  /\ r'.1.1 = Chain.Val Chain.RNone
  /\ SimpleMiddleware.wire r'.1.2 = []
  /\ r'.2 = r.2.
Proof. vm_compute. repeat split. Qed.

(** With [error_handler] in front, the exception of an element behind it
    becomes the response of that stage, with the status the exception carries
    or 500, and [process_request] returns. *)
Lemma error_handler_converts (req : SimpleMiddleware.Request.t)
    (rest : list SimpleMiddleware.middleware) (idx : nat) (w w1 : SimpleMiddleware.World)
    (include_stack_trace : bool) (e : exn) (evs : list Chain.event) :
  SimpleMiddleware.execute_from req rest (S idx) w = (Chain.Exn e, w1, evs) ->
  SimpleMiddleware.connected w1 = true ->
  exists w2 evs2,
    SimpleMiddleware.execute_from req
      (MiddlewareUtils.error_handler include_stack_trace :: rest) idx w
    = (Chain.Val Chain.RRes, w2, evs2)
    /\ SimpleMiddleware.Response.status_code (SimpleMiddleware.res w2)
       = default 500 (exn_status_code e)
    /\ exists sent, SimpleMiddleware.wire w2
                    = (SimpleMiddleware.wire w1
                       ++ SimpleMiddleware.send_response (default 500 (exn_status_code e))
                       :: sent)%list.
Proof.
  intros Hrest Hc. simpl. rewrite Hrest. simpl.
  unfold SimpleMiddleware.Response_json, SimpleMiddleware.Response_send. simpl.
  rewrite Hc. simpl. eexists _, _. split; [reflexivity|]. split; [reflexivity|].
  eexists. reflexivity.
Qed.

(* ===================================================================== *)
(** ** Requests no element of the chain answers *)
(* ===================================================================== *)

Section PassFacts.
Import Chain SimpleMiddleware.









(** Elements that hand the request on leave the outcome to what follows
    them: so an exception raised behind them comes out of the chain. *)
Lemma passing_prefix (req : Request.t) (pre rest : list middleware) (k : nat) (w : World) :
  (forall m, In m pre -> forall i next w0, passes_to i (m req) next w0) ->
  exists w_in,
    visible w_in = visible w
    /\ (execute_from req (pre ++ rest) k w).1.1
       = (execute_from req rest (k + length pre) w_in).1.1
    /\ visible (execute_from req (pre ++ rest) k w).1.2
       = visible (execute_from req rest (k + length pre) w_in).1.2.
Proof.
  revert k w. induction pre as [|m pre IH]; intros k w Hpass.
  - exists w. simpl. rewrite Nat.add_0_r. repeat split.
  - destruct (Hpass m (or_introl eq_refl) k (execute_from req (pre ++ rest) (S k)) w)
      as (w1 & Hv1 & Ho1 & Hw1 & _).
    destruct (IH (S k) w1 (fun m' Hin => Hpass m' (or_intror Hin)))
      as (w_in & Hv & Ho & Hw).
    exists w_in. simpl.
    destruct (run k (m req) (execute_from req (pre ++ rest) (S k)) w) as [[o w'] evs].
    simpl in *. rewrite Nat.add_succ_r.
    split; [congruence|]. split; congruence.
Qed.

Lemma raise_comes_out (req : Request.t) (pre post : list middleware) (e : exn) (w : World) :
  (forall m, In m pre -> forall i next w0, passes_to i (m req) next w0) ->
  (execute_middleware req (pre ++ (fun _ => Raise e) :: post) 0 w).1.1 = Exn e.
Proof.
  intros Hpass. unfold execute_middleware. rewrite drop_0.
  destruct (passing_prefix req pre ((fun _ => Raise e) :: post) 0%nat w Hpass)
    as (w_in & _ & Ho & _).
  rewrite Ho. reflexivity.
Qed.

End PassFacts.



(** The catch-all route of the error handling example answers 404 itself
    and does not call [next]. *)
Lemma catch_all_answers_404 (req_path : string) (i : nat)
    (next : SimpleMiddleware.World -> SimpleMiddleware.result) (w : SimpleMiddleware.World) :
  SimpleMiddleware.connected w = true ->
  Chain.no_next (ErrorHandling.not_found req_path)
  /\ exists w', SimpleMiddleware.run i (ErrorHandling.not_found req_path) next w
                = (Chain.Val Chain.RNone, w', [])
                /\ SimpleMiddleware.Response.status_code (SimpleMiddleware.res w') = 404.
Proof.
  intros Hc. split; [exact I|]. simpl.
  unfold SimpleMiddleware.Response_json, SimpleMiddleware.Response_send. simpl.
  rewrite Hc. eexists. split; reflexivity.
Qed.

(* ===================================================================== *)
(** ** The rate limiter *)
(* ===================================================================== *)

Section LimiterFacts.
Import Chain MiddlewareUtils.
Variables max_requests window_seconds : Z.
Hypothesis max_nonneg : 0 <= max_requests.
Hypothesis window_pos : 0 < window_seconds.

Lemma filter_shorter (P : Z -> Prop) `{forall t, Decision (P t)} (l : list Z) :
  (length (filter P l) <= length l)%nat.
Proof. apply length_filter. Qed.

Lemma window_filter_twice (T' now : Z) (l : list Z) :
  T' <= now ->
  filter (fun t => now - t < window_seconds) (filter (fun t => T' - t < window_seconds) l)
  = filter (fun t => now - t < window_seconds) l.
Proof.
  intros HT. induction l as [|t l IH]; [reflexivity|].
  destruct (decide (T' - t < window_seconds)) as [Hin|Hout].
  - rewrite (filter_cons_True (fun t => T' - t < window_seconds)) by exact Hin.
    destruct (decide (now - t < window_seconds)) as [Hn|Hn].
    + rewrite !(filter_cons_True (fun t => now - t < window_seconds)) by exact Hn.
      f_equal. exact IH.
    + rewrite !(filter_cons_False (fun t => now - t < window_seconds)) by exact Hn.
      exact IH.
  - rewrite (filter_cons_False (fun t => T' - t < window_seconds)) by exact Hout.
    rewrite (filter_cons_False (fun t => now - t < window_seconds)) by lia.
    exact IH.
Qed.

Lemma limiter_inv_mono (clients : gmap string (list Z)) (adm : string -> list Z) (T T2 : Z) :
  T <= T2 ->
  limiter_inv max_requests window_seconds clients adm T ->
  limiter_inv max_requests window_seconds clients adm T2.
Proof.
  intros HT Hinv ip. destruct (Hinv ip) as [Hle Hrec]. split.
  - intros t Ht. specialize (Hle t Ht). lia.
  - destruct (clients !! ip) as [record|]; [|exact Hrec].
    destruct Hrec as (Hlen & T' & HT' & Heq). split; [exact Hlen|].
    exists T'. split; [lia | exact Heq].
Qed.

(** The record the limiter works on after its filter is the list of the
    client's admitted time stamps inside the window. *)
Lemma filtered_record (clients : gmap string (list Z)) (adm : string -> list Z)
    (now : Z) (ip : string) :
  limiter_inv max_requests window_seconds clients adm now ->
  filter (fun t => now - t < window_seconds) (default [] (clients !! ip))
  = filter (fun t => now - t < window_seconds) (adm ip)
  /\ Z.of_nat (length (filter (fun t => now - t < window_seconds) (adm ip))) <= max_requests.
Proof.
  intros Hinv. destruct (Hinv ip) as [_ Hrec].
  destruct (clients !! ip) as [record|]; simpl.
  - destruct Hrec as (Hlen & T' & HT' & ->).
    rewrite window_filter_twice by exact HT'. split; [reflexivity|].
    rewrite <- (window_filter_twice T' now) by exact HT'.
    pose proof (filter_shorter (fun t => now - t < window_seconds)
                  (filter (fun t => T' - t < window_seconds) (adm ip))). lia.
  - rewrite Hrec. split; [reflexivity | simpl; lia].
Qed.

(** One call of the limiter. *)
Lemma rate_limiter_step (clients : gmap string (list Z)) (adm : string -> list Z)
    (now : Z) (req : Request) :
  limiter_inv max_requests window_seconds clients adm now ->
  let ip := client_ip_of req in
  let in_window := filter (fun t => now - t < window_seconds) (adm ip) in
  let after := rate_limiter max_requests window_seconds clients now req in
  (Z.of_nat (length in_window) < max_requests ->
     after.2 = limiter_pass max_requests window_seconds now (length in_window)
     /\ after.1 !! ip = Some (in_window ++ [now])%list)
  /\ (max_requests <= Z.of_nat (length in_window) ->
        after.2 = limiter_reject max_requests window_seconds
        /\ after.1 !! ip = Some in_window)
  /\ limiter_inv max_requests window_seconds after.1
       (fun ip' => (adm ip' ++ if reaches_next after.2 && bool_decide (ip = ip')
                               then [now] else [])%list) now.
Proof.
  intros Hinv ip in_window after.
  destruct (filtered_record clients adm now ip Hinv) as [Hrec Hlen].
  fold in_window in Hrec, Hlen.
  assert (Hfil : forall base : gmap string (list Z), base !! ip = clients !! ip \/
                   (clients !! ip = None /\ base !! ip = Some []) ->
                 filter (fun t => now - t < window_seconds) (default [] (base !! ip))
                 = in_window).
  { intros base [Hb|[Hnone Hb]]; rewrite Hb; [exact Hrec|].
    rewrite Hnone in Hrec. exact Hrec. }
  unfold after, rate_limiter. fold ip.
  set (clients_a := if bool_decide (is_Some (clients !! ip)) then clients
                    else <[ip := []]> clients).
  assert (Ha : clients_a !! ip = clients !! ip
               \/ (clients !! ip = None /\ clients_a !! ip = Some [])).
  { unfold clients_a. destruct (clients !! ip) as [record|] eqn:Hc.
    - rewrite bool_decide_eq_true_2 by (eexists; reflexivity). left. exact Hc.
    - rewrite bool_decide_eq_false_2 by (intros [x Hx]; discriminate).
      right. split; [reflexivity | apply lookup_insert_eq]. }
  assert (Hother : forall ip', ip <> ip' -> clients_a !! ip' = clients !! ip').
  { intros ip' Hne. unfold clients_a.
    destruct (bool_decide (is_Some (clients !! ip))); [reflexivity|].
    apply lookup_insert_ne. exact Hne. }
  rewrite (Hfil clients_a Ha). rewrite lookup_insert_eq. simpl.
  destruct (decide (Z.of_nat (length in_window) >= max_requests)) as [Hfull|Hroom].
  - rewrite bool_decide_eq_true_2 by exact Hfull. simpl.
    split; [intros; lia|]. split.
    + intros _. split; [reflexivity | apply lookup_insert_eq].
    + intros ip'. destruct (Hinv ip') as [Hle Hold]. rewrite app_nil_r.
      split; [exact Hle|].
      destruct (decide (ip = ip')) as [<-|Hne].
      * rewrite lookup_insert_eq. split; [exact Hlen|].
        exists now. split; [lia | reflexivity].
      * rewrite lookup_insert_ne, Hother by exact Hne. exact Hold.
  - rewrite bool_decide_eq_false_2 by exact Hroom. simpl.
    rewrite lookup_insert_eq. simpl. rewrite length_app. simpl.
    split.
    + intros _. split; [|reflexivity].
      unfold limiter_pass. repeat f_equal; lia.
    + split; [intros; lia|].
      intros ip'. destruct (Hinv ip') as [Hle Hold].
      destruct (decide (ip = ip')) as [<-|Hne].
      * rewrite bool_decide_eq_true_2 by reflexivity. rewrite lookup_insert_eq.
        split.
        -- intros t Ht. apply in_app_or in Ht as [Ht|[<-|[]]]; [apply Hle; exact Ht | lia].
        -- split; [rewrite length_app; simpl; lia|].
           exists now. split; [lia|].
           rewrite filter_app. fold in_window.
           rewrite (filter_cons_True _ now) by lia. reflexivity.
      * rewrite bool_decide_eq_false_2 by exact Hne. rewrite app_nil_r.
        split; [exact Hle|].
        rewrite !lookup_insert_ne, Hother by exact Hne. exact Hold.
Qed.

(** A sequence of calls in the order of the clock keeps the invariant. *)
Lemma serve_inv (before : list (Z * Request)) (clients : gmap string (list Z))
    (adm : string -> list Z) (now : Z) :
  StronglySorted Z.le (before.*1 ++ [now]) ->
  limiter_inv max_requests window_seconds clients adm (hd now before.*1) ->
  limiter_inv max_requests window_seconds
    (serve max_requests window_seconds clients before).1
    (fun ip => (adm ip ++ admitted max_requests window_seconds ip clients before)%list)
    now.
Proof.
  revert clients adm. induction before as [|[t1 r1] before IH]; intros clients adm Hs Hinv.
  - simpl in *. intros ip. rewrite app_nil_r. apply Hinv.
  - simpl in Hs, Hinv. apply StronglySorted_inv in Hs as [Hs Hall].
    pose proof (rate_limiter_step clients adm t1 r1 Hinv) as (_ & _ & Hstep).
    simpl. destruct (rate_limiter max_requests window_seconds clients t1 r1)
      as [clients1 p] eqn:Hrl. simpl in Hstep.
    assert (Hhd : t1 <= hd now before.*1).
    { destruct before as [|[t2 r2] before]; simpl in *.
      - apply Forall_cons in Hall as [H _]. exact H.
      - apply Forall_cons in Hall as [H _]. exact H. }
    specialize (IH clients1 _ Hs (limiter_inv_mono _ _ _ _ Hhd Hstep)).
    destruct (serve max_requests window_seconds clients1 before) as [clients2 ps] eqn:Hsv.
    simpl in *. intros ip. specialize (IH ip).
    cbv beta in IH. rewrite <- app_assoc in IH. exact IH.
Qed.
End LimiterFacts.

(** C10: calls of one rate limiter in the order of the clock, with
    [0 <= max_requests] and [0 < window_seconds].  At each call the limiter
    counts the calls of the same client that it has handed to [next] and
    whose time stamps are inside the window.  With fewer than [max_requests]
    of them it sets the three headers, [X-RateLimit-Remaining] being
    [max_requests] minus the admitted calls, this one included, and calls
    [next]; the record of the client becomes those time stamps and the
    present one.  Otherwise it answers 429 and does not call [next]; the
    record is those time stamps.  In both cases the record holds at most
    [max_requests] time stamps, all of the last [window_seconds]. *)
Theorem rate_limiter_window (max_requests window_seconds : Z)
    (before : list (Z * MiddlewareUtils.Request)) (now : Z) (req : MiddlewareUtils.Request) :
  0 <= max_requests ->
  0 < window_seconds ->
  StronglySorted Z.le (before.*1 ++ [now]) ->
  let ip := MiddlewareUtils.client_ip_of req in
  let clients := (MiddlewareUtils.serve max_requests window_seconds ∅ before).1 in
  let in_window :=
    filter (fun t => now - t < window_seconds)
      (admitted max_requests window_seconds ip ∅ before) in
  let after := MiddlewareUtils.rate_limiter max_requests window_seconds clients now req in
  (Z.of_nat (length in_window) < max_requests ->
     after.2 = limiter_pass max_requests window_seconds now (length in_window)
     /\ after.1 !! ip = Some (in_window ++ [now])%list)
  /\ (max_requests <= Z.of_nat (length in_window) ->
        after.2 = limiter_reject max_requests window_seconds
        /\ after.1 !! ip = Some in_window)
  /\ (forall record, after.1 !! ip = Some record ->
        Z.of_nat (length record) <= max_requests
        /\ forall t, In t record -> now - window_seconds < t <= now).
Proof.
  intros Hmax Hwin Hsorted ip clients in_window after.
  assert (Hinv : limiter_inv max_requests window_seconds clients
                   (fun ip => admitted max_requests window_seconds ip ∅ before) now).
  { apply (serve_inv max_requests window_seconds Hmax Hwin before ∅ (fun _ => []) now Hsorted).
    intros ip'. split; [intros t []|]. rewrite lookup_empty. reflexivity. }
  pose proof (rate_limiter_step max_requests window_seconds Hmax Hwin clients _ now req Hinv)
    as (Hpass & Hreject & Hnext).
  fold ip in Hpass, Hreject, Hnext. fold in_window in Hpass, Hreject. fold after in Hpass, Hreject, Hnext.
  split; [exact Hpass|]. split; [exact Hreject|].
  intros record Hrecord.
  destruct (filtered_record max_requests window_seconds Hmax clients _ now ip Hinv) as [_ Hlen].
  fold in_window in Hlen.
  assert (Hold : forall t, In t in_window -> now - window_seconds < t <= now).
  { intros t Ht. apply list_elem_of_In, list_elem_of_filter in Ht as [Hw Ht].
    destruct (Hinv ip) as [Hle _]. specialize (Hle t (proj1 (list_elem_of_In _ _) Ht)). lia. }
  destruct (Z_lt_le_dec (Z.of_nat (length in_window)) max_requests) as [Hroom|Hfull].
  - destruct (Hpass Hroom) as [_ Hrec]. rewrite Hrec in Hrecord. injection Hrecord as <-.
    split; [rewrite length_app; simpl; lia|].
    intros t Ht. apply in_app_or in Ht as [Ht|[<-|[]]]; [apply Hold; exact Ht | lia].
  - destruct (Hreject Hfull) as [_ Hrec]. rewrite Hrec in Hrecord. injection Hrecord as <-.
    split; [exact Hlen | exact Hold].
Qed.

Lemma rate_limiter_window_witness :
  (MiddlewareUtils.rate_limiter 2 10
     (MiddlewareUtils.serve 2 10 ∅ sample_calls).1 7 (client "10.0.0.1")).2
  = limiter_reject 2 10
  /\ (MiddlewareUtils.rate_limiter 2 10
        (MiddlewareUtils.serve 2 10 ∅ sample_calls).1 7 (client "10.0.0.1")).1
     !! "10.0.0.1" = Some [0; 3].
Proof.
  assert (H0 : 0 <= 2) by lia.
  assert (H1 : 0 < 10) by lia.
  assert (Hs : StronglySorted Z.le (sample_calls.*1 ++ [7])).
  { simpl. repeat (constructor; try lia). }
  destruct (rate_limiter_window 2 10 sample_calls 7 (client "10.0.0.1") H0 H1 Hs)
    as (_ & Hreject & _).
  apply Hreject. vm_compute. discriminate.
Defined.

(** The same client is let through again once a time stamp has left the
    window, and another client is counted apart. *)
Example rate_limiter_readmits :
  (MiddlewareUtils.rate_limiter 2 10
     (MiddlewareUtils.serve 2 10 ∅ sample_calls).1 11 (client "10.0.0.1")).2
  = limiter_pass 2 10 11 1
  /\ (MiddlewareUtils.rate_limiter 2 10
        (MiddlewareUtils.serve 2 10 ∅ sample_calls).1 7 (client "10.0.0.2")).2
     = limiter_pass 2 10 7 1.
Proof. split; vm_compute; reflexivity. Qed.
(* ===================================================================== *)
(** ** The library models on sample inputs *)
(* ===================================================================== *)

Example normpath_ex1 : PosixPath.normpath "/srv/www/../www-private/key.txt" = "/srv/www-private/key.txt".
Proof. reflexivity. Qed.
Example normpath_ex2 : PosixPath.normpath "a//b/./c/../../.." = ".".
Proof. reflexivity. Qed.
Example normpath_ex3 : PosixPath.normpath "../a/../../b" = "../../b".
Proof. reflexivity. Qed.
Example normpath_ex4 : PosixPath.normpath "//a/../.." = "//".
Proof. reflexivity. Qed.
Example splitext_ex1 : PosixPath.splitext "/a/b.tar.GZ" = ("/a/b.tar", ".GZ").
Proof. reflexivity. Qed.
Example splitext_ex2 : PosixPath.splitext "/a/.bashrc" = ("/a/.bashrc", "").
Proof. reflexivity. Qed.
Example split_ex : Str.split "/" "/a//b" = [""; "a"; ""; "b"].
Proof. reflexivity. Qed.
Example str_ex : Str.of_Z (-42) = "-42" /\ Str.lower "X-API-Key" = "x-api-key".
Proof. split; reflexivity. Qed.
Example parse_qsl_ex :
  UrlParse.parse_qsl "a=1&a=2&b=&c&d=%41+x&=5&e=%zz"
  = [("a", "1"); ("a", "2"); ("d", "A x"); ("", "5"); ("e", "%zz")].
Proof. reflexivity. Qed.

(* ===================================================================== *)
(** ** The headers of the response object *)
(* ===================================================================== *)

Section HeaderDictFacts.
Import Chain SimpleMiddleware.

Lemma dict_get_set_other (k k' v : string) (d : list (string * string)) :
  k' <> k -> dict_get k' (dict_set k v d) = dict_get k' d.
Proof.
  intros Hne. induction d as [|[a b] d IH]; simpl.
  - destruct (String.eqb_spec k k'); [congruence | reflexivity].
  - destruct (String.eqb_spec a k) as [->|Hak]; simpl.
    + destruct (String.eqb_spec k k'); [congruence | reflexivity].
    + destruct (String.eqb_spec a k'); [reflexivity | exact IH].
Qed.

Lemma dict_set_names (k v : string) (d : list (string * string)) :
  (dict_set k v d).*1 = if bool_decide (k ∈ d.*1) then d.*1 else (d.*1 ++ [k])%list.
Proof.
  induction d as [|[a b] d IH].
  - reflexivity.
  - cbn [dict_set]. destruct (String.eqb_spec a k) as [->|Hak].
    + rewrite fmap_cons. simpl fst.
      rewrite bool_decide_eq_true_2 by left. reflexivity.
    + rewrite !fmap_cons, IH. simpl fst. destruct (decide (k ∈ d.*1)) as [Hin|Hout].
      * rewrite !bool_decide_eq_true_2; [reflexivity | right; exact Hin | exact Hin].
      * rewrite !bool_decide_eq_false_2; [reflexivity | | exact Hout].
        intros Hin. apply elem_of_cons in Hin as [->|Hin]; [congruence | contradiction].
Qed.

Lemma dict_set_nodup (k v : string) (d : list (string * string)) :
  NoDup d.*1 -> NoDup (dict_set k v d).*1.
Proof.
  intros Hd. rewrite dict_set_names. destruct (decide (k ∈ d.*1)) as [Hin|Hout].
  - rewrite bool_decide_eq_true_2 by exact Hin. exact Hd.
  - rewrite bool_decide_eq_false_2 by exact Hout.
    apply NoDup_app. split; [exact Hd|]. split.
    + intros x Hx Hk. apply list_elem_of_singleton in Hk as ->. contradiction.
    + apply NoDup_singleton.
Qed.

Lemma dict_get_in (k v : string) (d : list (string * string)) :
  NoDup d.*1 -> (k, v) ∈ d -> dict_get k d = Some v.
Proof.
  induction d as [|[a b] d IH]; simpl; intros Hd Hin.
  - apply elem_of_nil in Hin as [].
  - apply NoDup_cons in Hd as [Ha Hd].
    apply elem_of_cons in Hin as [Heq|Hin].
    + injection Heq as <- <-. rewrite String.eqb_refl. reflexivity.
    + destruct (String.eqb_spec a k) as [->|Hak]; [|apply IH; assumption].
      exfalso. apply Ha. apply (list_elem_of_fmap_2 fst) in Hin. exact Hin.
Qed.

Lemma dict_get_elem (k v : string) (d : list (string * string)) :
  dict_get k d = Some v -> (k, v) ∈ d.
Proof.
  induction d as [|[a b] d IH]; simpl; [discriminate|].
  destruct (String.eqb_spec a k) as [->|Hak].
  - intros [= ->]. left.
  - intros H. right. apply IH. exact H.
Qed.
End HeaderDictFacts.

(** X1: [set_header] followed by a lookup gives the new value for the name
    set and the old binding for every other name; the names keep their order,
    a new name goes to the end, and status and connection output are
    untouched. *)
Theorem set_header_lookup (name value other : string) (w : SimpleMiddleware.World) :
  SimpleMiddleware.dict_get other
    (SimpleMiddleware.Response.headers
       (SimpleMiddleware.res (SimpleMiddleware.Response_set_header name value w)))
  = (if String.eqb other name then Some value
     else SimpleMiddleware.dict_get other
            (SimpleMiddleware.Response.headers (SimpleMiddleware.res w)))
  /\ header_names (SimpleMiddleware.Response_set_header name value w)
     = (if bool_decide (name ∈ header_names w) then header_names w
        else (header_names w ++ [name])%list)
  /\ SimpleMiddleware.Response.status_code
       (SimpleMiddleware.res (SimpleMiddleware.Response_set_header name value w))
     = SimpleMiddleware.Response.status_code (SimpleMiddleware.res w)
  /\ SimpleMiddleware.wire (SimpleMiddleware.Response_set_header name value w)
     = SimpleMiddleware.wire w.
Proof.
  split; [|split; [|split; reflexivity]].
  - simpl. destruct (String.eqb_spec other name) as [->|Hne].
    + apply dict_get_set.
    + apply dict_get_set_other. exact Hne.
  - unfold header_names. simpl. apply dict_set_names.
Qed.

(** X4: on an open connection, with distinct header names on the response
    object, [res.json] writes one response whose only [Content-Type] header
    is [application/json], whatever content type was set before, and whose
    other headers are those of the response object. *)
Theorem json_sets_content_type (d : json) (w : SimpleMiddleware.World) :
  SimpleMiddleware.connected w = true ->
  NoDup (header_names w) ->
  exists sent w',
    SimpleMiddleware.Response_json d w = (Chain.Val Chain.RRes, w')
    /\ SimpleMiddleware.wire w'
       = (SimpleMiddleware.wire w
          ++ render (SimpleMiddleware.Response.status_code (SimpleMiddleware.res w),
                     sent, Chain.JsonText d))%list
    /\ (forall value, ("Content-Type", value) ∈ sent <-> value = "application/json")
    /\ (forall name value, name <> "Content-Type" ->
          (name, value) ∈ sent
          <-> (name, value) ∈ SimpleMiddleware.Response.headers (SimpleMiddleware.res w)).
Proof.
  intros Hc Hd.
  exists (SimpleMiddleware.dict_set "Content-Type" "application/json"
            (SimpleMiddleware.Response.headers (SimpleMiddleware.res w))).
  eexists. unfold SimpleMiddleware.Response_json, SimpleMiddleware.Response_send.
  simpl. rewrite Hc. split; [reflexivity|]. split; [reflexivity|].
  pose proof (dict_set_nodup "Content-Type" "application/json" _ Hd) as Hd'.
  split.
  - intros value. split.
    + intros Hin. apply (dict_get_in _ _ _ Hd') in Hin.
      rewrite dict_get_set in Hin. congruence.
    + intros ->. apply dict_get_elem, dict_get_set.
  - intros name value Hne. split.
    + intros Hin. apply (dict_get_in _ _ _ Hd') in Hin.
      rewrite dict_get_set_other in Hin by exact Hne. apply dict_get_elem. exact Hin.
    + intros Hin. apply (dict_get_in _ _ _ Hd) in Hin.
      apply dict_get_elem. rewrite dict_get_set_other by exact Hne. exact Hin.
Qed.

Lemma json_sets_content_type_witness :
  exists sent w',
    SimpleMiddleware.Response_json (JDict []) fresh_world = (Chain.Val Chain.RRes, w')
    /\ SimpleMiddleware.wire w'
       = (SimpleMiddleware.wire fresh_world
          ++ render (SimpleMiddleware.Response.status_code
                       (SimpleMiddleware.res fresh_world),
                     sent, Chain.JsonText (JDict [])))%list
    /\ (forall value, ("Content-Type", value) ∈ sent <-> value = "application/json")
    /\ (forall name value, name <> "Content-Type" ->
          (name, value) ∈ sent
          <-> (name, value) ∈ SimpleMiddleware.Response.headers
                                (SimpleMiddleware.res fresh_world)).
Proof.
  apply (json_sets_content_type (JDict []) fresh_world).
  - reflexivity.
  - vm_compute. apply NoDup_singleton.
Defined.

(* ===================================================================== *)
(** ** The logger and the authentication of [simple_middleware.py] *)
(* ===================================================================== *)


Section AuthFacts.
Import Chain SimpleMiddleware.

End AuthFacts.



(* ===================================================================== *)
(** ** [Request.__init__]: query, path and body *)
(* ===================================================================== *)

Section RequestFacts.
Import UrlParse SimpleMiddleware.

Lemma unquote_nonempty (s : string) : s <> "" -> unquote s <> "".
Proof.
  destruct s as [|c s]; [congruence|]. intros _. simpl.
  destruct (Ascii.eqb c "%"); [|discriminate].
  destruct s as [|a [|b rest]]; try discriminate.
  destruct (hex_val a); [|discriminate]. destruct (hex_val b); discriminate.
Qed.

Lemma replace_char_nonempty (a b : ascii) (s : string) :
  s <> "" -> Str.replace_char a b s <> "".
Proof. destruct s; [congruence | discriminate]. Qed.

Lemma parse_field_value (field n v : string) :
  parse_field field = Some (n, v) -> v <> "".
Proof.
  unfold parse_field. destruct (String.eqb field ""); [discriminate|].
  destruct (Str.split1 "=" field) as [n0 [v0|]]; [|discriminate].
  destruct (String.eqb_spec v0 "") as [|Hv]; [discriminate|].
  intros [= _ <-]. apply unquote_nonempty, replace_char_nonempty. exact Hv.
Qed.

Lemma parse_qsl_values (qs n v : string) : (n, v) ∈ parse_qsl qs -> v <> "".
Proof.
  unfold parse_qsl. intros Hin. apply list_elem_of_omap in Hin as (field & _ & Hf).
  exact (parse_field_value field n v Hf).
Qed.

Lemma first_values_from_pairs (qs k v : string) :
  first_values qs !! k = Some v -> (k, v) ∈ parse_qsl qs.
Proof.
  rewrite first_values_lookup.
  destruct (List.find _ (parse_qsl qs)) as [[n x]|] eqn:Hf; [|discriminate].
  intros [= <-]. apply List.find_some in Hf as [Hin Hk].
  apply bool_decide_eq_true_1 in Hk. simpl in Hk. subst n.
  apply list_elem_of_In. exact Hin.
Qed.

Lemma split1_spec (c : ascii) (s a : string) (b : option string) :
  Str.split1 c s = (a, b) ->
  Str.contains (String c "") a = false
  /\ s = a ++ match b with
              | Some r => String c r
              | None => ""
              end.
Proof.
  revert a b. induction s as [|d s IH]; simpl; intros a b.
  - intros [= <- <-]. split; reflexivity.
  - destruct (Ascii.eqb_spec d c) as [->|Hdc].
    + intros [= <- <-]. split; reflexivity.
    + destruct (Str.split1 c s) as [a0 b0]. intros [= <- <-].
      destruct (IH a0 b0 eq_refl) as [Hc Hs]. split.
      * simpl. rewrite Hc. destruct (ascii_dec c d) as [->|_]; [congruence|].
        reflexivity.
      * rewrite Hs at 1. reflexivity.
Qed.
End RequestFacts.

(** X7: the query of a request never binds a key to the empty text: a field
    with a blank value ([?a=]) or without [=] is dropped, so a key that
    is bound is bound to a text of at least one character. *)
Theorem query_has_no_blank_value (handler_path k v : string) :
  SimpleMiddleware.parse_query handler_path !! k = Some v -> v <> "".
Proof.
  unfold SimpleMiddleware.parse_query.
  destruct (Str.split1 "?" handler_path) as [before [qs|]].
  - intros H. apply first_values_from_pairs in H. exact (parse_qsl_values qs k v H).
  - rewrite lookup_empty. discriminate.
Qed.

Lemma query_has_no_blank_value_witness : "1" <> "".
Proof.
  apply (query_has_no_blank_value "/search?a=1&b=" "a" "1").
  unfold SimpleMiddleware.parse_query. simpl Str.split1. cbv iota beta.
  rewrite first_values_lookup. reflexivity.
Defined.

(** X8: the path of a request is the text of the request target before the
    first [?] and holds no [?]; the target is that path alone, with an empty
    query, or the path, a [?] and the query string the query was parsed
    from. *)
Theorem request_path_and_query {lib : PyLib} (handler : SimpleMiddleware.HandlerIn)
    (req : SimpleMiddleware.Request.t) :
  SimpleMiddleware.Request_init handler = inr req ->
  Str.contains "?" (SimpleMiddleware.Request.path req) = false
  /\ ((SimpleMiddleware.hpath handler = SimpleMiddleware.Request.path req
       /\ SimpleMiddleware.Request.query req = ∅)
      \/ exists qs,
           SimpleMiddleware.hpath handler
           = SimpleMiddleware.Request.path req ++ "?" ++ qs
           /\ SimpleMiddleware.Request.query req = UrlParse.first_values qs).
Proof.
  unfold SimpleMiddleware.Request_init.
  destruct (SimpleMiddleware.read_body _ _) as [e|[body body_raw]]; [discriminate|].
  intros [= <-]. simpl. unfold SimpleMiddleware.parse_query.
  destruct (Str.split1 "?" (SimpleMiddleware.hpath handler)) as [a b] eqn:Hsplit.
  destruct (split1_spec _ _ _ _ Hsplit) as [Hc Hs]. simpl.
  split; [exact Hc|]. destruct b as [qs|].
  - right. exists qs. split; [exact Hs | reflexivity].
  - left. split; [|reflexivity]. rewrite Hs.
    clear. induction a as [|c a IH]; [reflexivity|].
    change (String c (a ++ "") = String c a). f_equal. exact IH.
Qed.

Lemma request_path_and_query_witness :
  exists req,
    SimpleMiddleware.Request_init (lib := plain_lib) (get_handler "/a?x=1" []) = inr req
    /\ Str.contains "?" (SimpleMiddleware.Request.path req) = false.
Proof.
  eexists. split; [reflexivity|].
  apply (request_path_and_query (lib := plain_lib) (get_handler "/a?x=1" [])).
  reflexivity.
Defined.

(** X9: a request whose [Content-Length] header is not the text of an
    integer never reaches the chain: building the request raises, no element
    is entered, and on an open connection the 500 response is the only thing
    written. *)
Theorem bad_content_length_gets_500 {lib : PyLib}
    (chain : list SimpleMiddleware.middleware) (name : string)
    (handler : SimpleMiddleware.HandlerIn) (w : SimpleMiddleware.World) (text : string) :
  SimpleMiddleware.lower_keys (SimpleMiddleware.hheaders handler) !! "content-length"
  = Some text ->
  py_int text = None ->
  SimpleMiddleware.connected w = true ->
  let r := SimpleMiddleware.do_method chain name handler w in
  r.1.1 = Chain.Val Chain.RNone
  /\ (exists e, r.2 = [Chain.HandleError e] /\ exn_type e = "ValueError"
                /\ SimpleMiddleware.wire r.1.2
                   = (SimpleMiddleware.wire w ++ error_500 e)%list).
Proof.
  intros Hlen Hint Hc r. unfold r, SimpleMiddleware.do_method,
    SimpleMiddleware.process_request, SimpleMiddleware.Request_init,
    SimpleMiddleware.read_body.
  rewrite Hlen, Hint.
  match goal with |- context [SimpleMiddleware.handle_error ?e ?w0] =>
    destruct (handle_error_returns e w0) as (w' & Hh & Hwire); rewrite Hh;
    specialize (Hwire Hc)
  end.
  simpl. split; [reflexivity|]. eexists. split; [reflexivity|].
  split; [reflexivity | exact Hwire].
Qed.

Lemma bad_content_length_gets_500_witness :
  let r := SimpleMiddleware.do_method (lib := plain_lib)
             (SimpleMiddleware.middleware_chain leaky_fs) "POST"
             {| SimpleMiddleware.command := "POST";
                SimpleMiddleware.hpath := "/echo";
                SimpleMiddleware.hheaders := [("Content-Length", "ten")];
                SimpleMiddleware.rfile := "0123456789" |}
             fresh_world in
  r.1.1 = Chain.Val Chain.RNone
  /\ (exists e, r.2 = [Chain.HandleError e] /\ exn_type e = "ValueError"
                /\ SimpleMiddleware.wire r.1.2
                   = (SimpleMiddleware.wire fresh_world ++ error_500 e)%list).
Proof.
  apply (bad_content_length_gets_500 (lib := plain_lib)
           (SimpleMiddleware.middleware_chain leaky_fs) "POST"
           {| SimpleMiddleware.command := "POST";
              SimpleMiddleware.hpath := "/echo";
              SimpleMiddleware.hheaders := [("Content-Length", "ten")];
              SimpleMiddleware.rfile := "0123456789" |}
           fresh_world "ten").
  - vm_compute. reflexivity.
  - vm_compute. reflexivity.
  - reflexivity.
Defined.

(* ===================================================================== *)
(** ** [middleware_utils.py]: cors, auth, validation, security headers *)
(* ===================================================================== *)

Section UtilsFacts.
Import Chain SimpleMiddleware.

Lemma run_next_ret (i : nat) (next : World -> result) (w : World) :
  run i (Next Ret) next w
  = (let '(o, w', evs) := next w in (o, w', CallNext i :: evs)).
Proof.
  simpl. destruct (next w) as [[[v|e] w'] evs]; [rewrite app_nil_r|]; reflexivity.
Qed.

Lemma run_changes_then (i : nat) (changes : list mutation) (p : Prog)
    (next : World -> result) (w : World) :
  run i (foldr mutate p changes) next w = run i p next (foldl apply_mutation w changes).
Proof.
  revert w. induction changes as [|[code|name value] changes IH]; intros w; simpl;
    [reflexivity | apply IH | apply IH].
Qed.

Lemma last_set_from (name : string) (changes : list mutation) (acc : option string) :
  foldl (fun acc m => match m with
                      | SetField n v => if String.eqb n name then Some v else acc
                      | SetStatus _ => acc
                      end) acc changes
  = match last_set name changes with
    | Some v => Some v
    | None => acc
    end.
Proof.
  unfold last_set. revert acc.
  induction changes as [|[code|n v] changes IH]; intros acc; simpl.
  - reflexivity.
  - apply IH.
  - rewrite (IH (if String.eqb n name then Some v else acc)).
    rewrite (IH (if String.eqb n name then Some v else None)).
    destruct (foldl _ None changes); [reflexivity|].
    destruct (String.eqb n name); reflexivity.
Qed.

Lemma changes_lookup (changes : list mutation) (w : World) (name : string) :
  dict_get name (Response.headers (res (foldl apply_mutation w changes)))
  = match last_set name changes with
    | Some v => Some v
    | None => dict_get name (Response.headers (res w))
    end.
Proof.
  revert w. induction changes as [|[code|n v] changes IH]; intros w.
  - reflexivity.
  - simpl foldl. rewrite IH. unfold last_set at 2. simpl foldl.
    rewrite last_set_from. destruct (last_set name changes); reflexivity.
  - simpl foldl. rewrite IH. unfold last_set at 2. simpl foldl.
    rewrite last_set_from. destruct (last_set name changes); [reflexivity|].
    simpl. destruct (String.eqb_spec n name) as [->|Hne].
    + apply dict_get_set.
    + apply dict_get_set_other. congruence.
Qed.

Lemma changes_status (changes : list mutation) (w : World) :
  (forall code, ~ In (SetStatus code) changes) ->
  Response.status_code (res (foldl apply_mutation w changes))
  = Response.status_code (res w).
Proof.
  revert w. induction changes as [|[code|n v] changes IH]; intros w Hno; simpl.
  - reflexivity.
  - exfalso. apply (Hno code). left. reflexivity.
  - rewrite IH; [reflexivity|]. intros code Hin. apply (Hno code). right. exact Hin.
Qed.
End UtilsFacts.

Section CorsFacts.
Import Chain SimpleMiddleware.

Lemma cors_shape (origin : string) (methods headers : option (list string))
    (credentials : bool) (req : MoreUtils.Req) :
  MoreUtils.cors origin methods headers credentials req
  = foldr mutate
      (if String.eqb (MiddlewareUtils.method (MoreUtils.base req)) "OPTIONS"
       then Status 204 (Send (Text "") (Ret RRes))
       else Next Ret)
      (cors_changes origin methods headers credentials).
Proof. unfold MoreUtils.cors, cors_changes. destruct credentials; reflexivity. Qed.
End CorsFacts.

(** X10: [cors] first binds the three allow headers (and
    [Access-Control-Allow-Credentials] to [true] when asked to, leaving it
    alone otherwise) over whatever was bound.  An [OPTIONS] request is then
    answered at once with status 204, those headers and an empty body, and
    [next] is not called; every other request goes to [next] with the headers
    set. *)
Theorem cors_preflight (origin : string) (methods headers : option (list string))
    (credentials : bool) (req : MoreUtils.Req) (k : nat)
    (next : SimpleMiddleware.World -> SimpleMiddleware.result)
    (w : SimpleMiddleware.World) :
  SimpleMiddleware.connected w = true ->
  let p := MoreUtils.cors origin methods headers credentials req in
  let w1 := foldl apply_mutation w (cors_changes origin methods headers credentials) in
  let bound name :=
    SimpleMiddleware.dict_get name
      (SimpleMiddleware.Response.headers (SimpleMiddleware.res w1)) in
  SimpleMiddleware.run k p next w
  = (if String.eqb (MiddlewareUtils.method (MoreUtils.base req)) "OPTIONS"
     then (Chain.Val Chain.RRes,
           SimpleMiddleware.with_wire
             (SimpleMiddleware.wire w
              ++ render (204,
                         SimpleMiddleware.Response.headers (SimpleMiddleware.res w1),
                         Chain.Text ""))%list
             (SimpleMiddleware.Response_status 204 w1),
           [])
     else let '(o, w2, evs) := next w1 in (o, w2, Chain.CallNext k :: evs))
  /\ reaches_next p = negb (String.eqb (MiddlewareUtils.method (MoreUtils.base req)) "OPTIONS")
  /\ bound "Access-Control-Allow-Origin" = Some origin
  /\ bound "Access-Control-Allow-Methods"
     = Some (Str.join ", " (default ["GET"; "POST"; "PUT"; "DELETE"; "OPTIONS"] methods))
  /\ bound "Access-Control-Allow-Headers"
     = Some (Str.join ", " (default ["Content-Type"; "Authorization"] headers))
  /\ bound "Access-Control-Allow-Credentials"
     = (if credentials then Some "true"
        else SimpleMiddleware.dict_get "Access-Control-Allow-Credentials"
               (SimpleMiddleware.Response.headers (SimpleMiddleware.res w))).
Proof.
  intros Hc p w1 bound. split; [|split].
  - unfold p. rewrite cors_shape, run_changes_then. fold w1.
    destruct (String.eqb (MiddlewareUtils.method (MoreUtils.base req)) "OPTIONS").
    + assert (Hc1 : SimpleMiddleware.connected w1 = true).
      { unfold w1. clear -Hc. revert w Hc.
        induction (cors_changes origin methods headers credentials) as [|[c|n v] l IH];
          intros w Hc; simpl; [exact Hc | apply IH; exact Hc | apply IH; exact Hc]. }
      simpl. unfold SimpleMiddleware.Response_send. simpl. rewrite Hc1.
      assert (Hw1 : SimpleMiddleware.wire w1 = SimpleMiddleware.wire w)
        by apply wire_mutations.
      rewrite Hw1. reflexivity.
    + apply run_next_ret.
  - unfold p. rewrite cors_shape. generalize (cors_changes origin methods headers credentials).
    intros l. induction l as [|[c|n v] l IH]; simpl; try exact IH.
    destruct (String.eqb _ "OPTIONS"); reflexivity.
  - unfold bound, w1. rewrite !changes_lookup. unfold cors_changes.
    destruct credentials; repeat split; reflexivity.
Qed.

Lemma cors_preflight_witness :
  reaches_next (MoreUtils.cors "*" None None false (utils_request "OPTIONS" "/api" ∅))
  = false.
Proof.
  destruct (cors_preflight "*" None None false (utils_request "OPTIONS" "/api" ∅)
              0 stop fresh_world eq_refl) as (_ & H & _).
  exact H.
Defined.

Section UtilsAuthFacts.
Import Chain.

Lemma prefix_then_slice (p h : string) :
  Str.startswith h p = true -> h = p ++ Str.slice_from (String.length p) h.
Proof.
  unfold Str.startswith. revert h. induction p as [|c p IH]; intros h; simpl.
  - intros _. destruct h; reflexivity.
  - destruct h as [|d h]; [discriminate|]. simpl.
    destruct (ascii_dec c d) as [->|]; intros H; [|discriminate H].
    change (String d h = String d (p ++ Str.slice_from (String.length p) h)).
    f_equal. apply IH. exact H.
Qed.

Lemma startswith_app (p s : string) : Str.startswith (p ++ s) p = true.
Proof.
  unfold Str.startswith. induction p as [|c p IH]; simpl.
  - destruct s; reflexivity.
  - change (String c p ++ s) with (String c (p ++ s)). simpl.
    destruct (ascii_dec c c) as [_|Hne]; [exact IH | contradiction].
Qed.

End UtilsAuthFacts.

(** X11: with the strategy [bearer] and a secret, [auth] calls [next]
    exactly for the requests whose header is the text [Bearer ], one space,
    followed by the secret, nothing more and nothing less; for those it sets
    [req.user], and everything else gets a 401 and leaves the request as it
    was. *)
Theorem auth_bearer_exact (secret header_name : string) (req : MoreUtils.Req) :
  (reaches_next (MoreUtils.auth "bearer" (Some secret) header_name req).2 = true
   <-> MiddlewareUtils.get_header (MoreUtils.base req) header_name
       = Some ("Bearer " ++ secret))
  /\ (MoreUtils.auth "bearer" (Some secret) header_name req
      = (MoreUtils.set_user (JDict [("authenticated", JBool true)]) req,
         Chain.Next Chain.Ret)
      \/ exists message,
           MoreUtils.auth "bearer" (Some secret) header_name req
           = (req, MoreUtils.unauthorized message)).
Proof.
  unfold MoreUtils.auth.
  destruct (MiddlewareUtils.get_header (MoreUtils.base req) header_name) as [h|] eqn:Hh;
    simpl.
  - destruct (String.eqb_spec h "") as [->|Hne]; simpl.
    + split; [|right; eexists; reflexivity].
      split; [discriminate | intros [= H]; destruct secret; discriminate].
    + destruct (Str.startswith h "Bearer ") eqn:Hp; simpl.
      * destruct (decide (Some (Str.slice_from 7 h) = Some secret)) as [Heq|Hneq].
        -- rewrite bool_decide_eq_true_2 by exact Heq. simpl.
           split; [|left; reflexivity].
           split; [intros _ | reflexivity].
           injection Heq as <-. f_equal. apply (prefix_then_slice "Bearer " h Hp).
        -- rewrite bool_decide_eq_false_2 by exact Hneq. simpl.
           split; [|right; eexists; reflexivity].
           split; [discriminate|]. intros [= ->]. exfalso. apply Hneq.
           reflexivity.
      * split; [|right; eexists; reflexivity].
        split; [discriminate|]. intros [= ->].
        rewrite (startswith_app "Bearer " secret) in Hp. discriminate.
  - split; [|right; eexists; reflexivity]. split; discriminate.
Qed.

(** X12: [auth] checks the header only for the strategies [bearer] and
    [api-key].  For any other strategy, [basic] included, every request with
    a non-empty header of the configured name goes to [next], whatever the
    header says, and [req.user] is not set. *)
Theorem auth_other_strategy_unchecked (strategy : string) (secret : option string)
    (header_name value : string) (req : MoreUtils.Req) :
  strategy <> "bearer" ->
  strategy <> "api-key" ->
  MiddlewareUtils.get_header (MoreUtils.base req) header_name = Some value ->
  value <> "" ->
  MoreUtils.auth strategy secret header_name req = (req, Chain.Next Chain.Ret).
Proof.
  intros Hb Ha Hh Hv. unfold MoreUtils.auth. rewrite Hh. simpl.
  destruct (String.eqb_spec value "") as [|_]; [contradiction|]. simpl.
  destruct (String.eqb_spec strategy "bearer") as [|_]; [contradiction|].
  destruct (String.eqb_spec strategy "api-key") as [|_]; [contradiction|].
  reflexivity.
Qed.

Lemma auth_other_strategy_unchecked_witness :
  MoreUtils.auth "basic" (Some "s3cret") "authorization"
    (utils_request "GET" "/admin" {[ "authorization" := "anything" ]})
  = (utils_request "GET" "/admin" {[ "authorization" := "anything" ]},
     Chain.Next Chain.Ret).
Proof.
  apply (auth_other_strategy_unchecked "basic" (Some "s3cret") "authorization" "anything").
  - discriminate.
  - discriminate.
  - reflexivity.
  - discriminate.
Defined.

(** X13: with the default [secret=None], the strategies [bearer] and
    [api-key] let no request through: whatever the header, the answer is 401
    and [next] is not called. *)
Theorem auth_without_secret_refuses (strategy header_name : string) (req : MoreUtils.Req) :
  strategy = "bearer" \/ strategy = "api-key" ->
  exists message,
    MoreUtils.auth strategy None header_name req = (req, MoreUtils.unauthorized message).
Proof.
  intros Hs. unfold MoreUtils.auth.
  destruct (Str.is_set (MiddlewareUtils.get_header (MoreUtils.base req) header_name));
    simpl; [|eexists; reflexivity].
  destruct Hs as [->| ->]; simpl.
  - destruct (Str.startswith _ "Bearer "); simpl; eexists; reflexivity.
  - eexists; reflexivity.
Qed.

Lemma auth_without_secret_refuses_witness :
  exists message,
    MoreUtils.auth "api-key" None "x-api-key"
      (utils_request "GET" "/admin" {[ "x-api-key" := "k" ]})
    = (utils_request "GET" "/admin" {[ "x-api-key" := "k" ]},
       MoreUtils.unauthorized message).
Proof.
  apply (auth_without_secret_refuses "api-key" "x-api-key"). right. reflexivity.
Defined.

Section ValidationFacts.
Import Chain MoreUtils.

Lemma missing_none (what : string) (lookup : string -> option string)
    (names : list (string * rules)) :
  missing what lookup names = []
  <-> Forall (fun nr : string * rules =>
                is_required nr.2 = true -> Str.is_set (lookup nr.1) = true) names.
Proof.
  unfold missing. induction names as [|[n r] names IH]; simpl.
  - split; [constructor | reflexivity].
  - destruct (is_required r) eqn:Hr; simpl.
    + destruct (Str.is_set (lookup n)) eqn:Hs; simpl.
      * rewrite IH. split; [intros H; constructor; [intros _; exact Hs | exact H]|].
        intros H. apply Forall_cons in H as [_ H]. exact H.
      * split; [discriminate|]. intros H. apply Forall_cons in H as [H _].
        simpl in H. rewrite Hr, Hs in H. specialize (H eq_refl). discriminate.
    + rewrite IH. split; [intros H; constructor; [|exact H]|].
      * simpl. rewrite Hr. discriminate.
      * intros H. apply Forall_cons in H as [_ H]. exact H.
Qed.

Lemma missing_fields_none (j : json) (fields : list (string * rules)) :
  missing_fields j fields = inr []
  <-> Forall (fun fr : string * rules =>
                is_required fr.2 = true -> py_in fr.1 j = inr true) fields.
Proof.
  induction fields as [|[f r] fields IH]; simpl.
  - split; [constructor | reflexivity].
  - destruct (is_required r) eqn:Hr.
    + destruct (py_in f j) as [e|[|]] eqn:Hin.
      * split; [discriminate|]. intros H. apply Forall_cons in H as [H _].
        simpl in H. rewrite Hr, Hin in H. specialize (H eq_refl). discriminate.
      * destruct (missing_fields j fields) as [e|errors].
        -- split; [discriminate|]. intros H. apply Forall_cons in H as [_ H].
           apply IH in H. discriminate.
        -- simpl. split.
           ++ intros [= ->]. constructor; [intros _; exact Hin | apply IH; reflexivity].
           ++ intros H. apply Forall_cons in H as [_ H]. apply IH in H. exact H.
      * destruct (missing_fields j fields) as [e|errors].
        -- split; [discriminate|]. intros H. apply Forall_cons in H as [H _].
           simpl in H. rewrite Hr, Hin in H. specialize (H eq_refl). discriminate.
        -- split; [discriminate|]. intros H. apply Forall_cons in H as [H _].
           simpl in H. rewrite Hr, Hin in H. specialize (H eq_refl). discriminate.
    + rewrite IH. split; [intros H; constructor; [|exact H]|].
      * simpl. rewrite Hr. discriminate.
      * intros H. apply Forall_cons in H as [_ H]. exact H.
Qed.

Lemma missing_fields_scalar (j : json) (fields : list (string * rules)) :
  (exists e, py_in "" j = inl e) ->
  Exists (fun fr : string * rules => is_required fr.2 = true) fields ->
  exists e, missing_fields j fields = inl e /\ exn_type e = "TypeError".
Proof.
  intros Hj Hex. induction Hex as [[f r] fields Hr|[f r] fields _ IH]; simpl in *.
  - rewrite Hr. destruct j; destruct Hj as [e0 He0]; try discriminate;
      simpl; eexists; split; reflexivity.
  - destruct IH as (e & He & Ht). destruct (is_required r).
    + destruct j; destruct Hj as [e0 He0]; try discriminate;
        simpl; eexists; split; reflexivity.
    + exists e. split; assumption.
Qed.
End ValidationFacts.

(** X14: [validate_request(schema)] calls [next] exactly when every
    required header and every required query parameter of the schema has a
    non-empty value and, if the schema has body rules and the request has a
    parsed [json], every required body field is in it; a required header that
    is present with an empty value counts as missing. *)
Theorem validate_request_passes_iff (sch : MoreUtils.schema) (req : MoreUtils.Req) :
  MoreUtils.validate_request sch req = Chain.Next Chain.Ret
  <-> Forall (fun nr : string * MoreUtils.rules =>
                MoreUtils.is_required nr.2 = true ->
                Str.is_set (MiddlewareUtils.get_header (MoreUtils.base req) nr.1) = true)
        (default [] (MoreUtils.s_headers sch))
      /\ Forall (fun nr : string * MoreUtils.rules =>
                   MoreUtils.is_required nr.2 = true ->
                   Str.is_set (MoreUtils.query req !! nr.1) = true)
           (default [] (MoreUtils.s_query sch))
      /\ match MoreUtils.s_body sch, MoreUtils.parsed_json req with
         | Some fields, Some j =>
             Forall (fun fr : string * MoreUtils.rules =>
                       MoreUtils.is_required fr.2 = true ->
                       MoreUtils.py_in fr.1 j = inr true) fields
         | _, _ => True
         end.
Proof.
  rewrite <- (missing_none "Missing required header: "
                (MiddlewareUtils.get_header (MoreUtils.base req))).
  rewrite <- (missing_none "Missing required query parameter: "
                (fun param => MoreUtils.query req !! param)).
  transitivity (MoreUtils.validation_errors sch req = inr []).
  { unfold MoreUtils.validate_request.
    destruct (MoreUtils.validation_errors sch req) as [e|[|e0 errors]];
      split; intros H; try discriminate; reflexivity. }
  unfold MoreUtils.validation_errors.
  set (he := MoreUtils.missing "Missing required header: " _ _).
  set (qe := MoreUtils.missing "Missing required query parameter: " _ _).
  assert (Hbody : forall be : exn + list string,
            match be with
            | inl e => inl e
            | inr body_errors => inr (he ++ qe ++ body_errors)%list
            end = inr []
            <-> he = [] /\ qe = [] /\ be = inr []).
  { intros [e|be]; [split; [discriminate | intros (_ & _ & H); discriminate]|].
    split.
    - intros [= H]. apply app_eq_nil in H as [-> H].
      apply app_eq_nil in H as [-> ->]. auto.
    - intros (-> & -> & [= ->]). reflexivity. }
  rewrite Hbody. destruct (MoreUtils.s_body sch) as [fields|];
    [destruct (MoreUtils.parsed_json req) as [j|]|].
  - rewrite missing_fields_none. reflexivity.
  - tauto.
  - tauto.
Qed.

(** X15: when the parsed body is a number, a boolean or [null] and the
    schema requires some body field, [validate_request] answers neither 400
    nor calls [next]: the membership test raises [TypeError], which leaves
    the middleware. *)
Theorem validate_request_scalar_body (sch : MoreUtils.schema) (req : MoreUtils.Req)
    (j : json) (fields : list (string * MoreUtils.rules)) :
  MoreUtils.parsed_json req = Some j ->
  (exists e, MoreUtils.py_in "" j = inl e) ->
  MoreUtils.s_body sch = Some fields ->
  Exists (fun fr : string * MoreUtils.rules => MoreUtils.is_required fr.2 = true) fields ->
  exists e, MoreUtils.validate_request sch req = Chain.Raise e
            /\ exn_type e = "TypeError".
Proof.
  intros Hj Hscalar Hb Hex.
  unfold MoreUtils.validate_request, MoreUtils.validation_errors. rewrite Hb, Hj.
  destruct (missing_fields_scalar j fields Hscalar Hex) as (e & He & Ht).
  rewrite He. exists e. split; [reflexivity | exact Ht].
Qed.

Lemma validate_request_scalar_body_witness :
  exists e,
    MoreUtils.validate_request
      {| MoreUtils.s_headers := None; MoreUtils.s_query := None;
         MoreUtils.s_body := Some [("name", {| MoreUtils.required := Some (JBool true) |})] |}
      (MoreUtils.set_json (JInt 7) (utils_request "POST" "/api/users" ∅))
    = Chain.Raise e
    /\ exn_type e = "TypeError".
Proof.
  apply (validate_request_scalar_body _ _ (JInt 7)
           [("name", {| MoreUtils.required := Some (JBool true) |})]).
  - reflexivity.
  - eexists. reflexivity.
  - reflexivity.
  - constructor. reflexivity.
Defined.

(** X16: [json_parser] leaves alone a request whose content type does not
    name JSON or whose body is empty, and for such a request
    [validate_request] does not look at the body rules of the schema: it
    decides as the schema without body rules does. *)
Theorem unparsed_body_not_validated (loads : string -> exn + json)
    (sch : MoreUtils.schema) (req : MoreUtils.Req) :
  MoreUtils.parsed_json req = None ->
  Str.contains "application/json"
    (default "" (MiddlewareUtils.get_header (MoreUtils.base req) "content-type"))
  && Str.is_set (MoreUtils.body req) = false ->
  MoreUtils.json_parser loads req = (req, Chain.Next Chain.Ret)
  /\ MoreUtils.validate_request sch (MoreUtils.json_parser loads req).1
     = MoreUtils.validate_request
         {| MoreUtils.s_headers := MoreUtils.s_headers sch;
            MoreUtils.s_query := MoreUtils.s_query sch;
            MoreUtils.s_body := None |}
         req.
Proof.
  intros Hj Hskip. unfold MoreUtils.json_parser. rewrite Hskip.
  split; [reflexivity|]. simpl.
  unfold MoreUtils.validate_request, MoreUtils.validation_errors. simpl.
  rewrite Hj. destruct (MoreUtils.s_body sch); reflexivity.
Qed.

Lemma unparsed_body_not_validated_witness :
  let sch := {| MoreUtils.s_headers := None; MoreUtils.s_query := None;
                MoreUtils.s_body :=
                  Some [("name", {| MoreUtils.required := Some (JBool true) |})] |} in
  let req := utils_request "POST" "/api/users" ∅ in
  MoreUtils.json_parser (fun _ => inr JNull) req = (req, Chain.Next Chain.Ret)
  /\ MoreUtils.validate_request sch (MoreUtils.json_parser (fun _ => inr JNull) req).1
     = MoreUtils.validate_request
         {| MoreUtils.s_headers := MoreUtils.s_headers sch;
            MoreUtils.s_query := MoreUtils.s_query sch;
            MoreUtils.s_body := None |}
         req.
Proof.
  intros sch req. apply (unparsed_body_not_validated (fun _ => inr JNull) sch req).
  - reflexivity.
  - vm_compute. reflexivity.
Defined.

(** X17: [security_headers] always calls [next], on a response object whose
    six security headers are bound to the fixed values, over whatever was
    bound to those names; every other header, the status and the connection
    output are as before ([set_header] being that of [simple_middleware.py]). *)
Theorem security_headers_then_next (req : MoreUtils.Req) (k : nat)
    (next : SimpleMiddleware.World -> SimpleMiddleware.result)
    (w : SimpleMiddleware.World) :
  let w1 := foldl apply_mutation w security_changes in
  SimpleMiddleware.run k (MoreUtils.security_headers req) next w
  = (let '(o, w2, evs) := next w1 in (o, w2, Chain.CallNext k :: evs))
  /\ (forall name,
        SimpleMiddleware.dict_get name
          (SimpleMiddleware.Response.headers (SimpleMiddleware.res w1))
        = match last_set name security_changes with
          | Some v => Some v
          | None => SimpleMiddleware.dict_get name
                      (SimpleMiddleware.Response.headers (SimpleMiddleware.res w))
          end)
  /\ SimpleMiddleware.Response.status_code (SimpleMiddleware.res w1)
     = SimpleMiddleware.Response.status_code (SimpleMiddleware.res w)
  /\ SimpleMiddleware.wire w1 = SimpleMiddleware.wire w.
Proof.
  intros w1. split; [|split; [|split]].
  - change (MoreUtils.security_headers req)
      with (foldr mutate (Chain.Next Chain.Ret) security_changes).
    rewrite run_changes_then. apply run_next_ret.
  - intros name. apply changes_lookup.
  - reflexivity.
  - reflexivity.
Qed.

Section LimiterCalls.
Import Chain MiddlewareUtils.
Variables max_requests window_seconds : Z.

(** One call of the limiter, whatever the dictionary holds: the record of
    the calling client is filtered, then the call is refused on a full
    record or the time stamp is appended; no other key changes. *)
Lemma rate_limiter_call (clients : gmap string (list Z)) (now : Z) (req : Request) :
  let ip := client_ip_of req in
  let kept := filter (fun t => now - t < window_seconds) (default [] (clients !! ip)) in
  let after := rate_limiter max_requests window_seconds clients now req in
  (max_requests <= Z.of_nat (length kept) ->
     after.2 = limiter_reject max_requests window_seconds
     /\ after.1 !! ip = Some kept)
  /\ (Z.of_nat (length kept) < max_requests ->
        after.2 = limiter_pass max_requests window_seconds now (length kept)
        /\ after.1 !! ip = Some (kept ++ [now])%list)
  /\ (forall ip', ip <> ip' -> after.1 !! ip' = clients !! ip').
Proof.
  intros ip kept after. unfold after, rate_limiter. fold ip.
  set (clients_a := if bool_decide (is_Some (clients !! ip)) then clients
                    else <[ip := []]> clients).
  assert (Ha : default [] (clients_a !! ip) = default [] (clients !! ip)).
  { unfold clients_a. destruct (clients !! ip) as [record|] eqn:Hc.
    - rewrite bool_decide_eq_true_2 by (eexists; reflexivity). rewrite Hc. reflexivity.
    - rewrite bool_decide_eq_false_2 by (intros [x Hx]; discriminate).
      rewrite lookup_insert_eq. reflexivity. }
  assert (Hother : forall ip', ip <> ip' -> clients_a !! ip' = clients !! ip').
  { intros ip' Hne. unfold clients_a.
    destruct (bool_decide (is_Some (clients !! ip))); [reflexivity|].
    apply lookup_insert_ne. exact Hne. }
  rewrite Ha. fold kept. rewrite lookup_insert_eq. simpl.
  destruct (decide (Z.of_nat (length kept) >= max_requests)) as [Hfull|Hroom].
  - rewrite bool_decide_eq_true_2 by exact Hfull. simpl.
    split; [|split].
    + intros _. split; [reflexivity | apply lookup_insert_eq].
    + intros; lia.
    + intros ip' Hne. rewrite lookup_insert_ne by exact Hne. apply Hother. exact Hne.
  - rewrite bool_decide_eq_false_2 by exact Hroom. simpl.
    rewrite lookup_insert_eq. simpl. rewrite length_app. simpl.
    split; [|split].
    + intros; lia.
    + intros _. split; [|reflexivity].
      unfold limiter_pass. repeat f_equal; lia.
    + intros ip' Hne. rewrite !lookup_insert_ne by exact Hne. apply Hother. exact Hne.
Qed.
End LimiterCalls.

(** X18: a call of the [rate_limiter] middleware changes the record of the
    calling client only: under every other key the dictionary [clients]
    holds what it held before, whether the call is refused or not. *)
Theorem rate_limiter_other_clients (max_requests window_seconds : Z)
    (clients : gmap string (list Z)) (now : Z) (req : MiddlewareUtils.Request)
    (ip : string) :
  ip <> MiddlewareUtils.client_ip_of req ->
  (MiddlewareUtils.rate_limiter max_requests window_seconds clients now req).1 !! ip
  = clients !! ip.
Proof.
  intros Hne.
  destruct (rate_limiter_call max_requests window_seconds clients now req) as (_ & _ & H).
  apply H. congruence.
Qed.

Lemma rate_limiter_other_clients_witness :
  (MiddlewareUtils.rate_limiter 1 60 {[ "10.0.0.2" := [5] ]} 7 (client "10.0.0.1")).1
    !! "10.0.0.2"
  = ({[ "10.0.0.2" := [5] ]} : gmap string (list Z)) !! "10.0.0.2".
Proof.
  apply (rate_limiter_other_clients 1 60 {[ "10.0.0.2" := [5] ]} 7 (client "10.0.0.1")
           "10.0.0.2").
  vm_compute. discriminate.
Defined.

(** X19: the limiter counts under the text of the [X-Forwarded-For] header
    when the request has a non-empty one, not under the address of the
    connection: a request that names a client never seen is let through
    with [max_requests - 1] remaining, whatever the record of its own
    address holds, and that record stays as it is. *)
Theorem forwarded_for_names_the_client (max_requests window_seconds : Z)
    (clients : gmap string (list Z)) (now : Z) (req : MiddlewareUtils.Request)
    (named : string) :
  0 < max_requests ->
  MiddlewareUtils.get_header req "x-forwarded-for" = Some named ->
  named <> "" ->
  clients !! named = None ->
  named <> MiddlewareUtils.remote_addr req ->
  let after := MiddlewareUtils.rate_limiter max_requests window_seconds clients now req in
  after.2 = limiter_pass max_requests window_seconds now 0
  /\ after.1 !! named = Some [now]
  /\ after.1 !! MiddlewareUtils.remote_addr req
     = clients !! MiddlewareUtils.remote_addr req.
Proof.
  intros Hmax Hh Hne Hnew Haddr after.
  assert (Hip : MiddlewareUtils.client_ip_of req = named).
  { unfold MiddlewareUtils.client_ip_of. rewrite Hh. simpl.
    destruct (String.eqb_spec named ""); [contradiction | reflexivity]. }
  destruct (rate_limiter_call max_requests window_seconds clients now req)
    as (_ & Hpass & Hother).
  rewrite Hip, Hnew in Hpass. simpl in Hpass.
  destruct (Hpass ltac:(lia)) as [Hp Hrec]. split; [exact Hp|]. split; [exact Hrec|].
  apply Hother. rewrite Hip. exact Haddr.
Qed.

Lemma forwarded_for_names_the_client_witness :
  let req := {| MiddlewareUtils.method := "GET";
                MiddlewareUtils.path := "/api/status";
                MiddlewareUtils.get_header :=
                  fun name => if String.eqb name "x-forwarded-for"
                              then Some "203.0.113.9" else None;
                MiddlewareUtils.remote_addr := "10.0.0.1" |} in
  let after := MiddlewareUtils.rate_limiter 1 60 {[ "10.0.0.1" := [5] ]} 7 req in
  after.2 = limiter_pass 1 60 7 0
  /\ after.1 !! "203.0.113.9" = Some [7]
  /\ after.1 !! "10.0.0.1" = ({[ "10.0.0.1" := [5] ]} : gmap string (list Z)) !! "10.0.0.1".
Proof.
  intros req.
  apply (forwarded_for_names_the_client 1 60 {[ "10.0.0.1" := [5] ]} 7 req "203.0.113.9").
  - lia.
  - reflexivity.
  - discriminate.
  - vm_compute. reflexivity.
  - simpl. discriminate.
Defined.

(** X20: a call of the limiter either answers 429, or sets
    [X-RateLimit-Remaining] to a number from 0 to [max_requests - 1] and
    calls [next]; the number is what the client's record, with this request
    in it, leaves of [max_requests]. *)
Theorem rate_limit_remaining_range (max_requests window_seconds : Z)
    (clients : gmap string (list Z)) (now : Z) (req : MiddlewareUtils.Request) :
  let after := MiddlewareUtils.rate_limiter max_requests window_seconds clients now req in
  after.2 = limiter_reject max_requests window_seconds
  \/ exists remaining record,
       0 <= remaining < max_requests
       /\ after.1 !! MiddlewareUtils.client_ip_of req = Some record
       /\ remaining = max_requests - Z.of_nat (length record)
       /\ after.2
          = Chain.SetHeader "X-RateLimit-Limit" (Str.of_Z max_requests)
              (Chain.SetHeader "X-RateLimit-Remaining" (Str.of_Z remaining)
                 (Chain.SetHeader "X-RateLimit-Reset" (Str.of_Z (now + window_seconds))
                    (Chain.Next Chain.Ret))).
Proof.
  intros after.
  destruct (rate_limiter_call max_requests window_seconds clients now req)
    as (Hreject & Hpass & _).
  set (kept := filter (fun t => now - t < window_seconds)
                 (default [] (clients !! MiddlewareUtils.client_ip_of req))) in *.
  destruct (decide (max_requests <= Z.of_nat (length kept))) as [Hfull|Hroom].
  - left. apply Hreject. exact Hfull.
  - right. destruct (Hpass ltac:(lia)) as [Hp Hrec].
    exists (max_requests - (Z.of_nat (length kept) + 1)), (kept ++ [now])%list.
    split; [lia|]. split; [exact Hrec|]. split.
    + rewrite length_app. simpl. lia.
    + exact Hp.
Qed.

(** X21: when what comes behind them returns, the two error handling
    middlewares do nothing of their own: the response object, the connection
    and the printed lines are as [next] left them.  [error_handler] of the
    utilities hands on the value [next] returned, [error_handler_middleware]
    of the error handling example returns [None]. *)
Theorem error_handlers_idle_on_success {R : Type} (include_stack_trace : bool) (req : R)
    (req_path : string) (k : nat)
    (next : SimpleMiddleware.World -> SimpleMiddleware.result)
    (w w1 : SimpleMiddleware.World) (v : Chain.retval) (evs : list Chain.event) :
  next w = (Chain.Val v, w1, evs) ->
  SimpleMiddleware.run k (MiddlewareUtils.error_handler include_stack_trace req) next w
  = (Chain.Val v, w1, Chain.CallNext k :: evs)
  /\ SimpleMiddleware.run k (ErrorApp.error_handler_middleware req_path) next w
     = (Chain.Val Chain.RNone, w1, Chain.CallNext k :: evs).
Proof.
  intros Hnext. unfold MiddlewareUtils.error_handler, ErrorApp.error_handler_middleware.
  simpl. rewrite Hnext. simpl. rewrite app_nil_r. split; reflexivity.
Qed.

Lemma error_handlers_idle_on_success_witness :
  SimpleMiddleware.run 0 (MiddlewareUtils.error_handler false tt)
    (fun w => (Chain.Val Chain.RNone, w, [])) fresh_world
  = (Chain.Val Chain.RNone, fresh_world, [Chain.CallNext 0])
  /\ SimpleMiddleware.run 0 (ErrorApp.error_handler_middleware "/")
       (fun w => (Chain.Val Chain.RNone, w, [])) fresh_world
     = (Chain.Val Chain.RNone, fresh_world, [Chain.CallNext 0]).
Proof.
  apply (error_handlers_idle_on_success false tt "/" 0
           (fun w => (Chain.Val Chain.RNone, w, [])) fresh_world fresh_world
           Chain.RNone []).
  reflexivity.
Defined.

(** X22: [error_handler_middleware] of the error handling example answers
    an exception from behind it with status 500 whatever status the
    exception carries and returns [None]: it first prints the message and,
    on the response object of [simple_middleware.py] with an open connection,
    writes one response whose headers are those the response object had when
    the exception came out, with [Content-Type: application/json], and whose
    body names the message and the request path. *)
Theorem app_error_handler_500 (req_path : string) (k : nat)
    (next : SimpleMiddleware.World -> SimpleMiddleware.result)
    (w w1 : SimpleMiddleware.World) (e : exn) (evs : list Chain.event) :
  next w = (Chain.Exn e, w1, evs) ->
  SimpleMiddleware.connected w1 = true ->
  exists w2,
    SimpleMiddleware.run k (ErrorApp.error_handler_middleware req_path) next w
    = (Chain.Val Chain.RNone, w2, Chain.CallNext k :: evs)
    /\ SimpleMiddleware.Response.status_code (SimpleMiddleware.res w2) = 500
    /\ (exists more,
          SimpleMiddleware.stdout w2
          = (SimpleMiddleware.stdout w1
             ++ Chain.Line ("[ERROR] " ++ exn_msg e) :: more)%list)
    /\ SimpleMiddleware.wire w2
       = (SimpleMiddleware.wire w1
          ++ render (500,
                     SimpleMiddleware.dict_set "Content-Type" "application/json"
                       (SimpleMiddleware.Response.headers (SimpleMiddleware.res w1)),
                     Chain.JsonText
                       (JDict [("error", JStr "Internal Server Error");
                               ("message", JStr (exn_msg e));
                               ("path", JStr req_path);
                               ("handled_by", JStr "Global error handler middleware")])))%list.
Proof.
  intros Hnext Hc. unfold ErrorApp.error_handler_middleware. simpl. rewrite Hnext. simpl.
  unfold SimpleMiddleware.Response_json, SimpleMiddleware.Response_send. simpl.
  rewrite Hc. simpl. rewrite app_nil_r. eexists. split; [reflexivity|].
  split; [reflexivity|]. split; [exists []; reflexivity | reflexivity].
Qed.

Lemma app_error_handler_500_witness :
  exists w2,
    SimpleMiddleware.run 0 (ErrorApp.error_handler_middleware "/error/unhandled")
      (fun w => (Chain.Exn (Exception "HTTPError" "gone" (Some 410) ""), w, []))
      fresh_world
    = (Chain.Val Chain.RNone, w2, [Chain.CallNext 0])
    /\ SimpleMiddleware.Response.status_code (SimpleMiddleware.res w2) = 500
    /\ (exists more,
          SimpleMiddleware.stdout w2
          = (SimpleMiddleware.stdout fresh_world
             ++ Chain.Line ("[ERROR] " ++ "gone") :: more)%list)
    /\ SimpleMiddleware.wire w2
       = (SimpleMiddleware.wire fresh_world
          ++ render (500,
                     SimpleMiddleware.dict_set "Content-Type" "application/json"
                       (SimpleMiddleware.Response.headers
                          (SimpleMiddleware.res fresh_world)),
                     Chain.JsonText
                       (JDict [("error", JStr "Internal Server Error");
                               ("message", JStr "gone");
                               ("path", JStr "/error/unhandled");
                               ("handled_by", JStr "Global error handler middleware")])))%list.
Proof.
  apply (app_error_handler_500 "/error/unhandled" 0
           (fun w => (Chain.Exn (Exception "HTTPError" "gone" (Some 410) ""), w, []))
           fresh_world fresh_world (Exception "HTTPError" "gone" (Some 410) "") []).
  - reflexivity.
  - reflexivity.
Defined.

(** X23: on the response object of [simple_middleware.py], when the client
    has gone, the error handlers do not contain the exception: writing their
    own response raises, and what leaves the middleware is the connection
    error in place of the exception that came from behind it; nothing is
    written. *)
Theorem error_handlers_on_closed_connection {R : Type} (include_stack_trace : bool)
    (req : R) (req_path : string) (k : nat)
    (next : SimpleMiddleware.World -> SimpleMiddleware.result)
    (w w1 : SimpleMiddleware.World) (e : exn) (evs : list Chain.event) :
  next w = (Chain.Exn e, w1, evs) ->
  SimpleMiddleware.connected w1 = false ->
  (exists w2,
     SimpleMiddleware.run k (MiddlewareUtils.error_handler include_stack_trace req) next w
     = (Chain.Exn SimpleMiddleware.connection_error, w2, Chain.CallNext k :: evs)
     /\ SimpleMiddleware.wire w2 = SimpleMiddleware.wire w1)
  /\ (exists w2,
        SimpleMiddleware.run k (ErrorApp.error_handler_middleware req_path) next w
        = (Chain.Exn SimpleMiddleware.connection_error, w2, Chain.CallNext k :: evs)
        /\ SimpleMiddleware.wire w2 = SimpleMiddleware.wire w1).
Proof.
  intros Hnext Hc. unfold MiddlewareUtils.error_handler, ErrorApp.error_handler_middleware.
  simpl. rewrite Hnext. simpl.
  unfold SimpleMiddleware.Response_json, SimpleMiddleware.Response_send. simpl.
  rewrite Hc. simpl. rewrite app_nil_r.
  split; eexists; (split; [reflexivity|]); reflexivity.
Qed.

Lemma error_handlers_on_closed_connection_witness :
  (exists w2,
     SimpleMiddleware.run 0 (MiddlewareUtils.error_handler false tt)
       (fun w => (Chain.Exn division_by_zero, w, [])) closed_world
     = (Chain.Exn SimpleMiddleware.connection_error, w2, [Chain.CallNext 0])
     /\ SimpleMiddleware.wire w2 = SimpleMiddleware.wire closed_world)
  /\ (exists w2,
        SimpleMiddleware.run 0 (ErrorApp.error_handler_middleware "/")
          (fun w => (Chain.Exn division_by_zero, w, [])) closed_world
        = (Chain.Exn SimpleMiddleware.connection_error, w2, [Chain.CallNext 0])
        /\ SimpleMiddleware.wire w2 = SimpleMiddleware.wire closed_world).
Proof.
  apply (error_handlers_on_closed_connection false tt "/" 0
           (fun w => (Chain.Exn division_by_zero, w, [])) closed_world closed_world
           division_by_zero []).
  - reflexivity.
  - reflexivity.
Defined.

Section RelativePaths.













End RelativePaths.



Section SessionFacts.
Import Sessions SessionApp.

Lemma find_app_last {A : Type} (f : A -> bool) (l : list A) (x : A) :
  Forall (fun y => f y = false) l -> f x = true -> List.find f (l ++ [x]) = Some x.
Proof.
  induction 1 as [|y l Hy _ IH]; intros Hx; simpl.
  - rewrite Hx. reflexivity.
  - rewrite Hy. apply IH. exact Hx.
Qed.

Lemma filter_all {A : Type} (P : A -> Prop) `{forall x, Decision (P x)} (l : list A) :
  Forall P l -> filter P l = l.
Proof.
  induction 1 as [|x l Hx _ IH]; [reflexivity|].
  rewrite filter_cons_True by exact Hx. f_equal. exact IH.
Qed.

Lemma filter_none {A : Type} (P : A -> Prop) `{forall x, Decision (P x)} (l : list A) :
  Forall (fun x => ~ P x) l -> filter P l = [].
Proof.
  induction 1 as [|x l Hx _ IH]; [reflexivity|].
  rewrite filter_cons_False by exact Hx. exact IH.
Qed.

Lemma filter_holds {A : Type} (P : A -> Prop) `{forall x, Decision (P x)} (l : list A) :
  Forall P (filter P l).
Proof.
  apply Forall_forall. intros x Hx. apply list_elem_of_filter in Hx as [Hx _]. exact Hx.
Qed.

Lemma create_session_store (now now' : Z) (session_id : string)
    (sessions : list Session) (uid : string) :
  create_session now now' session_id sessions uid
  = (session_id,
     (filter (fun s => user_id s <> uid) sessions
      ++ [new_session now now' session_id uid])%list).
Proof. reflexivity. Qed.

(** Looking up a fresh session in the file [create_session] wrote. *)
Lemma get_created_session (now now' t : Z) (session_id : string)
    (sessions : list Session) (uid : string) :
  session_id <> "" ->
  Forall (fun s => id s <> session_id) sessions ->
  let kept := filter (fun s => user_id s <> uid) sessions in
  let new := new_session now now' session_id uid in
  get_session t (kept ++ [new]) (Some session_id)
  = if bool_decide (t > now + hours_24) then (None, kept)
    else (Some new, (kept ++ [new])%list).
Proof.
  intros Hne Hfresh kept new. unfold get_session. simpl.
  destruct (String.eqb_spec session_id ""); [contradiction|]. simpl.
  assert (Hkept : Forall (fun s => id s <> session_id) kept).
  { apply Forall_forall. intros s Hs. apply list_elem_of_filter in Hs as [_ Hs].
    rewrite Forall_forall in Hfresh. apply Hfresh. exact Hs. }
  rewrite (find_app_last _ kept new).
  - change (expires_at new) with (now + hours_24).
    destruct (bool_decide (t > now + hours_24)); [|reflexivity].
    f_equal. rewrite filter_app.
    rewrite (filter_all (fun s => Some (id s) <> Some session_id) kept).
    + rewrite filter_cons_False by (simpl; intros H; apply H; reflexivity).
      rewrite filter_nil. apply app_nil_r.
    + eapply Forall_impl; [exact Hkept|]. intros s Hs [= H]. contradiction.
  - eapply Forall_impl; [exact Hkept|]. intros s Hs. simpl.
    apply bool_decide_eq_false_2. intros [= H]. contradiction.
  - apply bool_decide_eq_true_2. reflexivity.
Qed.

Lemma get_user_by_id_found (users : list User) (user_id : string) :
  is_Some (get_user_by_id users user_id)
  <-> exists u, u ∈ users /\ uid u = user_id.
Proof.
  unfold get_user_by_id.
  destruct (List.find (fun u => bool_decide (uid u = user_id)) users) as [u|] eqn:Hf.
  - apply find_some in Hf as [Hin Hu]. apply bool_decide_eq_true_1 in Hu.
    split; [|intros _; eexists; reflexivity].
    intros _. exists u. split; [apply list_elem_of_In; exact Hin | exact Hu].
  - split; [intros [x Hx]; discriminate|].
    intros (u & Hin & Hu). apply list_elem_of_In in Hin.
    pose proof (find_none _ _ Hf u Hin) as Hno. simpl in Hno.
    apply bool_decide_eq_false_1 in Hno. contradiction.
Qed.
End SessionFacts.

(** X25: after [create_session(user_id)] the sessions file holds exactly
    one session of that user, the new one, at its end, and the sessions of
    every other user as they were, in their order; the identifier returned
    is that of the new session, which expires 24 hours after the first clock
    reading. *)
Theorem create_session_one_per_user (now now' : Z) (session_id : string)
    (sessions : list Sessions.Session) (uid : string) :
  let after := SessionApp.create_session now now' session_id sessions uid in
  after.1 = session_id
  /\ filter (fun s => Sessions.user_id s = uid) after.2
     = [new_session now now' session_id uid]
  /\ filter (fun s => Sessions.user_id s <> uid) after.2
     = filter (fun s => Sessions.user_id s <> uid) sessions
  /\ last after.2 = Some (new_session now now' session_id uid)
  /\ Sessions.expires_at (new_session now now' session_id uid)
     = now + 24 * 3600 * 1000000.
Proof.
  intros after. unfold after. rewrite create_session_store. simpl.
  split; [reflexivity|]. split; [|split; [|split]].
  - rewrite filter_app.
    rewrite (filter_none (fun s => Sessions.user_id s = uid)).
    + rewrite filter_cons_True by reflexivity. reflexivity.
    + eapply Forall_impl; [apply filter_holds|]. intros s Hs. exact Hs.
  - rewrite filter_app.
    rewrite (filter_all (fun s => Sessions.user_id s <> uid)) by apply filter_holds.
    rewrite filter_cons_False by (simpl; intros H; apply H; reflexivity).
    rewrite filter_nil. apply app_nil_r.
  - apply last_snoc.
  - reflexivity.
Qed.

(** X26: a session [create_session] made under a fresh, non-empty
    identifier is found by [get_session] up to its expiry, the file left as
    it is; the first lookup after the expiry returns [None] and takes the
    session out of the file. *)
Theorem created_session_round_trip (now now' t : Z) (session_id : string)
    (sessions : list Sessions.Session) (uid : string) :
  session_id <> "" ->
  Forall (fun s => Sessions.id s <> session_id) sessions ->
  let after := SessionApp.create_session now now' session_id sessions uid in
  (t <= now + SessionApp.hours_24 ->
     Sessions.get_session t after.2 (Some after.1)
     = (Some (new_session now now' session_id uid), after.2))
  /\ (now + SessionApp.hours_24 < t ->
        Sessions.get_session t after.2 (Some after.1)
        = (None, filter (fun s => Sessions.user_id s <> uid) sessions)).
Proof.
  intros Hne Hfresh after. unfold after. rewrite create_session_store. simpl.
  rewrite (get_created_session now now' t session_id sessions uid Hne Hfresh).
  split; intros Ht.
  - rewrite bool_decide_eq_false_2 by lia. reflexivity.
  - rewrite bool_decide_eq_true_2 by lia. reflexivity.
Qed.

Lemma created_session_round_trip_witness :
  let after := SessionApp.create_session 0 1 "b7e1" expired_store "2" in
  (5 <= 0 + SessionApp.hours_24 ->
     Sessions.get_session 5 after.2 (Some after.1)
     = (Some (new_session 0 1 "b7e1" "2"), after.2))
  /\ (0 + SessionApp.hours_24 < 5 ->
        Sessions.get_session 5 after.2 (Some after.1)
        = (None, filter (fun s => Sessions.user_id s <> "2") expired_store)).
Proof.
  apply (created_session_round_trip 0 1 5 "b7e1" expired_store "2").
  - discriminate.
  - vm_compute. repeat constructor; discriminate.
Defined.

(** X27: a session [get_session] returns is in the file, has the
    identifier asked for, which is not empty, and has not expired, and the
    file is left as it is; when it returns [None], the sessions of every
    other identifier are still in the file. *)
Theorem get_session_sound (now : Z) (sessions : list Sessions.Session)
    (session_id : option string) :
  match (Sessions.get_session now sessions session_id).1 with
  | Some s =>
      (Sessions.get_session now sessions session_id).2 = sessions
      /\ s ∈ sessions
      /\ session_id = Some (Sessions.id s)
      /\ Sessions.id s <> ""
      /\ now <= Sessions.expires_at s
  | None =>
      forall s, s ∈ sessions -> Some (Sessions.id s) <> session_id ->
                s ∈ (Sessions.get_session now sessions session_id).2
  end.
Proof.
  unfold Sessions.get_session.
  destruct (Str.is_set session_id) eqn:Hset; simpl; [|intros s Hs _; exact Hs].
  destruct (List.find _ sessions) as [s|] eqn:Hf; simpl; [|intros s Hs _; exact Hs].
  apply find_some in Hf as [Hin Hid]. apply bool_decide_eq_true_1 in Hid.
  destruct (decide (now > Sessions.expires_at s)) as [Hexp|Hok].
  - rewrite bool_decide_eq_true_2 by exact Hexp. simpl.
    intros s' Hs' Hne. apply list_elem_of_filter. split; assumption.
  - rewrite bool_decide_eq_false_2 by exact Hok. simpl.
    split; [reflexivity|]. split; [apply list_elem_of_In; exact Hin|].
    split; [congruence|]. split; [|lia].
    rewrite <- Hid in Hset. simpl in Hset. intros Hempty. rewrite Hempty in Hset.
    discriminate.
Qed.

(** X28: behind [session_middleware], [auth_required] calls [next] exactly
    when the request has a non-empty [session_id] cookie, the first session
    of the file with that identifier has not expired, and the users file has
    a user with the identifier that session names; in every other case it
    redirects to the login page. *)
Theorem session_then_auth_required (now : Z) (users : list Sessions.User)
    (sessions : list Sessions.Session) (req : Sessions.Request) (req_path : string) :
  let req' := (Sessions.session_middleware now users sessions req).1.2 in
  (SessionApp.auth_required (Sessions.user req') req_path = None
   <-> exists sid s,
         Sessions.cookies req !! "session_id" = Some sid
         /\ sid <> ""
         /\ List.find (fun s => bool_decide (Some (Sessions.id s) = Some sid)) sessions
            = Some s
         /\ now <= Sessions.expires_at s
         /\ exists u, u ∈ users /\ Sessions.uid u = Sessions.user_id s)
  /\ (SessionApp.auth_required (Sessions.user req') req_path = None
      \/ SessionApp.auth_required (Sessions.user req') req_path
         = Some (SessionApp.Redirect ("/login?redirect=" ++ req_path))).
Proof.
  intros req'. split.
  2: { unfold SessionApp.auth_required. destruct (Sessions.user req'); auto. }
  unfold req', Sessions.session_middleware, Sessions.get_session.
  destruct (Sessions.cookies req !! "session_id") as [sid|] eqn:Hcookie; simpl.
  2: { split; [discriminate|]. intros (sid & s & H & _). discriminate. }
  destruct (String.eqb_spec sid "") as [->|Hne]; simpl.
  { split; [discriminate|]. intros (sid & s & [= <-] & H & _). contradiction. }
  destruct (List.find _ sessions) as [s|] eqn:Hf; simpl.
  2: { split; [discriminate|]. intros (sid' & s & [= <-] & _ & H & _).
       rewrite Hf in H. discriminate. }
  destruct (decide (now > Sessions.expires_at s)) as [Hexp|Hok].
  - rewrite bool_decide_eq_true_2 by exact Hexp. simpl.
    split; [discriminate|]. intros (sid' & s' & [= <-] & _ & H & Hle & _).
    rewrite Hf in H. injection H as <-. lia.
  - rewrite bool_decide_eq_false_2 by exact Hok. simpl.
    pose proof (get_user_by_id_found users (Sessions.user_id s)) as Hu.
    destruct (Sessions.get_user_by_id users (Sessions.user_id s)) as [u|]; simpl.
    + split; [|reflexivity]. intros _. exists sid, s.
      split; [reflexivity|]. split; [exact Hne|]. split; [exact Hf|]. split; [lia|].
      apply Hu. eexists. reflexivity.
    + split; [discriminate|]. intros (sid' & s' & [= <-] & _ & H & _ & Hex).
      rewrite Hf in H. injection H as <-. apply Hu in Hex as [x Hx]. discriminate.
Qed.

Section LoginFacts.
Import Sessions SessionApp.
Variable sha256_hex : string -> string.

Lemma get_user_by_id_public (users : list User) (user_id : string) :
  get_user_by_id users user_id
  = public_of <$> List.find (fun u => bool_decide (uid u = user_id)) users.
Proof.
  unfold get_user_by_id. destruct (List.find _ users); reflexivity.
Qed.

Lemma get_user_by_credentials_public (users : list User) (name pass : string) :
  get_user_by_credentials sha256_hex users name pass
  = public_of <$> List.find (fun u => bool_decide (username u = name)
                                      && bool_decide (password u = sha256_hex pass)) users.
Proof.
  unfold get_user_by_credentials. destruct (List.find _ users); reflexivity.
Qed.

Lemma find_is_Some {A : Type} (f : A -> bool) (l : list A) (x : A) :
  In x l -> f x = true -> exists y, List.find f l = Some y.
Proof.
  intros Hin Hx. destruct (List.find f l) as [y|] eqn:Hf; [eexists; reflexivity|].
  rewrite (find_none _ _ Hf x Hin) in Hx. discriminate.
Qed.

Lemma unique_by_key {A K : Type} (key : A -> K) (l : list A) (x y : A) :
  NoDup (key <$> l) -> x ∈ l -> y ∈ l -> key x = key y -> x = y.
Proof.
  induction l as [|z l IH]; intros Hnd Hx Hy Hk; [inversion Hx|].
  rewrite fmap_cons in Hnd. apply NoDup_cons in Hnd as [Hz Hnd].
  apply elem_of_cons in Hx as [->|Hx]; apply elem_of_cons in Hy as [->|Hy].
  - reflexivity.
  - exfalso. apply Hz. rewrite Hk. apply list_elem_of_fmap_2. exact Hy.
  - exfalso. apply Hz. rewrite <- Hk. apply list_elem_of_fmap_2. exact Hx.
  - apply IH; assumption.
Qed.

Lemma find_by_unique_key {A : Type} (key : A -> string) (l : list A) (x : A) :
  NoDup (key <$> l) -> x ∈ l ->
  List.find (fun y => bool_decide (key y = key x)) l = Some x.
Proof.
  intros Hnd Hx.
  destruct (find_is_Some (fun y => bool_decide (key y = key x)) l x) as [y Hy].
  - apply list_elem_of_In. exact Hx.
  - apply bool_decide_eq_true_2. reflexivity.
  - rewrite Hy. f_equal. apply find_some in Hy as [Hin Hk].
    apply bool_decide_eq_true_1 in Hk.
    apply (unique_by_key key l); [exact Hnd | apply list_elem_of_In; exact Hin | exact Hx | exact Hk].
Qed.
End LoginFacts.

(** X29: a login with the name and password of a user of the file, in an
    application whose users have distinct identifiers and with a fresh,
    non-empty session identifier, sets the [session_id] cookie to that
    identifier and redirects to the address of the form; a later request
    with the cookie, up to 24 hours after the login, gets from
    [session_middleware] the session of a user with that name and password
    and that user's record without the password, and the sessions file stays
    as the login left it. *)
Theorem login_opens_session (sha256_hex : string -> string) (now now' t : Z)
    (session_id : string) (users : list Sessions.User)
    (sessions : list Sessions.Session) (body : gmap string string)
    (req : Sessions.Request) (u : Sessions.User) :
  NoDup (Sessions.uid <$> users) ->
  session_id <> "" ->
  Forall (fun s => Sessions.id s <> session_id) sessions ->
  u ∈ users ->
  Sessions.username u = default "" (body !! "username") ->
  Sessions.password u = sha256_hex (default "" (body !! "password")) ->
  Sessions.cookies req !! "session_id" = Some session_id ->
  t <= now + SessionApp.hours_24 ->
  let after := SessionApp.handle_login sha256_hex now now' session_id users sessions body in
  let seen := Sessions.session_middleware t users after.1 req in
  after.2 = [SessionApp.SetCookie "session_id" session_id (Some true) 86400;
             SessionApp.Redirect (default "/" (body !! "redirect"))]
  /\ seen.1.1 = after.1
  /\ exists u0,
       u0 ∈ users
       /\ Sessions.username u0 = Sessions.username u
       /\ Sessions.password u0 = Sessions.password u
       /\ Sessions.session seen.1.2
          = Some (new_session now now' session_id (Sessions.uid u0))
       /\ Sessions.user seen.1.2 = Some (public_of u0).
Proof.
  intros Hnd Hne Hfresh Hu Hname Hpass Hcookie Ht after seen.
  unfold seen, after, SessionApp.handle_login.
  rewrite get_user_by_credentials_public.
  destruct (find_is_Some
              (fun x => bool_decide (Sessions.username x = default "" (body !! "username"))
                        && bool_decide (Sessions.password x
                                        = sha256_hex (default "" (body !! "password"))))
              users u) as [u0 Hf].
  { apply list_elem_of_In. exact Hu. }
  { rewrite !bool_decide_eq_true_2 by assumption. reflexivity. }
  rewrite Hf. simpl.
  apply find_some in Hf as [Hin Hmatch]. apply andb_prop in Hmatch as [Hn Hp].
  apply bool_decide_eq_true_1 in Hn. apply bool_decide_eq_true_1 in Hp.
  apply list_elem_of_In in Hin.
  split; [reflexivity|].
  unfold Sessions.session_middleware. rewrite Hcookie.
  fold (new_session now now' session_id (Sessions.uid u0)).
  rewrite (get_created_session now now' t session_id sessions (Sessions.uid u0) Hne Hfresh).
  rewrite bool_decide_eq_false_2 by lia. simpl.
  split; [reflexivity|]. exists u0.
  split; [exact Hin|]. split; [congruence|]. split; [congruence|].
  split; [reflexivity|].
  rewrite get_user_by_id_public.
  rewrite (find_by_unique_key Sessions.uid users u0 Hnd Hin). reflexivity.
Qed.

Lemma login_opens_session_witness :
  let users := sample_users "5e88" in
  let after := SessionApp.handle_login (fun _ => "5e88") 0 1 "b7e1" users expired_store
                 (login_form "user" "password") in
  let seen := Sessions.session_middleware 5 users after.1
                {| Sessions.cookies := {[ "session_id" := "b7e1" ]};
                   Sessions.session := None; Sessions.user := None |} in
  after.2 = [SessionApp.SetCookie "session_id" "b7e1" (Some true) 86400;
             SessionApp.Redirect (default "/" (login_form "user" "password" !! "redirect"))]
  /\ seen.1.1 = after.1
  /\ exists u0,
       u0 ∈ users
       /\ Sessions.username u0 = "user"
       /\ Sessions.password u0 = "5e88"
       /\ Sessions.session seen.1.2 = Some (new_session 0 1 "b7e1" (Sessions.uid u0))
       /\ Sessions.user seen.1.2 = Some (public_of u0).
Proof.
  intros users.
  apply (login_opens_session (fun _ => "5e88") 0 1 5 "b7e1" users expired_store
           (login_form "user" "password")
           {| Sessions.cookies := {[ "session_id" := "b7e1" ]};
              Sessions.session := None; Sessions.user := None |}
           {| Sessions.uid := "2"; Sessions.username := "user"; Sessions.password := "5e88";
              Sessions.name := "Regular User"; Sessions.email := "user@example.com";
              Sessions.ucreated_at := "2024-05-01T12:00:00" |}).
  - apply (bool_decide_unpack _). vm_compute. exact I.
  - discriminate.
  - repeat constructor; discriminate.
  - apply list_elem_of_In. simpl. right. left. reflexivity.
  - vm_compute. reflexivity.
  - vm_compute. reflexivity.
  - vm_compute. reflexivity.
  - unfold SessionApp.hours_24. lia.
Defined.

(** X30: [handle_register] keeps the user names of the file distinct: it
    changes the file only by appending one user, whose name is the stripped
    form field, is not empty and is the name of no user of the file, and
    whose stored password is the hash of the form field; when a field is
    empty or the name is taken, the users file and the sessions file stay as
    they are and the answer is a redirect back to the form. *)
Theorem register_keeps_names_distinct (sha256_hex strip : string -> string)
    (now now' : Z) (now_text session_id : string) (users : list Sessions.User)
    (sessions : list Sessions.Session) (body : gmap string string) :
  NoDup (Sessions.username <$> users) ->
  let after := SessionApp.handle_register sha256_hex strip now now' now_text session_id
                 users sessions body in
  NoDup (Sessions.username <$> after.1.1)
  /\ ((after.1.1 = users /\ after.1.2 = sessions
       /\ exists reason, after.2 = [SessionApp.Redirect ("/register?error=" ++ reason)])
      \/ exists new,
           after.1.1 = (users ++ [new])%list
           /\ Sessions.username new = strip (default "" (body !! "username"))
           /\ Sessions.username new <> ""
           /\ Sessions.password new = sha256_hex (default "" (body !! "password"))
           /\ after.1.2 = (SessionApp.create_session now now' session_id sessions
                             (Sessions.uid new)).2
           /\ after.2 = [SessionApp.SetCookie "session_id" session_id (Some true) 86400;
                         SessionApp.Redirect "/profile"]).
Proof.
  intros Hnd after. unfold after, SessionApp.handle_register.
  destruct (String.eqb_spec (strip (default "" (body !! "username"))) "") as [He|Hname];
    simpl.
  { split; [exact Hnd|]. left. split; [reflexivity|]. split; [reflexivity|].
    exists "All+fields+are+required". reflexivity. }
  destruct (String.eqb (default "" (body !! "password")) ""
            || String.eqb (strip (default "" (body !! "name"))) ""
            || String.eqb (strip (default "" (body !! "email"))) "") eqn:Hempty.
  { split; [exact Hnd|]. left. split; [reflexivity|]. split; [reflexivity|].
    exists "All+fields+are+required". reflexivity. }
  destruct (existsb _ users) eqn:Htaken.
  { split; [exact Hnd|]. left. split; [reflexivity|]. split; [reflexivity|].
    exists "Username+already+exists". reflexivity. }
  simpl. split.
  - rewrite fmap_app. apply NoDup_app. split; [exact Hnd|]. split.
    + intros name Hin Hnew. simpl in Hnew. apply list_elem_of_singleton in Hnew.
      apply list_elem_of_fmap in Hin as (u & Hu & Hin).
      assert (Hex : existsb (fun u => bool_decide
                      (Sessions.username u = strip (default "" (body !! "username"))))
                      users = true).
      { apply existsb_exists. exists u. split; [apply list_elem_of_In; exact Hin|].
        apply bool_decide_eq_true_2. congruence. }
      rewrite Hex in Htaken. discriminate.
    + simpl. apply NoDup_singleton.
  - right. eexists. split; [reflexivity|]. simpl.
    split; [reflexivity|]. split; [exact Hname|]. split; [reflexivity|].
    split; reflexivity.
Qed.

Lemma register_keeps_names_distinct_witness :
  let after := SessionApp.handle_register (fun _ => "5e88") (fun s => s) 0 1
                 "2024-05-02T08:00:00" "b7e1" (sample_users "5e88") expired_store
                 (login_form "admin" "password") in
  NoDup (Sessions.username <$> after.1.1)
  /\ ((after.1.1 = sample_users "5e88" /\ after.1.2 = expired_store
       /\ exists reason, after.2 = [SessionApp.Redirect ("/register?error=" ++ reason)])
      \/ exists new,
           after.1.1 = (sample_users "5e88" ++ [new])%list
           /\ Sessions.username new
              = (fun s => s) (default "" (login_form "admin" "password" !! "username"))
           /\ Sessions.username new <> ""
           /\ Sessions.password new
              = (fun _ => "5e88") (default "" (login_form "admin" "password" !! "password"))
           /\ after.1.2 = (SessionApp.create_session 0 1 "b7e1" expired_store
                             (Sessions.uid new)).2
           /\ after.2 = [SessionApp.SetCookie "session_id" "b7e1" (Some true) 86400;
                         SessionApp.Redirect "/profile"]).
Proof.
  apply (register_keeps_names_distinct (fun _ => "5e88") (fun s => s) 0 1
           "2024-05-02T08:00:00" "b7e1" (sample_users "5e88") expired_store
           (login_form "admin" "password")).
  apply (bool_decide_unpack _). vm_compute. exact I.
Defined.
